(** * DaysUntilNextEvent: the countdown renderer and its controller

    A shallow embedding of [src/python/main.py] (MicroPython, Raspberry Pi
    Pico W driving a NeoPixel strip) and the properties of its
    specification that concern the renderer, the light-sensor debouncer,
    the time-window test and the main-loop iteration.

    Conventions of the embedding:
    - Python [int] is [Z]; floor division [//] is [Z.div];
    - Python [float] and the [math] module are an interface ([PyFloat]):
      every theorem holds for all its implementations, and a binary64
      instance is given to evaluate examples;
    - the [time] module is an interface ([TimeModule]) with a proleptic
      Gregorian instance;
    - [random] is a tape of raw draws with a read position;
    - a raised exception is a value ([Raise]); code that mutates objects
      runs in a state-and-exception monad ([Exec]) that keeps the state
      reached when an exception is raised;
    - logging ([Logger]) only prints and appends to files: it is left out. *)

From Stdlib Require Import ZArith List Bool Lia String Ascii.
From Stdlib Require Floats.
Import ListNotations.
Local Open Scope Z_scope.

(* ====================================================================== *)
(** * Python values and control                                            *)
(* ====================================================================== *)

Inductive exn : Type :=
| ValueError
| ZeroDivisionError.

Inductive result (A : Type) : Type :=
| Ok (a : A)
| Raise (e : exn).
Arguments Ok {A} a.
Arguments Raise {A} e.

Definition rbind {A B} (r : result A) (k : A -> result B) : result B :=
  match r with
  | Ok a => k a
  | Raise e => Raise e
  end.

(** Computations over a mutable state [S] that may raise: the state is
    returned in both cases, as Python keeps the mutations made before an
    exception. *)
Definition Exec (S A : Type) : Type := S -> result A * S.

Definition ret {S A} (a : A) : Exec S A := fun s => (Ok a, s).

Definition bind {S A B} (m : Exec S A) (k : A -> Exec S B) : Exec S B :=
  fun s =>
    match m s with
    | (Ok a, s') => k a s'
    | (Raise e, s') => (Raise e, s')
    end.

Definition get {S} : Exec S S := fun s => (Ok s, s).
Definition modify {S} (f : S -> S) : Exec S unit := fun s => (Ok tt, f s).
Definition lift {S A} (r : result A) : Exec S A := fun s => (r, s).

Declare Scope exec_scope.
Delimit Scope exec_scope with exec.
Notation "x <- m ;; k" := (bind m (fun x => k))
  (at level 61, m at next level, right associativity) : exec_scope.
Notation "' pat <- m ;; k" := (bind m (fun x => match x with pat => k end))
  (at level 61, pat pattern, m at next level, right associativity) : exec_scope.
Notation "m ;;; k" := (bind m (fun _ => k))
  (at level 61, right associativity) : exec_scope.

(** [for x in xs: body(x)] *)
Fixpoint for_each {S A} (xs : list A) (body : A -> Exec S unit) : Exec S unit :=
  match xs with
  | [] => ret tt
  | x :: rest => bind (body x) (fun _ => for_each rest body)
  end.

(** [range(start, stop)] *)
Definition range (start stop : Z) : list Z :=
  map (fun i => start + Z.of_nat i) (seq 0 (Z.to_nat (stop - start))).

(** [range(start, stop, -1)] *)
Definition range_down (start stop : Z) : list Z :=
  map (fun i => start - Z.of_nat i) (seq 0 (Z.to_nat (start - stop))).

(** ** Strings: [str.split], [str.strip] and [int] *)

(** [s.split(sep)] for a one-character separator. *)
Fixpoint split (sep : ascii) (s : string) : list string :=
  match s with
  | EmptyString => [EmptyString]
  | String c rest =>
      if Ascii.eqb c sep then EmptyString :: split sep rest
      else match split sep rest with
           | [] => [String c EmptyString]
           | w :: ws => String c w :: ws
           end
  end.

Fixpoint mem_char (c : ascii) (chars : string) : bool :=
  match chars with
  | EmptyString => false
  | String d rest => Ascii.eqb c d || mem_char c rest
  end.

Fixpoint lstrip (chars : string) (s : string) : string :=
  match s with
  | EmptyString => EmptyString
  | String c rest => if mem_char c chars then lstrip chars rest else s
  end.

Fixpoint rev_string (acc s : string) : string :=
  match s with
  | EmptyString => acc
  | String c rest => rev_string (String c acc) rest
  end.

Definition rstrip (chars : string) (s : string) : string :=
  rev_string EmptyString (lstrip chars (rev_string EmptyString s)).

(** [s.strip(chars)] *)
Definition strip (chars : string) (s : string) : string :=
  rstrip chars (lstrip chars s).

(** The characters [int] skips around a number: space, tab, newline,
    vertical tab, form feed, carriage return. *)
Definition whitespace : string :=
  String " " (String (ascii_of_nat 9) (String (ascii_of_nat 10)
  (String (ascii_of_nat 11) (String (ascii_of_nat 12)
  (String (ascii_of_nat 13) EmptyString))))).

Definition digit_of_ascii (c : ascii) : option Z :=
  let n := Z.of_nat (nat_of_ascii c) in
  if (48 <=? n) && (n <=? 57) then Some (n - 48) else None.

Fixpoint digits_value (acc : Z) (s : string) : option Z :=
  match s with
  | EmptyString => Some acc
  | String c rest =>
      match digit_of_ascii c with
      | Some d => digits_value (10 * acc + d) rest
      | None => None
      end
  end.

Definition unsigned_value (s : string) : result Z :=
  match s with
  | EmptyString => Raise ValueError
  | _ => match digits_value 0 s with
         | Some v => Ok v
         | None => Raise ValueError
         end
  end.

(** [int(s)] on a string: surrounding whitespace, an optional sign, then
    decimal digits; anything else is a [ValueError]. Underscores between
    digits, which [int] also reads, are not modelled: [py_int] is [int] on
    the strings without an underscore. *)
Definition py_int (s : string) : result Z :=
  match strip whitespace s with
  | String "-" rest => rbind (unsigned_value rest) (fun v => Ok (- v))
  | String "+" rest => unsigned_value rest
  | body => unsigned_value body
  end.

(** [map(int, parts)], consumed to the end. *)
Fixpoint map_int (parts : list string) : result (list Z) :=
  match parts with
  | [] => Ok []
  | p :: rest =>
      rbind (py_int p) (fun v => rbind (map_int rest) (fun vs => Ok (v :: vs)))
  end.

(** [a, b = map(int, parts)] *)
Definition unpack2 (parts : list string) : result (Z * Z) :=
  rbind (map_int parts) (fun vs =>
    match vs with
    | [a; b] => Ok (a, b)
    | _ => Raise ValueError
    end).

(** [a, b, c = map(int, parts)] *)
Definition unpack3 (parts : list string) : result (Z * Z * Z) :=
  rbind (map_int parts) (fun vs =>
    match vs with
    | [a; b; c] => Ok (a, b, c)
    | _ => Raise ValueError
    end).

(** ** Floating point and the [math] module *)

Class PyFloat : Type := {
  pyfloat : Type;
  of_int : Z -> pyfloat;                       (* float(n), and int-float coercion *)
  fadd : pyfloat -> pyfloat -> pyfloat;
  fsub : pyfloat -> pyfloat -> pyfloat;
  fmul : pyfloat -> pyfloat -> pyfloat;
  fdiv : pyfloat -> pyfloat -> pyfloat;        (* true division *)
  fmod : pyfloat -> pyfloat -> pyfloat;        (* x % y *)
  fneg : pyfloat -> pyfloat;
  fpow : pyfloat -> Z -> pyfloat;              (* x ** n *)
  fge : pyfloat -> pyfloat -> bool;            (* x >= y *)
  trunc : pyfloat -> Z;                        (* int(x) *)
  math_sin : pyfloat -> pyfloat;
  math_exp : pyfloat -> pyfloat;
  math_pi : pyfloat
}.

(** A number that is an [int] or a [float] at run time. *)
Inductive pynum {FP : PyFloat} : Type :=
| PInt (z : Z)
| PFloat (f : pyfloat).

(** [int(value)]. On an infinity or a NaN [int] raises; [trunc] and
    [int_of] stand for [int] on the other numbers. *)
Definition int_of {FP : PyFloat} (v : pynum) : Z :=
  match v with
  | PInt z => z
  | PFloat f => trunc f
  end.

(** ** The [time] module *)

(** The 8-tuple of [time.localtime()]. *)
Record time_tuple : Type := {
  t_year : Z; t_month : Z; t_mday : Z;
  t_hour : Z; t_minute : Z; t_second : Z;
  t_weekday : Z; t_yearday : Z
}.

Class TimeModule : Type := {
  mktime : time_tuple -> Z;
  localtime : Z -> time_tuple
}.

(** [time.ticks_diff(a, b)]: the signed difference of two wrapping
    millisecond counters (period 2^30). *)
Definition ticks_diff (a b : Z) : Z :=
  (a - b + 2 ^ 29) mod 2 ^ 30 - 2 ^ 29.

(** ** The [random] module: a tape of raw draws and a read position *)

Record Random : Type := {
  tape : nat -> nat;
  pos : nat
}.

Definition draw (g : Random) : nat * Random :=
  (tape g (pos g), {| tape := tape g; pos := S (pos g) |}).

(** [random.choice([-1, 1])] *)
Definition choice_sign (g : Random) : Z * Random :=
  let (d, g') := draw g in (if Nat.even d then -1 else 1, g').

(** [random.randrange(1, 99)] *)
Definition randrange_1_99 (g : Random) : Z * Random :=
  let (d, g') := draw g in (1 + Z.of_nat (d mod 98), g').

(* ====================================================================== *)
(** * Constants                                                            *)
(* ====================================================================== *)

Definition LDR_THRESHOLD : Z := 700.
Definition CONSECUTIVE_READINGS_NEEDED : Z := 25.
Definition SETTINGS_REFRESH_ITERATIONS : Z := 10000.

Definition rgb : Type := (Z * Z * Z)%type.
Definition COLOR_OFF : rgb := (0, 0, 0).

Section WithFloat.
Context {FP : PyFloat}.

(** [ANIMATION_SPEED = 0.05] *)
Definition ANIMATION_SPEED : pyfloat := fdiv (of_int 5) (of_int 100).

End WithFloat.

(* ====================================================================== *)
(** * DateUtils                                                            *)
(* ====================================================================== *)

Module DateUtils.

Definition date_tuple : Type := (Z * Z * Z)%type.

Definition string_to_date_tuple (date_string : string) : result date_tuple :=
  unpack3 (split "-" date_string).

Definition string_to_datetime_tuple (date_string : string) : result time_tuple :=
  rbind (unpack3 (split "-" date_string)) (fun '(year, month, day) =>
    Ok {| t_year := year; t_month := month; t_mday := day;
          t_hour := 0; t_minute := 0; t_second := 0;
          t_weekday := 0; t_yearday := 0 |}).

(** [date1_tuple + (0, 0, 0, 0, 0)] *)
Definition extend_date (d : date_tuple) : time_tuple :=
  let '(year, month, day) := d in
  {| t_year := year; t_month := month; t_mday := day;
     t_hour := 0; t_minute := 0; t_second := 0;
     t_weekday := 0; t_yearday := 0 |}.

Definition is_within_time_range (start_time_str end_time_str : string)
    (current_time_tuple : time_tuple) : result bool :=
  rbind (unpack2 (split ":" start_time_str)) (fun '(start_hour, start_minute) =>
  rbind (unpack2 (split ":" end_time_str)) (fun '(end_hour, end_minute) =>
    let current_hour := t_hour current_time_tuple in
    let current_minute := t_minute current_time_tuple in
    let start_minutes := start_hour * 60 + start_minute in
    let end_minutes := end_hour * 60 + end_minute in
    let current_minutes := current_hour * 60 + current_minute in
    if start_minutes <=? end_minutes then
      Ok ((start_minutes <=? current_minutes) && (current_minutes <=? end_minutes))
    else
      Ok ((current_minutes >=? start_minutes) || (current_minutes <=? end_minutes)))).

Section WithTime.
Context {TM : TimeModule}.

Definition days_between (date1_tuple : date_tuple) (date2_string : string) : result Z :=
  let date1_seconds := mktime (extend_date date1_tuple) in
  rbind (string_to_datetime_tuple date2_string) (fun t2 =>
    let date2_seconds := mktime t2 in
    Ok ((date2_seconds - date1_seconds) / 86400)).

Definition adjust_time_with_offset (t : time_tuple) (hours_offset : Z) : time_tuple :=
  let adjusted_seconds := mktime t + hours_offset * 3600 in
  localtime adjusted_seconds.

End WithTime.

End DateUtils.

(* ====================================================================== *)
(** * ColorUtils                                                           *)
(* ====================================================================== *)

Module ColorUtils.

Definition string_to_rgb (rgb_string : string) : result rgb :=
  unpack3 (split "," (strip "()" rgb_string)).

Section WithFloat.
Context {FP : PyFloat}.

(** [max(min(int(value), max_val), min_val)] with the default bounds *)
Definition clamp (value : pynum) : Z := Z.max (Z.min (int_of value) 255) 0.

Definition random_base_color (g : Random) : (pyfloat * pyfloat * pyfloat) * Random :=
  let (r, g1) := randrange_1_99 g in
  let (gr, g2) := randrange_1_99 g1 in
  let (b, g3) := randrange_1_99 g2 in
  ((fdiv (of_int r) (of_int 100),
    fdiv (of_int gr) (of_int 100),
    fdiv (of_int b) (of_int 100)), g3).

Definition lighten (color : rgb) (factor : pyfloat) : rgb :=
  let '(r, g, b) := color in
  let r := clamp (PFloat (fmul (of_int r) factor)) in
  let g := clamp (PFloat (fmul (of_int g) factor)) in
  let b := clamp (PFloat (fmul (of_int b) factor)) in
  (r, g, b).

End WithFloat.

End ColorUtils.

(* ====================================================================== *)
(** * Hardware classes                                                     *)
(* ====================================================================== *)

Module LightSensor.

(** The ADC is hardware: [update] takes the value [adc.read_u16()]
    returned. *)
Record t : Type := {
  threshold : Z;
  consecutive_needed : Z;
  consecutive_dark_count : Z;
  consecutive_light_count : Z
}.

(** [LightSensor(pin, threshold, consecutive_needed)] *)
Definition init (threshold consecutive_needed : Z) : t :=
  {| threshold := threshold;
     consecutive_needed := consecutive_needed;
     consecutive_dark_count := 0;
     consecutive_light_count := 0 |}.

(** [LightSensor(LDR_PIN)] *)
Definition default : t := init LDR_THRESHOLD CONSECUTIVE_READINGS_NEEDED.

Definition update (reading : Z) (self : t) : (bool * bool * bool) * t :=
  let is_dark := reading >? threshold self in
  let self' :=
    if is_dark then
      {| threshold := threshold self;
         consecutive_needed := consecutive_needed self;
         consecutive_dark_count := consecutive_dark_count self + 1;
         consecutive_light_count := 0 |}
    else
      {| threshold := threshold self;
         consecutive_needed := consecutive_needed self;
         consecutive_dark_count := 0;
         consecutive_light_count := consecutive_light_count self + 1 |} in
  let consistent_dark := consecutive_dark_count self' >=? consecutive_needed self' in
  let consistent_light := consecutive_light_count self' >=? consecutive_needed self' in
  ((is_dark, consistent_dark, consistent_light), self').

(** The sensor after a sequence of readings, oldest first. *)
Definition feed (readings : list Z) (self : t) : t :=
  fold_left (fun s r => snd (update r s)) readings self.

(** The sensor states the program can be in. *)
Inductive reachable (threshold needed : Z) : t -> Prop :=
| reach_init : reachable threshold needed (init threshold needed)
| reach_update reading s :
    reachable threshold needed s ->
    reachable threshold needed (snd (update reading s)).

End LightSensor.

Module LEDStripController.

(** [np] is the NeoPixel buffer, [shown] the frame last sent to the strip
    by [np.write()]. [num_pixels] is fixed at construction to the length
    of the buffer. The driver keeps each channel in a byte: [np] stands
    for its buffer on colours whose channels are between 0 and 255. *)
Record t : Type := {
  np : list rgb;
  shown : list rgb
}.

Definition init (num_pixels : Z) : t :=
  {| np := repeat COLOR_OFF (Z.to_nat num_pixels);
     shown := repeat COLOR_OFF (Z.to_nat num_pixels) |}.

Definition num_pixels (self : t) : Z := Z.of_nat (List.length (np self)).

Fixpoint list_set {A} (l : list A) (i : nat) (x : A) : list A :=
  match l, i with
  | [], _ => []
  | _ :: rest, O => x :: rest
  | y :: rest, S j => y :: list_set rest j x
  end.

Definition write (self : t) : t :=
  {| np := np self; shown := np self |}.

Definition fill (color : rgb) (self : t) : t :=
  write {| np := map (fun _ => color) (np self); shown := shown self |}.

Definition clear (self : t) : t := fill COLOR_OFF self.

Definition set_pixel (index : Z) (color : rgb) (self : t) : t :=
  if (0 <=? index) && (index <? num_pixels self) then
    {| np := list_set (np self) (Z.to_nat index) color; shown := shown self |}
  else self.

Definition get_pixel (index : Z) (self : t) : rgb :=
  if (0 <=? index) && (index <? num_pixels self) then
    nth (Z.to_nat index) (np self) COLOR_OFF
  else COLOR_OFF.

End LEDStripController.

(* ====================================================================== *)
(** * Data classes                                                         *)
(* ====================================================================== *)

Section DataClasses.
Context {FP : PyFloat}.

Record EventSettings : Type := {
  important_date : string;
  start_from_day : string;
  primary_color : string;
  secondary_color : string;
  use_custom_colors : bool;
  start_time : string;
  end_time : string;
  from_pi : bool;
  is_reverse : bool;
  with_marker : bool;
  marker_color : string;
  flash_speed : pynum;
  auto_update : bool;
  update_branch : string
}.

Record CountdownState : Type := {
  current_date : DateUtils.date_tuple;
  settings : EventSettings;
  days_remaining : Z;
  countdown_length : Z;
  base_color : pyfloat * pyfloat * pyfloat;
  animation_phase : pyfloat;
  is_flashing : bool;
  swap_phase : bool;
  last_swap_ms : Z
}.

Definition set_animation_phase (p : pyfloat) (st : CountdownState) : CountdownState :=
  {| current_date := current_date st; settings := settings st;
     days_remaining := days_remaining st; countdown_length := countdown_length st;
     base_color := base_color st; animation_phase := p;
     is_flashing := is_flashing st; swap_phase := swap_phase st;
     last_swap_ms := last_swap_ms st |}.

Definition set_swap (b : bool) (ms : Z) (st : CountdownState) : CountdownState :=
  {| current_date := current_date st; settings := settings st;
     days_remaining := days_remaining st; countdown_length := countdown_length st;
     base_color := base_color st; animation_phase := animation_phase st;
     is_flashing := is_flashing st; swap_phase := b;
     last_swap_ms := ms |}.

Section WithTime.
Context {TM : TimeModule}.

Definition _calculate_days_remaining (current_date : DateUtils.date_tuple)
    (settings : EventSettings) : result Z :=
  DateUtils.days_between current_date (important_date settings).

Definition _calculate_countdown_length (settings : EventSettings) : result Z :=
  rbind (DateUtils.string_to_date_tuple (start_from_day settings)) (fun start_date =>
  rbind (DateUtils.days_between start_date (important_date settings)) (fun d =>
    Ok (Z.abs d))).

(** [CountdownState(current_date, settings)]; [ticks_ms] is what
    [time.ticks_ms()] returns, the state is the [random] module. *)
Definition CountdownState_init (current_date : DateUtils.date_tuple)
    (settings : EventSettings) (ticks_ms : Z) : Exec Random CountdownState :=
  (days_remaining <- lift (_calculate_days_remaining current_date settings) ;;
   countdown_length <- lift (_calculate_countdown_length settings) ;;
   base_color <- (fun g => let (c, g') := ColorUtils.random_base_color g in (Ok c, g')) ;;
   ret {| current_date := current_date; settings := settings;
          days_remaining := days_remaining; countdown_length := countdown_length;
          base_color := base_color; animation_phase := of_int 0;
          is_flashing := true; swap_phase := false;
          last_swap_ms := ticks_ms |})%exec.

End WithTime.

Definition update_animation_phase (st : CountdownState) : CountdownState :=
  set_animation_phase
    (fmod (fadd (animation_phase st) ANIMATION_SPEED) (fmul (of_int 2) math_pi)) st.

(** [value * 1000] for an [int] or [float] value *)
Definition times_1000 (v : pynum) : pynum :=
  match v with
  | PInt z => PInt (z * 1000)
  | PFloat f => PFloat (fmul f (of_int 1000))
  end.

(** [now] is what [time.ticks_ms()] returns. With a [flash_speed] on
    which [int(flash_speed * 1000)] returns (an [int], or a [float] with
    a finite product) nothing in the [try] block raises, so the [except]
    branch is not reached; the other speeds are outside the embedding. *)
Definition update_flash_phase (now : Z) (st : CountdownState) : CountdownState :=
  let interval_ms := int_of (times_1000 (flash_speed (settings st))) in
  let interval_ms := if interval_ms <=? 0 then 2000 else interval_ms in
  if ticks_diff now (last_swap_ms st) >=? interval_ms then
    set_swap (negb (swap_phase st)) now st
  else st.

End DataClasses.

(* ====================================================================== *)
(** * AnimationEngine                                                      *)
(* ====================================================================== *)

Module AnimationEngine.

(** The objects a render mutates: the strip controller and [random]. The
    engine's [state] is the application's current [CountdownState] (the
    engine is rebuilt whenever the state is replaced), so [render] takes
    it as an argument. *)
Record Strip : Type := {
  led : LEDStripController.t;
  rng : Random
}.

Definition set_pixel (index : Z) (color : rgb) : Exec Strip unit :=
  modify (fun w => {| led := LEDStripController.set_pixel index color (led w);
                      rng := rng w |}).

Definition random_choice_sign : Exec Strip Z :=
  fun w => let (v, g) := choice_sign (rng w) in (Ok v, {| led := led w; rng := g |}).

(** The pixel range [(block_min, block_max)] of a day block. *)
Definition block_bounds (from_pi : bool) (num_pixels countdown_length block_size
    day_index : Z) : Z * Z :=
  if negb from_pi then
    let block_max := num_pixels - (countdown_length - day_index) * block_size in
    let block_min := if day_index >? 1 then block_max - block_size else 0 in
    (block_min, block_max)
  else
    let block_min := (countdown_length - day_index) * block_size in
    let block_max := if day_index >? 1 then block_min + block_size else num_pixels in
    (block_min, block_max).

(** The first pixel of marker block [block]. *)
Definition block_start (from_pi : bool) (num_pixels block_size block : Z) : Z :=
  if negb from_pi then num_pixels - (block + 1) * block_size
  else block * block_size.

(** [range(countdown_length, days_remaining - 1, -1)] or
    [range(days_remaining - 1, -1, -1)] *)
Definition day_range (is_reverse : bool) (countdown_length days_remaining : Z) : list Z :=
  if negb is_reverse then range_down countdown_length (days_remaining - 1)
  else range_down (days_remaining - 1) (-1).

Section WithFloat.
Context {FP : PyFloat}.

Definition flashing_group (phase : pyfloat) : Z :=
  if fge (math_sin phase) (of_int 0) then 0 else 1.

Definition lighten_factor (phase : pyfloat) : pyfloat :=
  let raw := fdiv (fadd (math_sin phase) (of_int 1)) (of_int 2) in
  let pulse := fmul (fmul raw raw) (fsub (of_int 3) (fmul (of_int 2) raw)) in
  fadd (of_int 1) (fmul (fdiv (of_int 35) (of_int 100)) pulse).

(** [is_primary_block], after the swap phase is applied *)
Definition is_primary_block (st : CountdownState) (day_index : Z) : bool :=
  let p := day_index mod 2 =? 0 in
  if swap_phase st then negb p else p.

Definition flash_applies (group : Z) (primary : bool) : bool :=
  ((group =? 0) && primary) || ((group =? 1) && negb primary).

(** The colour of one pixel of a day block (the body of the pixel loop up
    to [set_pixel]). *)
Definition pixel_color (st : CountdownState) (day_index pixel : Z) : Exec Strip rgb :=
  let s := settings st in
  let group := flashing_group (animation_phase st) in
  let factor := lighten_factor (animation_phase st) in
  if use_custom_colors s then
    let primary := is_primary_block st day_index in
    (color <- lift (if primary then ColorUtils.string_to_rgb (primary_color s)
                    else ColorUtils.string_to_rgb (secondary_color s)) ;;
     ret (if is_flashing st then
            if flash_applies group primary then ColorUtils.lighten color factor
            else color
          else color))%exec
  else
    (c1 <- random_choice_sign ;;
     let variation_1 := ((countdown_length st + 1) - day_index) * c1 in
     c2 <- random_choice_sign ;;
     let variation_2 := ((countdown_length st + 1) - day_index) * c2 in
     w <- get ;;
     let '(r, g, b) := LEDStripController.get_pixel pixel (led w) in
     let r := ColorUtils.clamp (PInt (r + variation_1)) in
     let g := ColorUtils.clamp (PInt (g - variation_1)) in
     let b := ColorUtils.clamp (PInt (b + variation_2)) in
     let color := (r, g, b) in
     ret (if is_flashing st then
            if flash_applies group (is_primary_block st day_index)
            then ColorUtils.lighten color factor
            else color
          else color))%exec.

(** [for pixel in range(block_min, block_max): ...] *)
Definition fill_block (st : CountdownState) (day_index block_min block_max : Z)
    : Exec Strip unit :=
  for_each (range block_min block_max) (fun pixel =>
    (color <- pixel_color st day_index pixel ;;
     set_pixel pixel color)%exec).

(** [if settings.with_marker: for block in range(countdown_length): ...] *)
Definition add_markers (st : CountdownState) (num_pixels block_size block_min
    block_max : Z) : Exec Strip unit :=
  let s := settings st in
  if with_marker s then
    for_each (range 0 (countdown_length st)) (fun block =>
      let block_start := block_start (from_pi s) num_pixels block_size block in
      if (block_start <? block_min) || (block_start >=? block_max) then
        (marker_rgb <- lift (ColorUtils.string_to_rgb (marker_color s)) ;;
         set_pixel block_start marker_rgb)%exec
      else ret tt)
  else ret tt.

(** The body of [for day_index in day_range]. *)
Definition render_day (st : CountdownState) (num_pixels block_size day_index : Z)
    : Exec Strip unit :=
  let '(block_min, block_max) :=
    block_bounds (from_pi (settings st)) num_pixels (countdown_length st)
                 block_size day_index in
  (fill_block st day_index block_min block_max ;;;
   add_markers st num_pixels block_size block_min block_max)%exec.

Definition _render_countdown (st : CountdownState) : Exec Strip unit :=
  (w <- get ;;
   let num_pixels := LEDStripController.num_pixels (led w) in
   let days := day_range (is_reverse (settings st)) (countdown_length st)
                         (days_remaining st) in
   block_size <- lift (if countdown_length st =? 0 then Raise ZeroDivisionError
                       else Ok (num_pixels / countdown_length st)) ;;
   for_each days (render_day st num_pixels block_size))%exec.

Definition brightness (phase : pyfloat) (num_pixels i : Z) : pyfloat :=
  fmul
    (fmul (of_int 32)
          (fadd (of_int 1)
                (fmul (of_int 4) (fadd (math_sin (fadd phase math_pi)) (of_int 1)))))
    (math_exp
       (fdiv (fneg (fpow (fsub (fdiv (of_int num_pixels) (of_int 2)) (of_int i)) 2))
             (fpow (fadd (of_int 1)
                         (fmul (of_int 20) (fadd (math_sin phase) (of_int 1)))) 2))).

Definition breathing_color (st : CountdownState) (num_pixels i : Z) : rgb :=
  let '(base_r, base_g, base_b) := base_color st in
  let brightness := brightness (animation_phase st) num_pixels i in
  (ColorUtils.clamp (PFloat (fmul base_r brightness)),
   ColorUtils.clamp (PFloat (fmul base_g brightness)),
   ColorUtils.clamp (PFloat (fmul base_b brightness))).

Definition _render_breathing (st : CountdownState) : Exec Strip unit :=
  (w <- get ;;
   let num_pixels := LEDStripController.num_pixels (led w) in
   for_each (range 0 num_pixels) (fun i =>
     let pixel_index := if from_pi (settings st) then num_pixels - 1 - i else i in
     set_pixel pixel_index (breathing_color st num_pixels i)))%exec.

Definition led_write : Exec Strip unit :=
  modify (fun w => {| led := LEDStripController.write (led w); rng := rng w |}).

Definition render (st : CountdownState) : Exec Strip unit :=
  ((if days_remaining st <=? countdown_length st then _render_countdown st
    else _render_breathing st) ;;;
   led_write)%exec.

End WithFloat.

End AnimationEngine.

(* ====================================================================== *)
(** * CountdownApplication                                                 *)
(* ====================================================================== *)

Module CountdownApplication.

(** What one main-loop iteration asks of the strip and of the refresh
    path, in program order. *)
Inductive call : Type :=
| call_render
| call_clear
| call_refresh_settings.

Section WithInterfaces.
Context {FP : PyFloat} {TM : TimeModule}.

(** The application after a successful [startup]. [random] is the state
    of the [random] module; [calls] is a ghost log of the calls made since
    the start of the current iteration. *)
Record t : Type := {
  led_controller : LEDStripController.t;
  light_sensor : LightSensor.t;
  countdown_state : CountdownState;
  timezone_offset : Z;
  iteration_count : Z;
  random : Random;
  calls : list call
}.

(** What the outside world answers during one iteration. *)
Record Env : Type := {
  adc_read_u16 : Z;                              (* the light sensor's ADC *)
  ticks_ms : Z;                                  (* time.ticks_ms() in update_flash_phase *)
  clock : time_tuple;                            (* time.localtime() *)
  local_date : option DateUtils.date_tuple;      (* TimeAPI.get_local_date(timezone) *)
  fetched_settings : option EventSettings;       (* settings_api.fetch_settings() *)
  ticks_ms_init : Z                              (* time.ticks_ms() in CountdownState.__init__ *)
}.

Definition set_led (l : LEDStripController.t) (a : t) : t :=
  {| led_controller := l; light_sensor := light_sensor a;
     countdown_state := countdown_state a; timezone_offset := timezone_offset a;
     iteration_count := iteration_count a; random := random a; calls := calls a |}.

Definition set_sensor (s : LightSensor.t) (a : t) : t :=
  {| led_controller := led_controller a; light_sensor := s;
     countdown_state := countdown_state a; timezone_offset := timezone_offset a;
     iteration_count := iteration_count a; random := random a; calls := calls a |}.

Definition set_state (st : CountdownState) (a : t) : t :=
  {| led_controller := led_controller a; light_sensor := light_sensor a;
     countdown_state := st; timezone_offset := timezone_offset a;
     iteration_count := iteration_count a; random := random a; calls := calls a |}.

Definition set_iteration_count (n : Z) (a : t) : t :=
  {| led_controller := led_controller a; light_sensor := light_sensor a;
     countdown_state := countdown_state a; timezone_offset := timezone_offset a;
     iteration_count := n; random := random a; calls := calls a |}.

Definition set_random (g : Random) (a : t) : t :=
  {| led_controller := led_controller a; light_sensor := light_sensor a;
     countdown_state := countdown_state a; timezone_offset := timezone_offset a;
     iteration_count := iteration_count a; random := g; calls := calls a |}.

Definition set_calls (cs : list call) (a : t) : t :=
  {| led_controller := led_controller a; light_sensor := light_sensor a;
     countdown_state := countdown_state a; timezone_offset := timezone_offset a;
     iteration_count := iteration_count a; random := random a; calls := cs |}.

Definition record_call (c : call) : Exec t unit :=
  modify (fun a => set_calls (calls a ++ [c]) a).

(** [self.animation_engine.render()] *)
Definition animation_engine_render : Exec t unit :=
  (record_call call_render ;;;
   fun a =>
     let '(r, w) := AnimationEngine.render (countdown_state a)
                      {| AnimationEngine.led := led_controller a;
                         AnimationEngine.rng := random a |} in
     (r, set_random (AnimationEngine.rng w) (set_led (AnimationEngine.led w) a)))%exec.

(** [self.led_controller.clear()] *)
Definition led_controller_clear : Exec t unit :=
  (record_call call_clear ;;;
   modify (fun a => set_led (LEDStripController.clear (led_controller a)) a))%exec.

Definition _refresh_settings (env : Env) : Exec t unit :=
  (record_call call_refresh_settings ;;;
   match local_date env with
   | None => ret tt
   | Some current_date =>
       match fetched_settings env with
       | None => ret tt
       | Some settings =>
           fun a =>
             match CountdownState_init current_date settings (ticks_ms_init env)
                                       (random a) with
             | (Ok st, g) => (Ok tt, set_state st (set_random g a))
             | (Raise e, g) => (Raise e, set_random g a)
             end
       end
   end)%exec.

Definition _main_loop_iteration (env : Env) : Exec t unit :=
  (modify (set_calls []) ;;;
   modify (fun a => set_state (update_animation_phase (countdown_state a)) a) ;;;
   modify (fun a => set_state (update_flash_phase (ticks_ms env) (countdown_state a)) a) ;;;
   '(is_dark, consistent_dark, consistent_light) <-
      (fun a => let (flags, s) := LightSensor.update (adc_read_u16 env) (light_sensor a) in
                (Ok flags, set_sensor s a)) ;;
   a <- get ;;
   let current_time := clock env in
   let adjusted_time := DateUtils.adjust_time_with_offset current_time (timezone_offset a) in
   in_time_range <- lift (DateUtils.is_within_time_range
                            (start_time (settings (countdown_state a)))
                            (end_time (settings (countdown_state a)))
                            adjusted_time) ;;
   (if in_time_range then
      if consistent_dark then animation_engine_render
      else if consistent_light then led_controller_clear
      else ret tt
    else led_controller_clear) ;;;
   (if consistent_light && in_time_range then _refresh_settings env else ret tt) ;;;
   modify (fun a => set_iteration_count (iteration_count a + 1) a))%exec.

End WithInterfaces.

End CountdownApplication.

(* ====================================================================== *)
(** * Reference implementations of the interfaces                          *)
(* ====================================================================== *)

(** IEEE 754 binary64 arithmetic (the kernel's primitive floats) with
    series for [sin] and [exp]. It serves to evaluate the program on
    concrete inputs; the general theorems are stated for every
    implementation of [PyFloat]. *)
Module Binary64.
Import Stdlib.Floats.Floats.

Definition b64_of_int (z : Z) : float :=
  match z with
  | Z0 => zero
  | Zpos p => SF2Prim (S754_finite false p 0)
  | Zneg p => SF2Prim (S754_finite true p 0)
  end.

(** Rounding toward zero, as [int(x)] does. *)
Definition b64_trunc (f : float) : Z :=
  match Prim2SF f with
  | S754_finite s m e =>
      let a := if 0 <=? e then Zpos m * 2 ^ e else Zpos m / 2 ^ (- e) in
      if s then - a else a
  | _ => 0
  end.

Definition b64_floor (f : float) : Z :=
  let t := b64_trunc f in
  if PrimFloat.ltb f (b64_of_int t) then t - 1 else t.

Definition b64_mod (x y : float) : float :=
  PrimFloat.sub x (PrimFloat.mul (b64_of_int (b64_floor (PrimFloat.div x y))) y).

Fixpoint b64_pow_nat (x : float) (n : nat) : float :=
  match n with
  | O => one
  | S n' => PrimFloat.mul x (b64_pow_nat x n')
  end.

Definition b64_pow (x : float) (n : Z) : float :=
  if 0 <=? n then b64_pow_nat x (Z.to_nat n)
  else PrimFloat.div one (b64_pow_nat x (Z.to_nat (- n))).

Definition b64_pi : float := 0x1.921fb54442d18p+1%float.

Fixpoint sin_series (n : nat) (k : Z) (term x2 acc : float) : float :=
  match n with
  | O => acc
  | S n' =>
      let term' := PrimFloat.div (PrimFloat.opp (PrimFloat.mul term x2))
                                 (b64_of_int ((k + 1) * (k + 2))) in
      sin_series n' (k + 2) term' x2 (PrimFloat.add acc term')
  end.

Definition b64_sin (x : float) : float :=
  let two_pi := PrimFloat.mul (b64_of_int 2) b64_pi in
  let r := PrimFloat.sub (b64_mod (PrimFloat.add x b64_pi) two_pi) b64_pi in
  sin_series 14 1 r (PrimFloat.mul r r) r.

Fixpoint exp_series (n : nat) (k : Z) (term x acc : float) : float :=
  match n with
  | O => acc
  | S n' =>
      let term' := PrimFloat.div (PrimFloat.mul term x) (b64_of_int k) in
      exp_series n' (k + 1) term' x (PrimFloat.add acc term')
  end.

Fixpoint square_times (n : nat) (x : float) : float :=
  match n with
  | O => x
  | S n' => square_times n' (PrimFloat.mul x x)
  end.

Definition b64_exp (x : float) : float :=
  let y := PrimFloat.div x (b64_of_int 1024) in
  square_times 10 (exp_series 24 1 one y one).

#[export] Instance binary64 : PyFloat := {
  pyfloat := float;
  of_int := b64_of_int;
  fadd := PrimFloat.add;
  fsub := PrimFloat.sub;
  fmul := PrimFloat.mul;
  fdiv := PrimFloat.div;
  fmod := b64_mod;
  fneg := PrimFloat.opp;
  fpow := b64_pow;
  fge := fun x y => PrimFloat.leb y x;
  trunc := b64_trunc;
  math_sin := b64_sin;
  math_exp := b64_exp;
  math_pi := b64_pi
}.

End Binary64.

(** Seconds since 1970-01-01 in the proleptic Gregorian calendar, without
    time zones or leap seconds. *)
Module CivilTime.

Definition days_from_civil (year month day : Z) : Z :=
  let y := if month <=? 2 then year - 1 else year in
  let era := y / 400 in
  let yoe := y - era * 400 in
  let mp := if month >? 2 then month - 3 else month + 9 in
  let doy := (153 * mp + 2) / 5 + day - 1 in
  let doe := yoe * 365 + yoe / 4 - yoe / 100 + doy in
  era * 146097 + doe - 719468.

Definition civil_from_days (days : Z) : Z * Z * Z :=
  let z := days + 719468 in
  let era := z / 146097 in
  let doe := z - era * 146097 in
  let yoe := (doe - doe / 1460 + doe / 36524 - doe / 146096) / 365 in
  let doy := doe - (365 * yoe + yoe / 4 - yoe / 100) in
  let mp := (5 * doy + 2) / 153 in
  let day := doy - (153 * mp + 2) / 5 + 1 in
  let month := if mp <? 10 then mp + 3 else mp - 9 in
  let year := yoe + era * 400 + (if month <=? 2 then 1 else 0) in
  (year, month, day).

Definition civil_mktime (t : time_tuple) : Z :=
  days_from_civil (t_year t) (t_month t) (t_mday t) * 86400
  + t_hour t * 3600 + t_minute t * 60 + t_second t.

Definition civil_localtime (seconds : Z) : time_tuple :=
  let days := seconds / 86400 in
  let rest := seconds mod 86400 in
  let '(year, month, day) := civil_from_days days in
  {| t_year := year; t_month := month; t_mday := day;
     t_hour := rest / 3600; t_minute := (rest mod 3600) / 60;
     t_second := rest mod 60;
     t_weekday := (days + 3) mod 7;
     t_yearday := days - days_from_civil year 1 1 + 1 |}.

#[export] Instance civil_time : TimeModule := {
  mktime := civil_mktime;
  localtime := civil_localtime
}.

End CivilTime.


From Stdlib Require Import NArith DecimalString DecimalN.

(* ====================================================================== *)
(** * Further methods of the hardware classes                              *)
(* ====================================================================== *)

Module StripDisplay.

Definition COLOR_PROGRESS : rgb := (0, 255, 0).
Definition COLOR_ERROR : rgb := (255, 0, 0).

(** [LEDStripController.show_progress(step, total_steps)] *)
Definition show_progress (step total_steps : Z) : Exec LEDStripController.t unit :=
  if negb ((1 <=? step) && (step <=? total_steps)) then ret tt
  else
    (self <- get ;;
     let num_pixels := LEDStripController.num_pixels self in
     segment_size <- lift (if total_steps =? 0 then Raise ZeroDivisionError
                           else Ok (num_pixels / total_steps)) ;;
     modify LEDStripController.clear ;;;
     for_each (range 0 step) (fun segment =>
       let segment_start := segment * segment_size in
       let segment_end := segment_start + segment_size - 1 in
       for_each (range segment_start (Z.min segment_end num_pixels)) (fun i =>
         modify (LEDStripController.set_pixel i COLOR_PROGRESS))) ;;;
     modify LEDStripController.write)%exec.

End StripDisplay.

(* ====================================================================== *)
(** * TimeAPI.get_timezone_offset                                          *)
(* ====================================================================== *)

Module TimeAPI.

(** What one attempt gets from the network: [urequests.get] or
    [response.json()] raises, or there is a response with a status code
    and, in its JSON object, the value of the key [utc_offset] if it has
    one. *)
Inductive reply : Type :=
| no_reply
| reply_with (status_code : Z) (utc_offset : option string).

(** [int(offset[:3])] *)
Definition hours_offset_of (offset : string) : result Z :=
  py_int (substring 0 3 offset).

(** The [try] block of one attempt: the value it returns, or [None] when
    it falls through to the next attempt (another status code, or an
    exception caught by [except Exception]). *)
Definition attempt_offset (r : reply) : option Z :=
  match r with
  | no_reply => None
  | reply_with status_code utc_offset =>
      if status_code =? 200 then
        match utc_offset with
        | None => None
        | Some offset =>
            match hours_offset_of offset with
            | Ok hours_offset => Some hours_offset
            | Raise _ => None
            end
        end
      else None
  end.

(** [for attempt in range(retries): ...]; the state counts the calls of
    [time.sleep(2)], [replies] gives the reply to each attempt. *)
Fixpoint offset_attempts (replies : Z -> reply) (retries : Z) (attempts : list Z)
    : Exec Z (option Z) :=
  match attempts with
  | [] => ret None
  | attempt :: rest =>
      match attempt_offset (replies attempt) with
      | Some hours_offset => ret (Some hours_offset)
      | None =>
          bind (if attempt <? retries - 1 then modify (fun sleeps => sleeps + 1)
                else ret tt)
               (fun _ => offset_attempts replies retries rest)
      end
  end.

Definition get_timezone_offset (replies : Z -> reply) (retries : Z)
    : Exec Z (option Z) :=
  offset_attempts replies retries (range 0 retries).

End TimeAPI.

(* ====================================================================== *)
(** * CountdownApplication.run                                             *)
(* ====================================================================== *)

Module MainLoop.

Section WithInterfaces.
Context {FP : PyFloat} {TM : TimeModule}.


End WithInterfaces.

End MainLoop.

(* ====================================================================== *)
(** * UpdateManager: the version check                                     *)
(* ====================================================================== *)

Module UpdateManager.

Definition COLOR_UPDATE : rgb := (0, 0, 255).

Definition newline : ascii := ascii_of_nat 10.

(** The two characters of the argument of [strip] in
    [_get_remote_version]: the double and the single quote. *)
Definition double_quote : ascii := ascii_of_nat 34.

Definition quotes : string :=
  String double_quote (String "'" EmptyString).

(** What [urequests.get(url)] returned. *)
Record response : Type := {
  status_code : Z;
  text : string
}.

(** [for line in content.split('\n'): ...], up to its [return]. After
    [startswith('VERSION = ')] the line has an ['='], so
    [line.split('=')[1]] exists. *)
Fixpoint version_in (lines : list string) : option string :=
  match lines with
  | [] => None
  | line :: rest =>
      let line := strip whitespace line in
      if prefix "VERSION = " line then
        Some (strip quotes (strip whitespace (nth 1 (split "=" line) EmptyString)))
      else version_in rest
  end.

(** [reply] is the response to the request, or [None] when the request
    raises (the [except] branch). *)
Definition _get_remote_version (reply : option response) : option string :=
  match reply with
  | None => None
  | Some response =>
      if status_code response =? 200 then
        let content := substring 0 1024 (text response) in
        version_in (split newline content)
      else None
  end.

(** The three blue flashes before the download. *)
Definition flash_update : Exec LEDStripController.t unit :=
  for_each (range 0 3) (fun _ =>
    bind (modify (LEDStripController.fill COLOR_UPDATE))
         (fun _ => modify LEDStripController.clear)).

(** [check_and_update]; [_download_and_apply] stands for the method of
    that name (it writes files and reboots the device), and an exception
    it raises is caught: the [except] branch returns [False]. *)
Definition check_and_update (current_version : string) (reply : option response)
    (_download_and_apply : Exec LEDStripController.t bool) (auto_update : bool)
    : Exec LEDStripController.t bool :=
  if negb auto_update then ret false
  else
    match _get_remote_version reply with
    | None => ret false
    | Some remote_version =>
        if String.eqb remote_version EmptyString then ret false
        else if String.leb remote_version current_version then ret false
        else
          fun l =>
            match bind flash_update (fun _ => _download_and_apply) l with
            | (Raise _, l') => (Ok false, l')
            | r => r
            end
    end.

End UpdateManager.
(* ====================================================================== *)
(** * Vocabulary of the statements                                         *)
(* ====================================================================== *)

(** ** Well-formed ["HH:MM"] strings *)

Definition is_digit (c : ascii) : bool :=
  match digit_of_ascii c with
  | Some _ => true
  | None => false
  end.

Definition digit_value (c : ascii) : Z := Z.of_nat (nat_of_ascii c) - 48.

(** Two digits, a colon, two digits. *)
Definition well_formed_hhmm (s : string) : bool :=
  match s with
  | String h1 (String h2 (String sep (String m1 (String m2 EmptyString)))) =>
      is_digit h1 && is_digit h2 && Ascii.eqb sep ":" && is_digit m1 && is_digit m2
  | _ => false
  end.

(** The minute of the day an ["HH:MM"] string denotes. *)
Definition minutes_of_hhmm (s : string) : Z :=
  match s with
  | String h1 (String h2 (String _ (String m1 (String m2 _)))) =>
      (10 * digit_value h1 + digit_value h2) * 60
      + (10 * digit_value m1 + digit_value m2)
  | _ => 0
  end.

Definition minute_of_day (t : time_tuple) : Z := t_hour t * 60 + t_minute t.

Definition at_time (hour minute : Z) : time_tuple :=
  {| t_year := 2025; t_month := 1; t_mday := 1;
     t_hour := hour; t_minute := minute; t_second := 0;
     t_weekday := 2; t_yearday := 1 |}.

(** ** The controller's window test *)

Section WindowTest.
Context {FP : PyFloat} {TM : TimeModule}.

(** The value of [in_time_range] in an iteration started in state [app]
    with the answers [env]. *)
Definition in_time_range (env : CountdownApplication.Env)
    (app : CountdownApplication.t) : result bool :=
  DateUtils.is_within_time_range
    (start_time (settings (CountdownApplication.countdown_state app)))
    (end_time (settings (CountdownApplication.countdown_state app)))
    (DateUtils.adjust_time_with_offset (CountdownApplication.clock env)
       (CountdownApplication.timezone_offset app)).


End WindowTest.

(** ** Concrete inputs *)

Module Examples.

Definition FP : PyFloat := Binary64.binary64.
Definition TM : TimeModule := CivilTime.civil_time.

(** A countdown to 2025-12-25 that starts on [start], shown between
    22:00 and 06:00. *)
Definition event (start : string) (custom reverse : bool) : @EventSettings FP :=
  {| important_date := "2025-12-25";
     start_from_day := start;
     primary_color := "(255,0,0)";
     secondary_color := "(0,255,0)";
     use_custom_colors := custom;
     start_time := "22:00";
     end_time := "06:00";
     from_pi := false;
     is_reverse := reverse;
     with_marker := true;
     marker_color := "(255,255,255)";
     flash_speed := @PInt FP 2;
     auto_update := true;
     update_branch := "main" |}.

(** Ten days of countdown. *)
Definition christmas (custom reverse : bool) : @EventSettings FP :=
  event "2025-12-15" custom reverse.

(** A countdown that starts on the day of the event: its length is 0. *)
Definition same_day : @EventSettings FP := event "2025-12-25" true false.

Definition zero_tape : Random := {| tape := fun _ => O; pos := O |}.
Definition ones_tape : Random := {| tape := fun _ => 1%nat; pos := O |}.

(** The state [CountdownState(today, settings)] builds, or a state with
    no days when the dates do not parse. *)
Definition state_on (today : DateUtils.date_tuple) (s : @EventSettings FP)
    : @CountdownState FP :=
  match @CountdownState_init FP TM today s 0 zero_tape with
  | (Ok st, _) => st
  | (Raise _, _) =>
      {| current_date := today; settings := s; days_remaining := 0;
         countdown_length := 0;
         base_color := (@of_int FP 0, @of_int FP 0, @of_int FP 0);
         animation_phase := @of_int FP 0; is_flashing := true;
         swap_phase := false; last_swap_ms := 0 |}
  end.

Definition grey : list rgb := repeat (9, 9, 9) 20.
Definition bright : list rgb := repeat (200, 200, 200) 20.

Definition strip_of (pixels : list rgb) (g : Random) : AnimationEngine.Strip :=
  {| AnimationEngine.led :=
       {| LEDStripController.np := pixels; LEDStripController.shown := pixels |};
     AnimationEngine.rng := g |}.

(** The application some time after startup, on 2025-12-20, with a strip
    of 20 pixels showing [pixels]. *)
Definition app_showing (pixels : list rgb) (sensor : LightSensor.t)
    : @CountdownApplication.t FP :=
  {| CountdownApplication.led_controller :=
       {| LEDStripController.np := pixels; LEDStripController.shown := pixels |};
     CountdownApplication.light_sensor := sensor;
     CountdownApplication.countdown_state := state_on (2025, 12, 20) (christmas true false);
     CountdownApplication.timezone_offset := -5;
     CountdownApplication.iteration_count := 41;
     CountdownApplication.random := zero_tape;
     CountdownApplication.calls := [] |}.

(** The outside world at [hour]:[minute] UTC on 2025-12-21 with ADC value
    [reading]; a refresh would be answered with [fetched]. *)
Definition env_at (hour minute reading : Z) (fetched : option (@EventSettings FP))
    : @CountdownApplication.Env FP :=
  {| CountdownApplication.adc_read_u16 := reading;
     CountdownApplication.ticks_ms := 500;
     CountdownApplication.clock :=
       {| t_year := 2025; t_month := 12; t_mday := 21;
          t_hour := hour; t_minute := minute; t_second := 0;
          t_weekday := 6; t_yearday := 355 |};
     CountdownApplication.local_date := Some (2025, 12, 21);
     CountdownApplication.fetched_settings := fetched;
     CountdownApplication.ticks_ms_init := 600 |}.

End Examples.

(** ** Loops of pixel writes *)

(** The buffer after [for x in xs: set_pixel(idx(x), col(x))]. *)
Definition writes (idx : Z -> Z) (col : Z -> rgb) (xs : list Z)
    (l : LEDStripController.t) : LEDStripController.t :=
  fold_left (fun l x => LEDStripController.set_pixel (idx x) (col x) l) xs l.

(** A computation whose result and effect on the strip do not depend on
    the state of [random]. *)
Definition led_only {A} (m : Exec AnimationEngine.Strip A) : Prop :=
  forall w1 w2,
    AnimationEngine.led w1 = AnimationEngine.led w2 ->
    fst (m w1) = fst (m w2)
    /\ AnimationEngine.led (snd (m w1)) = AnimationEngine.led (snd (m w2)).

Section BlockColour.
Context {FP : PyFloat}.

(** The colour of the pixels of day block [day_index] when custom colours
    are used; [pc] and [sc] are the parsed primary and secondary colours. *)
Definition day_color (st : CountdownState) (pc sc : rgb) (day_index : Z) : rgb :=
  let primary := AnimationEngine.is_primary_block st day_index in
  let color := if primary then pc else sc in
  if is_flashing st then
    if AnimationEngine.flash_applies
         (AnimationEngine.flashing_group (animation_phase st)) primary
    then ColorUtils.lighten color (AnimationEngine.lighten_factor (animation_phase st))
    else color
  else color.

End BlockColour.

Section MarkerVocabulary.
Context {FP : PyFloat}.

(** The marker blocks whose first pixel the marker pass of a day with
    pixel range [(block_min, block_max)] paints. *)
Definition marked_blocks (st : CountdownState) (num_pixels block_size block_min
    block_max : Z) : list Z :=
  filter (fun block =>
            let start := AnimationEngine.block_start (from_pi (settings st))
                           num_pixels block_size block in
            (start <? block_min) || (start >=? block_max))
         (range 0 (countdown_length st)).

End MarkerVocabulary.

(** ** Runs of readings *)

(** The number of leading elements of [l] that satisfy [p]. *)
Fixpoint leading_run (p : Z -> bool) (l : list Z) : nat :=
  match l with
  | [] => O
  | x :: rest => if p x then S (leading_run p rest) else O
  end.

(** The number of most recent readings (the list is oldest first) that
    satisfy [p]. *)
Definition trailing_run (p : Z -> bool) (readings : list Z) : nat :=
  leading_run p (rev readings).

(** ** Properties kept by a computation *)

(** [P] holds after [m] whenever it holds before, whether [m] returns or
    raises. *)
Definition keeps {S A} (P : S -> Prop) (m : Exec S A) : Prop :=
  forall s, P s -> P (snd (m s)).

(** ** More concrete inputs *)

Module MoreExamples.

(** The ten-day countdown of [Examples.christmas] with another
    [flash_speed]. *)
Definition flashing_every (speed : Z) : @EventSettings Examples.FP :=
  {| important_date := "2025-12-25";
     start_from_day := "2025-12-15";
     primary_color := "(255,0,0)";
     secondary_color := "(0,255,0)";
     use_custom_colors := true;
     start_time := "22:00";
     end_time := "06:00";
     from_pi := false;
     is_reverse := false;
     with_marker := true;
     marker_color := "(255,255,255)";
     flash_speed := @PInt Examples.FP speed;
     auto_update := true;
     update_branch := "main" |}.



End MoreExamples.

(** ** Writing colours *)

(** The decimal digits of a natural number. *)
Definition decimal (n : N) : string := NilEmpty.string_of_uint (N.to_uint n).

(** The text ["(r,g,b)"] of a colour. *)
Definition rgb_string (r g b : N) : string :=
  ("(" ++ decimal r ++ "," ++ decimal g ++ "," ++ decimal b ++ ")")%string.

Fixpoint digits_only (s : string) : bool :=
  match s with
  | EmptyString => true
  | String c rest => is_digit c && digits_only rest
  end.

(** [s] is empty or its first character is not one of [chars]. *)
Definition starts_outside (chars s : string) : bool :=
  match s with
  | EmptyString => true
  | String c _ => negb (mem_char c chars)
  end.


(** ** Values the program computes with *)

(** A channel the NeoPixel buffer holds: the buffer is a bytearray. *)
Definition is_byte (z : Z) : bool := (0 <=? z) && (z <=? 255).

(** A colour of three bytes. The buffer reads such a colour back as it
    was written; [np] stands for the buffer on these colours. *)
Definition byte_color (c : rgb) : bool :=
  let '(r, g, b) := c in is_byte r && is_byte g && is_byte b.

(** A buffer whose pixels are all colours of three bytes. *)
Definition byte_strip (l : LEDStripController.t) : bool :=
  forallb byte_color (LEDStripController.np l).

Section FiniteNumbers.
Context {FP : PyFloat}.

(** [math.isfinite(x)], written with the interface: [x - x] is zero for
    a finite float and NaN for an infinity or a NaN, and no comparison
    with a NaN holds. *)
Definition isfinite (x : pyfloat) : bool := fge (fsub x x) (of_int 0).

(** [int(v)] returns. On an infinity [int] raises OverflowError and on a
    NaN ValueError; [int_of] stands for [int] on the other numbers. *)
Definition int_returns (v : pynum) : bool :=
  match v with
  | PInt _ => true
  | PFloat f => isfinite f
  end.

(** The three calls of [int] in [lighten(color, factor)] return. *)
Definition lighten_returns (color : rgb) (factor : pyfloat) : bool :=
  let '(r, g, b) := color in
  isfinite (fmul (of_int r) factor)
  && isfinite (fmul (of_int g) factor)
  && isfinite (fmul (of_int b) factor).

End FiniteNumbers.

(** ** Date strings *)


(** ** The frame of a countdown render *)

Section CountdownFrame.
Context {FP : PyFloat}.

(** [pixel] is in the pixel range of day [day_index] on a strip of [n]
    pixels. *)
Definition in_block (st : CountdownState) (n day_index pixel : Z) : bool :=
  let '(block_min, block_max) :=
    AnimationEngine.block_bounds (from_pi (settings st)) n (countdown_length st)
      (n / countdown_length st) day_index in
  (block_min <=? pixel) && (pixel <? block_max).

(** [pixel] is the first pixel of one of the marker blocks. *)
Definition is_block_start (st : CountdownState) (n pixel : Z) : bool :=
  existsb (fun block =>
             AnimationEngine.block_start (from_pi (settings st)) n
               (n / countdown_length st) block =? pixel)
          (range 0 (countdown_length st)).

(** The last of the iterated [days] whose pixel range contains [pixel]. *)
Definition painting_day (st : CountdownState) (n : Z) (days : list Z) (pixel : Z)
    : option Z :=
  find (fun d => in_block st n d pixel) (rev days).

(** The marker pass of the last of the iterated [days] paints [pixel]. *)
Definition marked_at_end (st : CountdownState) (n : Z) (days : list Z) (pixel : Z)
    : bool :=
  match rev days with
  | [] => false
  | d_last :: _ =>
      with_marker (settings st) && is_block_start st n pixel
      && negb (in_block st n d_last pixel)
  end.

(** The colour of [pixel] after the days [days] are rendered with custom
    colours, [before] being its colour before the render; [mc], [pc] and
    [sc] are the parsed marker, primary and secondary colours. *)
Definition countdown_pixel (st : CountdownState) (n : Z) (mc pc sc : rgb)
    (days : list Z) (pixel : Z) (before : rgb) : rgb :=
  if marked_at_end st n days pixel then mc
  else match painting_day st n days pixel with
       | Some d => day_color st pc sc d
       | None => before
       end.

(** [random.choice([-1, 1])] for the raw draw [d]. *)
Definition sign_of_draw (d : nat) : Z := if Nat.even d then -1 else 1.

(** The colour the pixel loop of day [day_index] computes without custom
    colours for a pixel that holds [previous], from two raw draws. *)
Definition drift_color (st : CountdownState) (day_index : Z) (previous : rgb)
    (draw1 draw2 : nat) : rgb :=
  let '(r, g, b) := previous in
  let variation_1 := ((countdown_length st + 1) - day_index) * sign_of_draw draw1 in
  let variation_2 := ((countdown_length st + 1) - day_index) * sign_of_draw draw2 in
  let color := (ColorUtils.clamp (PInt (r + variation_1)),
                ColorUtils.clamp (PInt (g - variation_1)),
                ColorUtils.clamp (PInt (b + variation_2))) in
  if is_flashing st then
    if AnimationEngine.flash_applies
         (AnimationEngine.flashing_group (animation_phase st))
         (AnimationEngine.is_primary_block st day_index)
    then ColorUtils.lighten color (AnimationEngine.lighten_factor (animation_phase st))
    else color
  else color.

(** The number of pixels the pixel loop of day [day_index] iterates. *)
Definition block_length (st : CountdownState) (n day_index : Z) : nat :=
  let '(block_min, block_max) :=
    AnimationEngine.block_bounds (from_pi (settings st)) n (countdown_length st)
      (n / countdown_length st) day_index in
  Z.to_nat (block_max - block_min).

(** The number of pixels the pixel loop of day [day_index] iterates before
    it reaches [pixel]. *)
Definition block_offset (st : CountdownState) (n day_index pixel : Z) : nat :=
  Z.to_nat (pixel - fst (AnimationEngine.block_bounds (from_pi (settings st)) n
                           (countdown_length st) (n / countdown_length st) day_index)).

(** The number of pixels the pixel loops of [days] iterate. *)
Definition pixels_iterated (st : CountdownState) (n : Z) (days : list Z) : nat :=
  list_sum (map (block_length st n) days).

(** A marker pass may paint [pixel]. *)
Definition marker_pixel (st : CountdownState) (n pixel : Z) : bool :=
  with_marker (settings st) && is_block_start st n pixel.

End CountdownFrame.

(** ** Concrete inputs with other speeds and dates *)

Module DomainExamples.

(** The ten-day countdown of [Examples.christmas] with a [flash_speed]
    of -0.5, a float. *)
Definition flashing_backwards : @EventSettings Examples.FP :=
  {| important_date := "2025-12-25";
     start_from_day := "2025-12-15";
     primary_color := "(255,0,0)";
     secondary_color := "(0,255,0)";
     use_custom_colors := true;
     start_time := "22:00";
     end_time := "06:00";
     from_pi := false;
     is_reverse := false;
     with_marker := true;
     marker_color := "(255,255,255)";
     flash_speed := @PFloat Examples.FP
                      (@fdiv Examples.FP (@of_int Examples.FP (-1))
                                         (@of_int Examples.FP 2));
     auto_update := true;
     update_branch := "main" |}.

(** 1.35, the largest factor [lighten] is called with. *)
Definition factor_135 : @pyfloat Examples.FP :=
  @fdiv Examples.FP (@of_int Examples.FP 135) (@of_int Examples.FP 100).

(** 300.7 *)
Definition above_a_byte : @pyfloat Examples.FP :=
  @fdiv Examples.FP (@of_int Examples.FP 3007) (@of_int Examples.FP 10).

End DomainExamples.
(* ====================================================================== *)
(** * Properties                                                           *)
(* ====================================================================== *)

(** ** Ranges and loops *)

Lemma in_range (p start stop : Z) :
  In p (range start stop) <-> start <= p < stop.
Proof.
  unfold range. rewrite in_map_iff. split.
  - intros [i [Hi Hin]]. apply in_seq in Hin. lia.
  - intros H. exists (Z.to_nat (p - start)). split; [lia|].
    apply in_seq. lia.
Qed.

Lemma in_range_down (p start stop : Z) :
  In p (range_down start stop) <-> stop < p <= start.
Proof.
  unfold range_down. rewrite in_map_iff. split.
  - intros [i [Hi Hin]]. apply in_seq in Hin. lia.
  - intros H. exists (Z.to_nat (start - p)). split; [lia|].
    apply in_seq. lia.
Qed.

Lemma for_each_app {S A} (xs ys : list A) (body : A -> Exec S unit) (s : S) :
  for_each (xs ++ ys) body s =
  bind (for_each xs body) (fun _ => for_each ys body) s.
Proof.
  revert s. induction xs as [|x xs IH]; intros s; simpl.
  - reflexivity.
  - unfold bind in *. destruct (body x s) as [[[]|e] s']; [|reflexivity].
    apply IH.
Qed.

Lemma for_each_ext {S A} (xs : list A) (f g : A -> Exec S unit) :
  (forall x s, In x xs -> f x s = g x s) ->
  forall s, for_each xs f s = for_each xs g s.
Proof.
  induction xs as [|x xs IH]; intros H s; simpl; [reflexivity|].
  unfold bind. rewrite (H x s (or_introl eq_refl)).
  destruct (g x s) as [[[]|e] s']; [|reflexivity].
  apply IH. intros y t Hy. apply H. right. exact Hy.
Qed.

(** ** LightSensor: the debouncer *)

Section Debouncer.
Import LightSensor.

Lemma update_dark (reading : Z) (s : t) :
  reading > threshold s ->
  update reading s =
  ((true,
    consecutive_dark_count s + 1 >=? consecutive_needed s,
    0 >=? consecutive_needed s),
   {| threshold := threshold s;
      consecutive_needed := consecutive_needed s;
      consecutive_dark_count := consecutive_dark_count s + 1;
      consecutive_light_count := 0 |}).
Proof.
  intros H. unfold update.
  replace (reading >? threshold s) with true by (symmetry; apply Z.gtb_lt; lia).
  reflexivity.
Qed.

Lemma update_light (reading : Z) (s : t) :
  reading <= threshold s ->
  update reading s =
  ((false,
    0 >=? consecutive_needed s,
    consecutive_light_count s + 1 >=? consecutive_needed s),
   {| threshold := threshold s;
      consecutive_needed := consecutive_needed s;
      consecutive_dark_count := 0;
      consecutive_light_count := consecutive_light_count s + 1 |}).
Proof.
  intros H. unfold update.
  replace (reading >? threshold s) with false
    by (rewrite Z.gtb_ltb; symmetry; apply Z.ltb_ge; lia).
  reflexivity.
Qed.

Lemma feed_cons (r : Z) (rs : list Z) (s : t) :
  feed (r :: rs) s = feed rs (snd (update r s)).
Proof. reflexivity. Qed.

(** A run of dark readings counts up the dark counter and leaves the
    light counter at zero. *)
Lemma feed_dark_run (darks : list Z) :
  forall s : t,
    Forall (fun r => r > threshold s) darks ->
    consecutive_light_count s = 0 ->
    feed darks s =
    {| threshold := threshold s;
       consecutive_needed := consecutive_needed s;
       consecutive_dark_count := consecutive_dark_count s + Z.of_nat (List.length darks);
       consecutive_light_count := 0 |}.
Proof.
  induction darks as [|r darks IH]; intros s Hall Hl.
  - simpl. destruct s; simpl in *. subst. f_equal. lia.
  - inversion Hall as [|? ? Hr Hrest]; subst.
    rewrite feed_cons, (update_dark r s Hr). simpl snd.
    rewrite IH; simpl; auto.
    f_equal. lia.
Qed.

Lemma feed_app (xs ys : list Z) (s : t) :
  feed (xs ++ ys) s = feed ys (feed xs s).
Proof. unfold feed. apply fold_left_app. Qed.

(** C5. A fresh debouncer that needs 25 consecutive readings: 24 dark
    readings and then a light one leave [consistent_dark] false; 25 dark
    readings make it true; one light reading right after that makes both
    [consistent_dark] and [consistent_light] false. The flags are the ones
    [update] returns, in the order [(is_dark, consistent_dark,
    consistent_light)]; a reading is dark when it exceeds the threshold. *)
Theorem C5_debouncer_threshold (thr : Z) (darks : list Z) (dark light : Z) :
  List.length darks = 24%nat ->
  Forall (fun r => r > thr) darks ->
  dark > thr ->
  light <= thr ->
  let fresh := init thr 25 in
  fst (update light (feed darks fresh)) = (false, false, false)
  /\ fst (update dark (feed darks fresh)) = (true, true, false)
  /\ fst (update light (feed (darks ++ [dark]) fresh)) = (false, false, false).
Proof.
  intros Hlen Hall Hdark Hlight fresh.
  assert (H24 : feed darks fresh =
                {| threshold := thr; consecutive_needed := 25;
                   consecutive_dark_count := 24;
                   consecutive_light_count := 0 |}).
  { rewrite feed_dark_run by (simpl; auto). simpl. rewrite Hlen. reflexivity. }
  rewrite feed_app, H24.
  repeat split.
  - rewrite update_light by (simpl; lia). reflexivity.
  - rewrite update_dark by (simpl; lia). reflexivity.
  - rewrite feed_cons. rewrite (update_dark dark) by (simpl; lia). simpl snd.
    change (feed [] ?x) with x.
    rewrite update_light by (simpl; lia). reflexivity.
Qed.

Lemma C5_debouncer_threshold_witness :
  let darks := repeat 40000 24 in
  let fresh := init LDR_THRESHOLD 25 in
  fst (update 120 (feed darks fresh)) = (false, false, false)
  /\ fst (update 40000 (feed darks fresh)) = (true, true, false)
  /\ fst (update 120 (feed (darks ++ [40000]) fresh)) = (false, false, false).
Proof.
  apply (C5_debouncer_threshold LDR_THRESHOLD (repeat 40000 24) 40000 120).
  - reflexivity.
  - apply Forall_forall. intros r Hr. apply repeat_spec in Hr. subst r.
    unfold LDR_THRESHOLD. lia.
  - unfold LDR_THRESHOLD. lia.
  - unfold LDR_THRESHOLD. lia.
Defined.

(** C6. In every sensor state reachable from initialisation by [update]
    calls, at most one of the two counters is nonzero. *)
Theorem C6_one_counter_nonzero (thr needed : Z) (s : t) :
  reachable thr needed s ->
  consecutive_dark_count s = 0 \/ consecutive_light_count s = 0.
Proof.
  intros H. induction H as [|reading s Hs IH].
  - left. reflexivity.
  - unfold update. destruct (reading >? threshold s); simpl.
    + right. reflexivity.
    + left. reflexivity.
Qed.

Lemma C6_one_counter_nonzero_witness :
  let s := snd (update 120 (snd (update 40000 default))) in
  consecutive_dark_count s = 0 \/ consecutive_light_count s = 0.
Proof.
  apply (C6_one_counter_nonzero LDR_THRESHOLD CONSECUTIVE_READINGS_NEEDED).
  apply reach_update. apply reach_update. apply reach_init.
Defined.

End Debouncer.

(** ** DateUtils.is_within_time_range *)

Section TimeRange.
Import DateUtils.

Lemma is_digit_inv (c : ascii) :
  is_digit c = true ->
  In c ["0"; "1"; "2"; "3"; "4"; "5"; "6"; "7"; "8"; "9"]%char.
Proof.
  destruct c as [[] [] [] [] [] [] [] []]; intros H;
    vm_compute in H; try discriminate H; simpl; tauto.
Qed.

Lemma digit_not_colon (c : ascii) :
  is_digit c = true -> Ascii.eqb c ":" = false.
Proof.
  intros H. apply is_digit_inv in H. simpl in H.
  repeat (destruct H as [H|H]; [subst c; reflexivity|]). contradiction.
Qed.

Lemma py_int_two_digits (a b : ascii) :
  is_digit a = true -> is_digit b = true ->
  py_int (String a (String b EmptyString)) = Ok (10 * digit_value a + digit_value b).
Proof.
  intros Ha Hb. apply is_digit_inv in Ha. apply is_digit_inv in Hb.
  simpl in Ha, Hb.
  repeat (destruct Ha as [Ha|Ha]; [subst a|]); try contradiction;
    repeat (destruct Hb as [Hb|Hb]; [subst b; reflexivity|]); contradiction.
Qed.

Lemma well_formed_hhmm_inv (s : string) :
  well_formed_hhmm s = true ->
  exists h1 h2 m1 m2,
    s = String h1 (String h2 (String ":" (String m1 (String m2 EmptyString))))
    /\ is_digit h1 = true /\ is_digit h2 = true
    /\ is_digit m1 = true /\ is_digit m2 = true.
Proof.
  destruct s as [|h1 [|h2 [|sep [|m1 [|m2 [|x rest]]]]]]; simpl; try discriminate.
  intros H. repeat (apply andb_prop in H; destruct H as [H ?]).
  exists h1, h2, m1, m2. repeat split; auto.
  f_equal. f_equal. f_equal. apply Ascii.eqb_eq. assumption.
Qed.

(** What the code reads from a well-formed string is the minute of the
    day it denotes. *)
Lemma unpack2_hhmm (s : string) :
  well_formed_hhmm s = true ->
  exists h m, unpack2 (split ":" s) = Ok (h, m) /\ h * 60 + m = minutes_of_hhmm s.
Proof.
  intros H. destruct (well_formed_hhmm_inv s H)
    as (h1 & h2 & m1 & m2 & -> & Hh1 & Hh2 & Hm1 & Hm2).
  exists (10 * digit_value h1 + digit_value h2), (10 * digit_value m1 + digit_value m2).
  split; [|reflexivity].
  unfold unpack2. cbn [split].
  rewrite (digit_not_colon h1 Hh1), (digit_not_colon h2 Hh2),
          (digit_not_colon m1 Hm1), (digit_not_colon m2 Hm2).
  change (Ascii.eqb ":" ":") with true. cbn iota.
  cbn [map_int].
  rewrite (py_int_two_digits h1 h2 Hh1 Hh2), (py_int_two_digits m1 m2 Hm1 Hm2).
  reflexivity.
Qed.

Lemma is_within_time_range_eq (start_s end_s : string) (now : time_tuple) :
  well_formed_hhmm start_s = true ->
  well_formed_hhmm end_s = true ->
  is_within_time_range start_s end_s now =
  Ok (let s := minutes_of_hhmm start_s in
      let e := minutes_of_hhmm end_s in
      let c := minute_of_day now in
      if s <=? e then (s <=? c) && (c <=? e) else (c >=? s) || (c <=? e)).
Proof.
  intros Hs He.
  destruct (unpack2_hhmm start_s Hs) as (sh & sm & Hus & Hsm).
  destruct (unpack2_hhmm end_s He) as (eh & em & Hue & Hem).
  unfold is_within_time_range. rewrite Hus. cbn [rbind]. rewrite Hue. cbn [rbind].
  cbv zeta. rewrite Hsm, Hem. unfold minute_of_day.
  destruct (minutes_of_hhmm start_s <=? minutes_of_hhmm end_s); reflexivity.
Qed.

(** C7. For well-formed ["HH:MM"] start and end times and every current
    time: when start <= end the test is true exactly when
    start <= current <= end; when start > end it is true exactly when
    current >= start or current <= end. With start "22:00" and end
    "06:00", 23:30 is inside and 12:00 is outside. *)
Theorem C7_is_within_time_range (start_s end_s : string) (now : time_tuple) :
  well_formed_hhmm start_s = true ->
  well_formed_hhmm end_s = true ->
  let s := minutes_of_hhmm start_s in
  let e := minutes_of_hhmm end_s in
  let c := minute_of_day now in
  (exists b, is_within_time_range start_s end_s now = Ok b)
  /\ (s <= e ->
      (is_within_time_range start_s end_s now = Ok true <-> s <= c <= e))
  /\ (s > e ->
      (is_within_time_range start_s end_s now = Ok true <-> c >= s \/ c <= e))
  /\ is_within_time_range "22:00" "06:00" (at_time 23 30) = Ok true
  /\ is_within_time_range "22:00" "06:00" (at_time 12 0) = Ok false.
Proof.
  intros Hs He s e c.
  rewrite (is_within_time_range_eq start_s end_s now Hs He).
  cbv zeta. fold s e c.
  split; [eexists; reflexivity|].
  split; [|split; [|split; reflexivity]].
  - intros Hle. replace (s <=? e) with true by (symmetry; apply Z.leb_le; lia).
    split.
    + intros H. injection H as H. apply andb_prop in H. destruct H as [H1 H2].
      apply Z.leb_le in H1. apply Z.leb_le in H2. lia.
    + intros [H1 H2]. f_equal. apply andb_true_intro.
      split; apply Z.leb_le; assumption.
  - intros Hgt. replace (s <=? e) with false by (symmetry; apply Z.leb_gt; lia).
    split.
    + intros H. injection H as H. apply orb_prop in H. destruct H as [H|H].
      * left. apply Z.geb_le in H. lia.
      * right. apply Z.leb_le in H. lia.
    + intros [H|H]; f_equal; apply orb_true_intro.
      * left. apply Z.geb_le. lia.
      * right. apply Z.leb_le. lia.
Qed.

Lemma C7_is_within_time_range_witness :
  (exists b, is_within_time_range "22:00" "06:00" (at_time 23 30) = Ok b)
  /\ (22 * 60 <= 6 * 60 ->
      (is_within_time_range "22:00" "06:00" (at_time 23 30) = Ok true
       <-> 22 * 60 <= 23 * 60 + 30 <= 6 * 60))
  /\ (22 * 60 > 6 * 60 ->
      (is_within_time_range "22:00" "06:00" (at_time 23 30) = Ok true
       <-> 23 * 60 + 30 >= 22 * 60 \/ 23 * 60 + 30 <= 6 * 60))
  /\ is_within_time_range "22:00" "06:00" (at_time 23 30) = Ok true
  /\ is_within_time_range "22:00" "06:00" (at_time 12 0) = Ok false.
Proof.
  apply (C7_is_within_time_range "22:00" "06:00" (at_time 23 30)); reflexivity.
Defined.

End TimeRange.

(** ** AnimationEngine: the block partition *)

Section Blocks.
Import AnimationEngine.

(** C8. With 100 pixels and a countdown of 10 days the block size is
    [100 // 10]; the pixel loop of every day index above 1 visits exactly
    10 pixels, and every pixel of the strip is visited by the pixel loop
    of one of the day indices 1..10. This holds for both orientations
    ([from_pi]). *)
Theorem C8_block_partition (from_pi : bool) :
  let block_size := 100 / 10 in
  (forall day_index, day_index > 1 ->
     let '(block_min, block_max) := block_bounds from_pi 100 10 block_size day_index in
     block_max - block_min = 10
     /\ List.length (range block_min block_max) = 10%nat)
  /\ (forall pixel, 0 <= pixel < 100 ->
        exists day_index,
          1 <= day_index <= 10
          /\ let '(block_min, block_max) :=
               block_bounds from_pi 100 10 block_size day_index in
             In pixel (range block_min block_max)).
Proof.
  change (100 / 10) with 10. cbv zeta. split.
  - intros d Hd. unfold block_bounds.
    replace (d >? 1) with true by (symmetry; apply Z.gtb_lt; lia).
    destruct from_pi; cbn [negb]; cbv beta iota zeta; (split; [lia|]);
      unfold range; rewrite length_map, length_seq;
      match goal with |- Z.to_nat ?x = _ => replace x with 10 by lia end;
      reflexivity.
  - intros p Hp. destruct from_pi.
    + (* blocks laid out from the start of the strip *)
      exists (10 - p / 10).
      assert (Hq : 0 <= p / 10 <= 9).
      { split; [apply Z.div_pos; lia|].
        apply Z.lt_succ_r. apply Z.div_lt_upper_bound; lia. }
      assert (Hm := Z.mod_pos_bound p 10 ltac:(lia)).
      assert (Hd := Z.div_mod p 10 ltac:(lia)).
      split; [lia|]. unfold block_bounds. cbn [negb].
      destruct (10 - p / 10 >? 1) eqn:E; cbv beta iota zeta; apply in_range.
      * lia.
      * rewrite Z.gtb_ltb in E. apply Z.ltb_ge in E. lia.
    + (* blocks laid out from the end of the strip *)
      exists (p / 10 + 1).
      assert (Hq : 0 <= p / 10 <= 9).
      { split; [apply Z.div_pos; lia|].
        apply Z.lt_succ_r. apply Z.div_lt_upper_bound; lia. }
      assert (Hm := Z.mod_pos_bound p 10 ltac:(lia)).
      assert (Hd := Z.div_mod p 10 ltac:(lia)).
      split; [lia|]. unfold block_bounds. cbn [negb].
      destruct (p / 10 + 1 >? 1) eqn:E; cbv beta iota zeta; apply in_range.
      * lia.
      * rewrite Z.gtb_ltb in E. apply Z.ltb_ge in E. lia.
Qed.

Lemma C8_block_partition_witness :
  (let '(block_min, block_max) := block_bounds false 100 10 (100 / 10) 7 in
   block_max - block_min = 10
   /\ List.length (range block_min block_max) = 10%nat)
  /\ (exists day_index,
        1 <= day_index <= 10
        /\ let '(block_min, block_max) :=
             block_bounds false 100 10 (100 / 10) day_index in
           In 42 (range block_min block_max)).
Proof.
  split.
  - apply (proj1 (C8_block_partition false) 7). lia.
  - apply (proj2 (C8_block_partition false) 42). lia.
Defined.

End Blocks.

(** ** CountdownApplication: one iteration of the main loop *)

Section Tick.
Context {FP : PyFloat} {TM : TimeModule}.
Import CountdownApplication.







End Tick.



(** ** LEDStripController: the pixel buffer *)

Section Buffer.
Import LEDStripController.

Lemma length_list_set {A} (l : list A) (i : nat) (x : A) :
  List.length (list_set l i x) = List.length l.
Proof.
  revert i. induction l as [|y l IH]; intros [|i]; simpl; auto.
Qed.

Lemma nth_list_set_eq {A} (l : list A) (i : nat) (x d : A) :
  (i < List.length l)%nat -> nth i (list_set l i x) d = x.
Proof.
  revert i. induction l as [|y l IH]; intros [|i] H; simpl in *; try lia; auto.
  apply IH. lia.
Qed.

Lemma nth_list_set_neq {A} (l : list A) (i j : nat) (x d : A) :
  i <> j -> nth j (list_set l i x) d = nth j l d.
Proof.
  revert i j. induction l as [|y l IH]; intros [|i] [|j] H; simpl; auto.
  congruence.
Qed.

Lemma num_pixels_set_pixel (i : Z) (c : rgb) (l : t) :
  num_pixels (set_pixel i c l) = num_pixels l.
Proof.
  unfold set_pixel. destruct ((0 <=? i) && (i <? num_pixels l)); [|reflexivity].
  unfold num_pixels. simpl. rewrite length_list_set. reflexivity.
Qed.

Lemma shown_set_pixel (i : Z) (c : rgb) (l : t) :
  shown (set_pixel i c l) = shown l.
Proof.
  unfold set_pixel. destruct ((0 <=? i) && (i <? num_pixels l)); reflexivity.
Qed.

Lemma in_strip (i : Z) (l : t) :
  (0 <=? i) && (i <? num_pixels l) = true <-> 0 <= i < num_pixels l.
Proof.
  rewrite andb_true_iff, Z.leb_le, Z.ltb_lt. reflexivity.
Qed.

Lemma get_set_pixel_eq (i : Z) (c : rgb) (l : t) :
  0 <= i < num_pixels l -> get_pixel i (set_pixel i c l) = c.
Proof.
  intros H. unfold get_pixel. rewrite num_pixels_set_pixel.
  rewrite (proj2 (in_strip i l) H). unfold set_pixel.
  rewrite (proj2 (in_strip i l) H). simpl.
  apply nth_list_set_eq. unfold num_pixels in H. lia.
Qed.

Lemma get_set_pixel_neq (i j : Z) (c : rgb) (l : t) :
  i <> j -> get_pixel j (set_pixel i c l) = get_pixel j l.
Proof.
  intros H. unfold get_pixel. rewrite num_pixels_set_pixel.
  destruct ((0 <=? j) && (j <? num_pixels l)) eqn:Ej; [|reflexivity].
  unfold set_pixel. destruct ((0 <=? i) && (i <? num_pixels l)) eqn:Ei; [|reflexivity].
  simpl. apply in_strip in Ej. apply in_strip in Ei.
  apply nth_list_set_neq. lia.
Qed.

Lemma get_pixel_outside (p : Z) (l : t) :
  ~ (0 <= p < num_pixels l) -> get_pixel p l = COLOR_OFF.
Proof.
  intros H. unfold get_pixel.
  destruct ((0 <=? p) && (p <? num_pixels l)) eqn:E; [|reflexivity].
  apply in_strip in E. contradiction.
Qed.

(** Two buffers of the same length with the same pixels are equal. *)
Lemma np_ext (l1 l2 : t) :
  num_pixels l1 = num_pixels l2 ->
  (forall p, 0 <= p < num_pixels l1 -> get_pixel p l1 = get_pixel p l2) ->
  np l1 = np l2.
Proof.
  intros Hn H. apply (nth_ext _ _ COLOR_OFF COLOR_OFF).
  - unfold num_pixels in Hn. lia.
  - intros k Hk.
    assert (Hp : 0 <= Z.of_nat k < num_pixels l1) by (unfold num_pixels; lia).
    specialize (H (Z.of_nat k) Hp). unfold get_pixel in H.
    rewrite <- Hn in H. rewrite (proj2 (in_strip _ _) Hp) in H.
    rewrite Nat2Z.id in H. exact H.
Qed.

(** Whether some element of [xs] is mapped to [p] is decidable. *)
Lemma classic_in (xs : list Z) (idx : Z -> Z) (p : Z) :
  (exists x, In x xs /\ idx x = p) \/ (forall x, In x xs -> idx x <> p).
Proof.
  induction xs as [|x xs [[y [Hy Hp]]|IH]].
  - right. intros x [].
  - left. exists y. split; [right; exact Hy|exact Hp].
  - destruct (Z.eq_dec (idx x) p) as [E|E].
    + left. exists x. split; [left; reflexivity|exact E].
    + right. intros y [<-|Hy]; [exact E|apply IH; exact Hy].
Qed.

Lemma writes_cons (idx : Z -> Z) (col : Z -> rgb) (x : Z) (xs : list Z) (l : t) :
  writes idx col (x :: xs) l = writes idx col xs (set_pixel (idx x) (col x) l).
Proof. reflexivity. Qed.

Lemma num_pixels_writes (idx : Z -> Z) (col : Z -> rgb) (xs : list Z) (l : t) :
  num_pixels (writes idx col xs l) = num_pixels l.
Proof.
  revert l. induction xs as [|x xs IH]; intros l; [reflexivity|].
  rewrite writes_cons, IH. apply num_pixels_set_pixel.
Qed.

Lemma shown_writes (idx : Z -> Z) (col : Z -> rgb) (xs : list Z) (l : t) :
  shown (writes idx col xs l) = shown l.
Proof.
  revert l. induction xs as [|x xs IH]; intros l; [reflexivity|].
  rewrite writes_cons, IH. apply shown_set_pixel.
Qed.

(** A pixel no write addresses keeps its colour. *)
Lemma get_writes_other (idx : Z -> Z) (col : Z -> rgb) (xs : list Z) (p : Z) :
  forall l, (forall x, In x xs -> idx x <> p) ->
            get_pixel p (writes idx col xs l) = get_pixel p l.
Proof.
  induction xs as [|x xs IH]; intros l H; [reflexivity|].
  rewrite writes_cons, IH.
  - apply get_set_pixel_neq. apply H. left. reflexivity.
  - intros y Hy. apply H. right. exact Hy.
Qed.

(** A pixel of the strip that is written, always with colour [c], ends
    with colour [c]. *)
Lemma get_writes_same (idx : Z -> Z) (col : Z -> rgb) (xs : list Z) (p : Z) (c : rgb) :
  forall l, 0 <= p < num_pixels l ->
            (exists x, In x xs /\ idx x = p) ->
            (forall x, In x xs -> idx x = p -> col x = c) ->
            get_pixel p (writes idx col xs l) = c.
Proof.
  induction xs as [|x xs IH]; intros l Hp [y [Hy Hidx]] Hc.
  - destruct Hy.
  - rewrite writes_cons.
    assert (Hc' : forall z, In z xs -> idx z = p -> col z = c)
      by (intros z Hz; apply Hc; right; exact Hz).
    destruct (classic_in xs idx p) as [Hin|Hout].
    + apply IH; auto. rewrite num_pixels_set_pixel. exact Hp.
    + rewrite get_writes_other by exact Hout.
      destruct Hy as [->|Hy]; [|exfalso; exact (Hout y Hy Hidx)].
      rewrite Hidx, (Hc y (or_introl eq_refl) Hidx).
      apply get_set_pixel_eq. exact Hp.
Qed.

End Buffer.

(** ** AnimationEngine: loops over the strip *)

Section RenderLoops.
Import AnimationEngine.

Lemma strip_eta (w : Strip) : {| led := led w; rng := rng w |} = w.
Proof. destruct w; reflexivity. Qed.

Lemma for_each_set_pixel (idx : Z -> Z) (col : Z -> rgb) (xs : list Z) :
  forall w,
    for_each xs (fun x => set_pixel (idx x) (col x)) w =
    (Ok tt, {| led := writes idx col xs (led w); rng := rng w |}).
Proof.
  induction xs as [|x xs IH]; intros w.
  - simpl. unfold ret. rewrite strip_eta. reflexivity.
  - simpl. unfold bind, set_pixel at 1, modify. rewrite IH. reflexivity.
Qed.

Lemma for_each_filter {S} (cond : Z -> bool) (body : Z -> Exec S unit) (xs : list Z) :
  forall s,
    for_each xs (fun x => if cond x then body x else ret tt) s =
    for_each (filter cond xs) body s.
Proof.
  induction xs as [|x xs IH]; intros s; [reflexivity|].
  simpl. destruct (cond x); simpl.
  - unfold bind. destruct (body x s) as [[[]|e] s']; [apply IH|reflexivity].
  - unfold bind, ret. apply IH.
Qed.

(** A loop whose body always returns and keeps [P] returns and keeps [P]. *)
Lemma for_each_ok {S A} (P : S -> Prop) (xs : list A) (body : A -> Exec S unit) :
  (forall x s, In x xs -> P s -> exists s', body x s = (Ok tt, s') /\ P s') ->
  forall s, P s -> exists s', for_each xs body s = (Ok tt, s') /\ P s'.
Proof.
  induction xs as [|x xs IH]; intros Hbody s Hs.
  - exists s. split; [reflexivity|exact Hs].
  - destruct (Hbody x s (or_introl eq_refl) Hs) as [s1 [E1 H1]].
    destruct (IH (fun y t Hy => Hbody y t (or_intror Hy)) s1 H1) as [s2 [E2 H2]].
    exists s2. split; [|exact H2]. simpl. unfold bind. rewrite E1. exact E2.
Qed.

(** *** Computations that ignore [random] *)

Lemma led_only_ret {A} (a : A) : led_only (ret a).
Proof. intros w1 w2 H. split; [reflexivity|exact H]. Qed.

Lemma led_only_lift {A} (r : result A) : led_only (lift r).
Proof. intros w1 w2 H. split; [reflexivity|exact H]. Qed.

Lemma led_only_bind {A B} (m : Exec Strip A) (k : A -> Exec Strip B) :
  led_only m -> (forall a, led_only (k a)) -> led_only (bind m k).
Proof.
  intros Hm Hk w1 w2 H. unfold bind.
  destruct (Hm w1 w2 H) as [Hr Hl].
  destruct (m w1) as [[a1|e1] s1], (m w2) as [[a2|e2] s2];
    simpl in Hr, Hl; try discriminate Hr.
  - injection Hr as ->. apply Hk. exact Hl.
  - injection Hr as ->. simpl. split; [reflexivity|exact Hl].
Qed.

Lemma led_only_set_pixel (i : Z) (c : rgb) : led_only (set_pixel i c).
Proof.
  intros w1 w2 H. unfold set_pixel, modify. simpl. rewrite H. split; reflexivity.
Qed.

Lemma led_only_led_write : led_only led_write.
Proof.
  intros w1 w2 H. unfold led_write, modify. simpl. rewrite H. split; reflexivity.
Qed.

Lemma led_only_for_each {A} (xs : list A) (body : A -> Exec Strip unit) :
  (forall x, led_only (body x)) -> led_only (for_each xs body).
Proof.
  intros Hbody. induction xs as [|x xs IH]; simpl.
  - apply led_only_ret.
  - apply led_only_bind; [apply Hbody|intros _; exact IH].
Qed.

(** [w <- get ;; k (led w)]: reading the controller only. *)
Lemma led_only_get_led {A} (k : LEDStripController.t -> Exec Strip A) :
  (forall l, led_only (k l)) -> led_only (bind get (fun w => k (led w))).
Proof.
  intros Hk w1 w2 H. unfold bind, get. rewrite H. apply Hk. exact H.
Qed.

End RenderLoops.

(** ** AnimationEngine: one day block and its markers *)

Section RenderDay.
Context {FP : PyFloat}.
Import AnimationEngine.

Lemma pixel_color_custom (st : CountdownState) (pc sc : rgb) (day_index pixel : Z) :
  use_custom_colors (settings st) = true ->
  ColorUtils.string_to_rgb (primary_color (settings st)) = Ok pc ->
  ColorUtils.string_to_rgb (secondary_color (settings st)) = Ok sc ->
  forall w, pixel_color st day_index pixel w = (Ok (day_color st pc sc day_index), w).
Proof.
  intros Hc Hp Hs w. unfold pixel_color, day_color. rewrite Hc, Hp, Hs.
  destruct (is_primary_block st day_index); reflexivity.
Qed.

Lemma fill_block_custom (st : CountdownState) (pc sc : rgb)
    (day_index block_min block_max : Z) :
  use_custom_colors (settings st) = true ->
  ColorUtils.string_to_rgb (primary_color (settings st)) = Ok pc ->
  ColorUtils.string_to_rgb (secondary_color (settings st)) = Ok sc ->
  forall w,
    fill_block st day_index block_min block_max w =
    (Ok tt, {| led := writes (fun p => p) (fun _ => day_color st pc sc day_index)
                        (range block_min block_max) (led w);
               rng := rng w |}).
Proof.
  intros Hc Hp Hs w. unfold fill_block.
  rewrite <- for_each_set_pixel. apply for_each_ext.
  intros p s _. unfold bind. rewrite (pixel_color_custom st pc sc) by assumption.
  reflexivity.
Qed.

(** The pixel loop returns and keeps the length of the buffer and the
    frame on the strip, with or without custom colours. *)
Lemma fill_block_ok (st : CountdownState) (pc sc : rgb)
    (day_index block_min block_max : Z) :
  ColorUtils.string_to_rgb (primary_color (settings st)) = Ok pc ->
  ColorUtils.string_to_rgb (secondary_color (settings st)) = Ok sc ->
  forall w, exists w',
    fill_block st day_index block_min block_max w = (Ok tt, w')
    /\ LEDStripController.num_pixels (led w') = LEDStripController.num_pixels (led w).
Proof.
  intros Hp Hs w. unfold fill_block.
  apply (for_each_ok
           (fun s => LEDStripController.num_pixels (led s)
                     = LEDStripController.num_pixels (led w))); [|reflexivity].
  intros p s _ Hn.
  destruct (use_custom_colors (settings st)) eqn:Hc.
  - unfold bind. rewrite (pixel_color_custom st pc sc) by assumption.
    eexists. split; [reflexivity|]. simpl.
    rewrite num_pixels_set_pixel. exact Hn.
  - unfold pixel_color. rewrite Hc.
    unfold bind, random_choice_sign, get, ret, set_pixel, modify.
    destruct (choice_sign (rng s)) as [c1 g1]. cbn [led rng].
    destruct (choice_sign g1) as [c2 g2]. cbn [led rng].
    destruct (LEDStripController.get_pixel p (led s)) as [[r g] b].
    eexists. split; [reflexivity|]. simpl.
    rewrite num_pixels_set_pixel. exact Hn.
Qed.

Lemma add_markers_eq (st : CountdownState) (mc : rgb)
    (num_pixels block_size block_min block_max : Z) :
  with_marker (settings st) = true ->
  ColorUtils.string_to_rgb (marker_color (settings st)) = Ok mc ->
  forall w,
    add_markers st num_pixels block_size block_min block_max w =
    (Ok tt, {| led := writes (block_start (from_pi (settings st)) num_pixels block_size)
                        (fun _ => mc)
                        (marked_blocks st num_pixels block_size block_min block_max)
                        (led w);
               rng := rng w |}).
Proof.
  intros Hm Hc w. unfold add_markers, marked_blocks. rewrite Hm, Hc.
  rewrite <- for_each_set_pixel.
  rewrite <- (for_each_filter
                (fun block =>
                   (block_start (from_pi (settings st)) num_pixels block_size block
                    <? block_min)
                   || (block_start (from_pi (settings st)) num_pixels block_size block
                       >=? block_max))).
  apply for_each_ext. intros b s _.
  destruct ((_ <? block_min) || (_ >=? block_max)); reflexivity.
Qed.

(** The first pixel of a marked block is outside the pixel range of the
    day. *)
Lemma marked_blocks_spec (st : CountdownState)
    (num_pixels block_size block_min block_max block : Z) :
  In block (marked_blocks st num_pixels block_size block_min block_max) <->
  0 <= block < countdown_length st
  /\ (block_start (from_pi (settings st)) num_pixels block_size block < block_min
      \/ block_max <= block_start (from_pi (settings st)) num_pixels block_size block).
Proof.
  unfold marked_blocks. rewrite filter_In, in_range, orb_true_iff.
  rewrite Z.ltb_lt, Z.geb_le. reflexivity.
Qed.

End RenderDay.

(** ** AnimationEngine: writing the frame *)

Lemma get_pixel_write (p : Z) (l : LEDStripController.t) :
  LEDStripController.get_pixel p (LEDStripController.write l)
  = LEDStripController.get_pixel p l.
Proof. reflexivity. Qed.

(** ** AnimationEngine: what a render depends on *)

Section Purity.
Context {FP : PyFloat}.
Import AnimationEngine.

(** Two buffers of the same length that agree on the pixels in [A] agree,
    after the same loop of writes, on [A] and on every pixel written. *)
Lemma writes_agree (idx : Z -> Z) (col : Z -> rgb) (xs : list Z) :
  forall (A : Z -> Prop) (l1 l2 : LEDStripController.t),
    LEDStripController.num_pixels l1 = LEDStripController.num_pixels l2 ->
    (forall p, A p -> LEDStripController.get_pixel p l1 = LEDStripController.get_pixel p l2) ->
    forall p,
      A p \/ (exists x, In x xs /\ idx x = p) ->
      LEDStripController.get_pixel p (writes idx col xs l1)
      = LEDStripController.get_pixel p (writes idx col xs l2).
Proof.
  induction xs as [|x xs IH]; intros A l1 l2 Hn HA p Hp.
  - destruct Hp as [Hp|[y [[] _]]]. apply HA. exact Hp.
  - rewrite !writes_cons.
    apply (IH (fun q => A q \/ q = idx x)).
    + rewrite !num_pixels_set_pixel. exact Hn.
    + intros q [Hq| ->].
      * destruct (Z.eq_dec (idx x) q) as [<-|Hne].
        -- destruct (Z_lt_dec (idx x) 0) as [Hneg|Hpos];
             [|destruct (Z_lt_dec (idx x) (LEDStripController.num_pixels l1))
                 as [Hin|Hbig]].
           ++ rewrite !get_pixel_outside; auto;
                rewrite num_pixels_set_pixel; lia.
           ++ rewrite !get_set_pixel_eq; auto; lia.
           ++ rewrite !get_pixel_outside; auto;
                rewrite num_pixels_set_pixel; lia.
        -- rewrite !get_set_pixel_neq by exact Hne. apply HA. exact Hq.
      * destruct (Z_lt_dec (idx x) 0) as [Hneg|Hpos];
          [|destruct (Z_lt_dec (idx x) (LEDStripController.num_pixels l1))
              as [Hin|Hbig]].
        -- rewrite !get_pixel_outside; auto; rewrite num_pixels_set_pixel; lia.
        -- rewrite !get_set_pixel_eq; auto; lia.
        -- rewrite !get_pixel_outside; auto; rewrite num_pixels_set_pixel; lia.
    + destruct Hp as [Hp|[y [[->|Hy] Hidx]]].
      * left. left. exact Hp.
      * left. right. symmetry. exact Hidx.
      * right. exists y. split; assumption.
Qed.

Lemma _render_breathing_eq (st : CountdownState) (w : Strip) :
  let n := LEDStripController.num_pixels (led w) in
  _render_breathing st w =
  (Ok tt,
   {| led := writes (fun i => if from_pi (settings st) then n - 1 - i else i)
               (fun i => breathing_color st n i) (range 0 n) (led w);
      rng := rng w |}).
Proof.
  intros n. unfold _render_breathing, bind at 1, get. fold n.
  apply (for_each_set_pixel
           (fun i => if from_pi (settings st) then n - 1 - i else i)
           (fun i => breathing_color st n i)).
Qed.

(** The breathing animation writes every pixel: its buffer is a function
    of the state and of the length of the strip. *)
Lemma _render_breathing_deterministic (st : CountdownState) (w1 w2 : Strip) :
  LEDStripController.num_pixels (led w1) = LEDStripController.num_pixels (led w2) ->
  LEDStripController.np (led (snd (_render_breathing st w1)))
  = LEDStripController.np (led (snd (_render_breathing st w2))).
Proof.
  intros Hn. rewrite !_render_breathing_eq. cbn [snd led]. rewrite <- Hn.
  set (n := LEDStripController.num_pixels (led w1)).
  apply np_ext.
  - rewrite !num_pixels_writes. exact Hn.
  - intros p Hp. rewrite num_pixels_writes in Hp. fold n in Hp.
    apply (writes_agree _ _ _ (fun _ => False)); [exact Hn|intros q []|].
    right. destruct (from_pi (settings st)).
    + exists (n - 1 - p). split; [apply in_range|]; lia.
    + exists p. split; [apply in_range|]; lia.
Qed.

Lemma led_only_pixel_color_custom (st : CountdownState) (day_index pixel : Z) :
  use_custom_colors (settings st) = true ->
  led_only (pixel_color st day_index pixel).
Proof.
  intros Hc. unfold pixel_color. rewrite Hc.
  apply led_only_bind; [apply led_only_lift|intros c; apply led_only_ret].
Qed.

Lemma led_only_add_markers (st : CountdownState)
    (num_pixels block_size block_min block_max : Z) :
  led_only (add_markers st num_pixels block_size block_min block_max).
Proof.
  unfold add_markers. destruct (with_marker (settings st)); [|apply led_only_ret].
  apply led_only_for_each. intros block.
  destruct ((_ <? block_min) || (_ >=? block_max)); [|apply led_only_ret].
  apply led_only_bind; [apply led_only_lift|intros c; apply led_only_set_pixel].
Qed.

Lemma led_only_render_custom (st : CountdownState) :
  use_custom_colors (settings st) = true -> led_only (render st).
Proof.
  intros Hc. unfold render.
  apply led_only_bind; [|intros _; apply led_only_led_write].
  destruct (days_remaining st <=? countdown_length st).
  - unfold _render_countdown.
    apply (led_only_get_led (fun l =>
             bind (lift (if countdown_length st =? 0 then Raise ZeroDivisionError
                         else Ok (LEDStripController.num_pixels l / countdown_length st)))
                  (fun block_size =>
                     for_each (day_range (is_reverse (settings st))
                                 (countdown_length st) (days_remaining st))
                       (render_day st (LEDStripController.num_pixels l) block_size)))).
    intros l. apply led_only_bind; [apply led_only_lift|intros block_size].
    apply led_only_for_each. intros d. unfold render_day.
    destruct (block_bounds _ _ _ _ _) as [block_min block_max].
    apply led_only_bind; [|intros _; apply led_only_add_markers].
    unfold fill_block. apply led_only_for_each. intros p.
    apply led_only_bind;
      [apply led_only_pixel_color_custom; exact Hc|intros c; apply led_only_set_pixel].
  - unfold _render_breathing.
    apply (led_only_get_led (fun l =>
             for_each (range 0 (LEDStripController.num_pixels l))
               (fun i => set_pixel
                  (if from_pi (settings st)
                   then LEDStripController.num_pixels l - 1 - i else i)
                  (breathing_color st (LEDStripController.num_pixels l) i)))).
    intros l. apply led_only_for_each. intros i. apply led_only_set_pixel.
Qed.

End Purity.

(** ** AnimationEngine.render: the choice of the animation *)

Section Mode.
Context {FP : PyFloat}.
Import AnimationEngine.

(** C1 on the code. When the target date has passed ([days_remaining] is
    negative) [render] runs [_render_countdown], not [_render_breathing]:
    the test is [days_remaining <= countdown_length], and a countdown
    length is an absolute value. The docstring of [_render_breathing]
    ("when event arrives") and the claim say the opposite. *)
Theorem C1_past_target_renders_countdown (st : CountdownState) (w : Strip) :
  days_remaining st < 0 ->
  0 <= countdown_length st ->
  render st w = bind (_render_countdown st) (fun _ => led_write) w.
Proof.
  intros Hpast Hlen. unfold render.
  replace (days_remaining st <=? countdown_length st) with true
    by (symmetry; apply Z.leb_le; lia).
  reflexivity.
Qed.

End Mode.

Lemma C1_past_target_renders_countdown_witness :
  let st := Examples.state_on (2025, 12, 26) (Examples.christmas true false) in
  let w := Examples.strip_of Examples.grey Examples.zero_tape in
  (days_remaining st = -1 /\ countdown_length st = 10)
  /\ @AnimationEngine.render Examples.FP st w
     = bind (@AnimationEngine._render_countdown Examples.FP st)
            (fun _ => AnimationEngine.led_write) w
  /\ LEDStripController.get_pixel 10
       (AnimationEngine.led (snd (@AnimationEngine.render Examples.FP st w)))
     = (255, 255, 255)
  /\ LEDStripController.get_pixel 10
       (AnimationEngine.led
          (snd (bind (@AnimationEngine._render_breathing Examples.FP st)
                     (fun _ => AnimationEngine.led_write) w)))
     = (1, 1, 1).
Proof.
  split; [split; vm_compute; reflexivity|].
  split; [|split; vm_compute; reflexivity].
  apply (@C1_past_target_renders_countdown Examples.FP).
  - vm_compute. reflexivity.
  - vm_compute. discriminate.
Defined.

(** ** CountdownApplication._refresh_settings *)

Section Refresh.
Context {FP : PyFloat} {TM : TimeModule}.
Import CountdownApplication.

Lemma _calculate_countdown_length_nonneg (s : EventSettings) (len : Z) :
  _calculate_countdown_length s = Ok len -> 0 <= len.
Proof.
  unfold _calculate_countdown_length.
  destruct (DateUtils.string_to_date_tuple (start_from_day s)) as [d|e];
    [|discriminate].
  cbn [rbind].
  destruct (DateUtils.days_between d (important_date s)) as [n|e]; [|discriminate].
  cbn [rbind]. intros H. injection H as <-. apply Z.abs_nonneg.
Qed.

(** A countdown that starts on the day of the event has length 0. *)
Lemma _calculate_countdown_length_same_day (s : EventSettings) (y m d : Z) :
  start_from_day s = important_date s ->
  unpack3 (split "-" (important_date s)) = Ok (y, m, d) ->
  _calculate_countdown_length s = Ok 0.
Proof.
  intros Hsame Hparse. unfold _calculate_countdown_length.
  unfold DateUtils.string_to_date_tuple, DateUtils.days_between,
    DateUtils.string_to_datetime_tuple.
  rewrite Hsame, Hparse. cbn [rbind DateUtils.extend_date].
  rewrite Z.sub_diag. reflexivity.
Qed.

Lemma CountdownState_init_eq (today : DateUtils.date_tuple) (s : EventSettings)
    (ticks : Z) (g : Random) :
  CountdownState_init today s ticks g =
  match _calculate_days_remaining today s with
  | Raise e => (Raise e, g)
  | Ok dr =>
      match _calculate_countdown_length s with
      | Raise e => (Raise e, g)
      | Ok len =>
          (Ok {| current_date := today; settings := s;
                 days_remaining := dr; countdown_length := len;
                 base_color := fst (ColorUtils.random_base_color g);
                 animation_phase := of_int 0; is_flashing := true;
                 swap_phase := false; last_swap_ms := ticks |},
           snd (ColorUtils.random_base_color g))
      end
  end.
Proof.
  unfold CountdownState_init, bind, lift, ret.
  destruct (_calculate_days_remaining today s) as [dr|e]; [|reflexivity].
  destruct (_calculate_countdown_length s) as [len|e]; [|reflexivity].
  destruct (ColorUtils.random_base_color g) as [c g']. reflexivity.
Qed.

Lemma set_random_same (a : t) : set_random (random a) a = a.
Proof. destruct a; reflexivity. Qed.

(** C4, as the code has it. A refresh keeps the previous CountdownState
    when the date or the settings cannot be fetched, and when a date
    string of the fetched settings does not parse (the exception leaves
    the refresh). Every other fetched configuration replaces the
    CountdownState, whatever its countdown length, which is an absolute
    value: it is never negative and it may be 0. *)
Theorem C4_refresh_replaces_state (env : Env) (app : t) :
  let logged := set_calls (calls app ++ [call_refresh_settings]) app in
  (local_date env = None \/ fetched_settings env = None ->
   _refresh_settings env app = (Ok tt, logged))
  /\ (forall today s,
        local_date env = Some today ->
        fetched_settings env = Some s ->
        (forall e,
           _calculate_days_remaining today s = Raise e
           \/ ((exists dr, _calculate_days_remaining today s = Ok dr)
               /\ _calculate_countdown_length s = Raise e) ->
           _refresh_settings env app = (Raise e, logged))
        /\ (forall dr len,
              _calculate_days_remaining today s = Ok dr ->
              _calculate_countdown_length s = Ok len ->
              0 <= len
              /\ exists app',
                   _refresh_settings env app = (Ok tt, app')
                   /\ current_date (countdown_state app') = today
                   /\ settings (countdown_state app') = s
                   /\ days_remaining (countdown_state app') = dr
                   /\ countdown_length (countdown_state app') = len
                   /\ led_controller app' = led_controller app
                   /\ light_sensor app' = light_sensor app)).
Proof.
  intros logged.
  assert (Hstart : forall k : unit -> Exec t unit,
            bind (record_call call_refresh_settings) k app = k tt logged)
    by reflexivity.
  split.
  - intros Hnone. unfold _refresh_settings. rewrite Hstart.
    destruct (local_date env) as [today|]; [|reflexivity].
    destruct (fetched_settings env) as [s|]; [|reflexivity].
    destruct Hnone; discriminate.
  - intros today s Hdate Hset. unfold _refresh_settings.
    rewrite Hstart, Hdate, Hset, CountdownState_init_eq. split.
    + intros e [Hdr|[[dr Hdr] Hlen]].
      * rewrite Hdr. change (random logged) with (random app).
        rewrite <- (set_random_same logged) at 2. reflexivity.
      * rewrite Hdr, Hlen. change (random logged) with (random app).
        rewrite <- (set_random_same logged) at 2. reflexivity.
    + intros dr len Hdr Hlen. rewrite Hdr, Hlen.
      split; [exact (_calculate_countdown_length_nonneg s len Hlen)|].
      eexists. split; [reflexivity|]. cbn. repeat split.
Qed.

End Refresh.

Lemma C4_refresh_replaces_state_witness :
  let env := Examples.env_at 4 30 120 (Some Examples.same_day) in
  let app := Examples.app_showing Examples.grey LightSensor.default in
  0 <= 0
  /\ exists app',
       @CountdownApplication._refresh_settings Examples.FP Examples.TM env app
         = (Ok tt, app')
       /\ current_date (CountdownApplication.countdown_state app') = (2025, 12, 21)
       /\ settings (CountdownApplication.countdown_state app') = Examples.same_day
       /\ days_remaining (CountdownApplication.countdown_state app') = 4
       /\ countdown_length (CountdownApplication.countdown_state app') = 0
       /\ CountdownApplication.led_controller app'
          = CountdownApplication.led_controller app
       /\ CountdownApplication.light_sensor app'
          = CountdownApplication.light_sensor app.
Proof.
  apply (proj2 (proj2 (@C4_refresh_replaces_state Examples.FP Examples.TM
                         (Examples.env_at 4 30 120 (Some Examples.same_day))
                         (Examples.app_showing Examples.grey LightSensor.default))
                  (2025, 12, 21) Examples.same_day eq_refl eq_refl) 4 0).
  - vm_compute. reflexivity.
  - vm_compute. reflexivity.
Defined.

(** The claim C4 fails: a refresh answered with settings whose countdown
    length is 0 replaces the CountdownState, here in a whole iteration of
    the main loop (inside the window, after 25 light readings). *)
Lemma C4_counterexample :
  let env := Examples.env_at 4 30 120 (Some Examples.same_day) in
  let app := Examples.app_showing Examples.grey
               (LightSensor.feed (repeat 120 30) LightSensor.default) in
  let after := snd (@CountdownApplication._main_loop_iteration
                      Examples.FP Examples.TM env app) in
  @_calculate_countdown_length Examples.FP Examples.TM Examples.same_day = Ok 0
  /\ fst (@CountdownApplication._main_loop_iteration Examples.FP Examples.TM env app)
     = Ok tt
  /\ CountdownApplication.calls after
     = [CountdownApplication.call_clear; CountdownApplication.call_refresh_settings]
  /\ countdown_length (CountdownApplication.countdown_state app) = 10
  /\ start_from_day (settings (CountdownApplication.countdown_state after))
     = "2025-12-25"%string
  /\ important_date (settings (CountdownApplication.countdown_state after))
     = "2025-12-25"%string
  /\ countdown_length (CountdownApplication.countdown_state after) = 0.
Proof.
  cbv zeta. repeat split; vm_compute; reflexivity.
Qed.

(** ** LightSensor: what the counters count *)

Section DebouncerRuns.
Import LightSensor.

Lemma trailing_run_snoc (p : Z -> bool) (rs : list Z) (r : Z) :
  trailing_run p (rs ++ [r]) = if p r then S (trailing_run p rs) else O.
Proof. unfold trailing_run. rewrite rev_app_distr. reflexivity. Qed.

Lemma feed_snoc (rs : list Z) (r : Z) (s : t) :
  feed (rs ++ [r]) s = snd (update r (feed rs s)).
Proof. unfold feed. rewrite fold_left_app. reflexivity. Qed.

Lemma feed_keeps_parameters (rs : list Z) :
  forall s, threshold (feed rs s) = threshold s
            /\ consecutive_needed (feed rs s) = consecutive_needed s.
Proof.
  induction rs as [|r rs IH]; intros s; [split; reflexivity|].
  rewrite feed_cons. destruct (IH (snd (update r s))) as [Ht Hn].
  rewrite Ht, Hn. unfold update. destruct (r >? threshold s); split; reflexivity.
Qed.

(** The two counters are the lengths of the current runs of dark and of
    light readings. *)
Lemma counters_are_runs (thr needed : Z) (rs : list Z) :
  let s := feed rs (init thr needed) in
  consecutive_dark_count s = Z.of_nat (trailing_run (fun r => r >? thr) rs)
  /\ consecutive_light_count s = Z.of_nat (trailing_run (fun r => negb (r >? thr)) rs).
Proof.
  induction rs as [|r rs IH] using rev_ind.
  - split; reflexivity.
  - cbv zeta in *. rewrite feed_snoc, !trailing_run_snoc.
    destruct (feed_keeps_parameters rs (init thr needed)) as [Ht _].
    simpl in Ht. destruct IH as [IHd IHl].
    unfold update. rewrite Ht.
    destruct (r >? thr); cbn [snd consecutive_dark_count consecutive_light_count negb].
    + rewrite IHd. split; [lia|reflexivity].
    + rewrite IHl. split; [reflexivity|lia].
Qed.

(** X1. After any sequence of readings fed to a fresh sensor, the flags
    of the next [update] say whether the last [consecutive_needed]
    readings (that one included) were all dark, respectively all light:
    [consistent_dark] is true exactly when the current run of dark
    readings is at least [consecutive_needed] long. *)
Theorem X1_flags_are_run_lengths (thr needed : Z) (rs : list Z) (r : Z) :
  fst (update r (feed rs (init thr needed))) =
  (r >? thr,
   Z.of_nat (trailing_run (fun x => x >? thr) (rs ++ [r])) >=? needed,
   Z.of_nat (trailing_run (fun x => negb (x >? thr)) (rs ++ [r])) >=? needed).
Proof.
  destruct (counters_are_runs thr needed (rs ++ [r])) as [Hd Hl].
  cbv zeta in Hd, Hl. rewrite feed_snoc in Hd, Hl.
  destruct (feed_keeps_parameters rs (init thr needed)) as [Ht Hn].
  simpl in Ht, Hn.
  rewrite <- Hd, <- Hl. unfold update. rewrite Ht.
  destruct (r >? thr); cbn; rewrite ?Hn; reflexivity.
Qed.

Lemma reachable_counters (thr needed : Z) (s : t) :
  reachable thr needed s ->
  threshold s = thr /\ consecutive_needed s = needed
  /\ 0 <= consecutive_dark_count s /\ 0 <= consecutive_light_count s
  /\ (consecutive_dark_count s = 0 \/ consecutive_light_count s = 0).
Proof.
  intros H. induction H as [|reading s Hs (Ht & Hn & Hd & Hl & Hz)].
  - simpl. repeat split; lia.
  - unfold update. destruct (reading >? threshold s); simpl;
      repeat split; auto; try lia.
Qed.

(** X2. With a positive [consecutive_needed], no [update] of a reachable
    sensor returns [consistent_dark] and [consistent_light] both true. *)
Theorem X2_flags_exclusive (thr needed : Z) (s : t) (reading : Z) :
  0 < needed ->
  reachable thr needed s ->
  let '(_, consistent_dark, consistent_light) := fst (update reading s) in
  consistent_dark && consistent_light = false.
Proof.
  intros Hpos Hs.
  destruct (reachable_counters thr needed s Hs) as (Ht & Hn & Hd & Hl & Hz).
  assert (Hzero : (0 >=? needed) = false)
    by (rewrite Z.geb_leb; apply Z.leb_gt; lia).
  unfold update.
  destruct (reading >? threshold s); cbn; rewrite Hn, Hzero.
  - apply andb_false_r.
  - reflexivity.
Qed.

Lemma X2_flags_exclusive_witness :
  let '(_, consistent_dark, consistent_light) :=
    fst (update 40000 (feed (repeat 40000 30) default)) in
  consistent_dark && consistent_light = false.
Proof.
  apply (X2_flags_exclusive LDR_THRESHOLD CONSECUTIVE_READINGS_NEEDED
           (feed (repeat 40000 30) default) 40000).
  - reflexivity.
  - do 30 apply reach_update. apply reach_init.
Defined.

(** X3. The flags are level-triggered: once [consistent_dark] is
    returned it is returned again for every further dark reading, and
    (with a positive [consecutive_needed]) the first light reading takes
    it away. *)
Theorem X3_consistent_dark_persists (s : t) (r1 r2 : Z) (is_dark consistent_light : bool) :
  fst (update r1 s) = (is_dark, true, consistent_light) ->
  (r2 > threshold s ->
   exists cl, fst (update r2 (snd (update r1 s))) = (true, true, cl))
  /\ (r2 <= threshold s -> 0 < consecutive_needed s ->
      exists cl, fst (update r2 (snd (update r1 s))) = (false, false, cl)).
Proof.
  intros Hflags.
  assert (Hcount : consecutive_dark_count (snd (update r1 s)) >= consecutive_needed s
                   /\ threshold (snd (update r1 s)) = threshold s
                   /\ consecutive_needed (snd (update r1 s)) = consecutive_needed s).
  { unfold update in *. destruct (r1 >? threshold s); simpl in *;
      injection Hflags as _ Hcd _; repeat split;
      rewrite Z.geb_leb in Hcd; apply Z.leb_le in Hcd; lia. }
  destruct Hcount as (Hc & Ht & Hn).
  split.
  - intros Hdark. rewrite update_dark by (rewrite Ht; exact Hdark).
    eexists. cbn [fst]. rewrite Hn. f_equal. f_equal.
    rewrite Z.geb_leb. apply Z.leb_le. lia.
  - intros Hlight Hpos. rewrite update_light by (rewrite Ht; exact Hlight).
    eexists. cbn [fst]. rewrite Hn. f_equal. f_equal.
    rewrite Z.geb_leb. apply Z.leb_gt. lia.
Qed.

Lemma X3_consistent_dark_persists_witness :
  let s := feed (repeat 40000 24) default in
  (40001 > threshold s ->
   exists cl, fst (update 40001 (snd (update 40000 s))) = (true, true, cl))
  /\ (40001 <= threshold s -> 0 < consecutive_needed s ->
      exists cl, fst (update 40001 (snd (update 40000 s))) = (false, false, cl)).
Proof.
  apply (X3_consistent_dark_persists (feed (repeat 40000 24) default) 40000 40001
           true false).
  reflexivity.
Defined.

End DebouncerRuns.

(** ** DateUtils.is_within_time_range: windows and malformed times *)

Section TimeWindows.
Import DateUtils.

(** X4. The window the settings default to when the keys [StartTime] and
    [EndTime] are missing, "00:00" to "23:59", contains every time of
    day. *)
Theorem X4_default_window_is_always_open (now : time_tuple) :
  0 <= t_hour now <= 23 ->
  0 <= t_minute now <= 59 ->
  is_within_time_range "00:00" "23:59" now = Ok true.
Proof.
  intros Hh Hm.
  rewrite (is_within_time_range_eq "00:00" "23:59" now eq_refl eq_refl).
  change (minutes_of_hhmm "00:00") with 0.
  change (minutes_of_hhmm "23:59") with 1439.
  cbv zeta. unfold minute_of_day. cbn [Z.leb Z.compare].
  f_equal. apply andb_true_intro. split; apply Z.leb_le; lia.
Qed.

Lemma X4_default_window_is_always_open_witness :
  is_within_time_range "00:00" "23:59" (at_time 23 59) = Ok true.
Proof.
  apply (X4_default_window_is_always_open (at_time 23 59)); simpl; lia.
Defined.

(** X5. A window and the window with start and end exchanged (the one
    that wraps past midnight) cover the whole day between them and share
    exactly their two end points. *)
Theorem X5_exchanged_window_is_the_complement (a b : string) (now : time_tuple) :
  well_formed_hhmm a = true ->
  well_formed_hhmm b = true ->
  minutes_of_hhmm a < minutes_of_hhmm b ->
  exists inside wrapped,
    is_within_time_range a b now = Ok inside
    /\ is_within_time_range b a now = Ok wrapped
    /\ inside || wrapped = true
    /\ (inside && wrapped = true <->
        minute_of_day now = minutes_of_hhmm a \/ minute_of_day now = minutes_of_hhmm b).
Proof.
  intros Ha Hb Hlt.
  rewrite (is_within_time_range_eq a b now Ha Hb).
  rewrite (is_within_time_range_eq b a now Hb Ha).
  cbv zeta.
  set (ma := minutes_of_hhmm a) in *. set (mb := minutes_of_hhmm b) in *.
  set (c := minute_of_day now).
  replace (ma <=? mb) with true by (symmetry; apply Z.leb_le; lia).
  replace (mb <=? ma) with false by (symmetry; apply Z.leb_gt; lia).
  rewrite Z.geb_leb.
  eexists. eexists. split; [reflexivity|]. split; [reflexivity|].
  destruct (Z.leb_spec ma c), (Z.leb_spec c mb), (Z.leb_spec mb c),
    (Z.leb_spec c ma); cbn; split; try reflexivity; try lia;
    split; try discriminate; try lia; intros; reflexivity.
Qed.

Lemma X5_exchanged_window_is_the_complement_witness :
  exists inside wrapped,
    is_within_time_range "06:00" "22:00" (at_time 22 0) = Ok inside
    /\ is_within_time_range "22:00" "06:00" (at_time 22 0) = Ok wrapped
    /\ inside || wrapped = true
    /\ (inside && wrapped = true <->
        minute_of_day (at_time 22 0) = minutes_of_hhmm "06:00"
        \/ minute_of_day (at_time 22 0) = minutes_of_hhmm "22:00").
Proof.
  apply (X5_exchanged_window_is_the_complement "06:00" "22:00" (at_time 22 0)).
  - reflexivity.
  - reflexivity.
  - reflexivity.
Defined.

Lemma split_without_separator (sep : ascii) (s : string) :
  mem_char sep s = false -> split sep s = [s].
Proof.
  induction s as [|c rest IH]; intros H; [reflexivity|].
  simpl in H. apply orb_false_elim in H. destruct H as [Hc Hrest].
  simpl. rewrite Ascii.eqb_sym, Hc, (IH Hrest). reflexivity.
Qed.

Lemma unsigned_value_raises (s : string) (e : exn) :
  unsigned_value s = Raise e -> e = ValueError.
Proof.
  unfold unsigned_value. destruct s; [intros H; injection H as <-; reflexivity|].
  destruct (digits_value 0 _); [discriminate|].
  intros H. injection H as <-. reflexivity.
Qed.

Lemma py_int_raises (s : string) (e : exn) :
  py_int s = Raise e -> e = ValueError.
Proof.
  unfold py_int. destruct (strip whitespace s) as [|c rest].
  - apply unsigned_value_raises.
  - destruct c as [[] [] [] [] [] [] [] []];
      try apply unsigned_value_raises.
    destruct (unsigned_value rest) eqn:E; cbn [rbind]; [discriminate|].
    intros H. injection H as <-. exact (unsigned_value_raises rest e0 E).
Qed.

Lemma map_int_raises (parts : list string) (e : exn) :
  map_int parts = Raise e -> e = ValueError.
Proof.
  induction parts as [|p rest IH]; simpl; [discriminate|].
  destruct (py_int p) eqn:Ep; cbn [rbind].
  - destruct (map_int rest) eqn:Er; cbn [rbind]; [discriminate|].
    intros H. injection H as <-. apply IH. reflexivity.
  - intros H. injection H as <-. exact (py_int_raises p e0 Ep).
Qed.

Lemma unpack2_single (s : string) : unpack2 [s] = Raise ValueError.
Proof.
  unfold unpack2. simpl. destruct (py_int s) eqn:E; cbn [rbind].
  - reflexivity.
  - rewrite (py_int_raises s e E). reflexivity.
Qed.

Lemma unpack2_raises (parts : list string) (e : exn) :
  unpack2 parts = Raise e -> e = ValueError.
Proof.
  unfold unpack2. destruct (map_int parts) as [vs|e'] eqn:E; cbn [rbind].
  - destruct vs as [|a [|b [|c vs]]]; intros H; try discriminate;
      injection H as <-; reflexivity.
  - intros H. injection H as <-. exact (map_int_raises parts e' E).
Qed.

Lemma is_within_time_range_raises (start_s end_s : string) (now : time_tuple)
    (e : exn) :
  is_within_time_range start_s end_s now = Raise e -> e = ValueError.
Proof.
  unfold is_within_time_range.
  destruct (unpack2 (split ":" start_s)) as [[sh sm]|e1] eqn:Es; cbn [rbind].
  - destruct (unpack2 (split ":" end_s)) as [[eh em]|e2] eqn:Ee; cbn [rbind].
    + destruct (_ <=? _); discriminate.
    + intros H. injection H as <-. exact (unpack2_raises _ _ Ee).
  - intros H. injection H as <-. exact (unpack2_raises _ _ Es).
Qed.

(** X6. A start or end time without a colon makes the window test raise
    [ValueError], and [ValueError] is the only exception the test
    raises. *)
Theorem X6_malformed_time_raises_ValueError (start_s end_s : string) (now : time_tuple) :
  (mem_char ":" start_s = false \/ mem_char ":" end_s = false ->
   is_within_time_range start_s end_s now = Raise ValueError)
  /\ (forall e, is_within_time_range start_s end_s now = Raise e -> e = ValueError).
Proof.
  assert (Hany : forall e, is_within_time_range start_s end_s now = Raise e ->
                           e = ValueError)
    by (intros e; apply is_within_time_range_raises).
  split; [|exact Hany].
  intros [Hs|He].
  - unfold is_within_time_range.
    rewrite (split_without_separator ":" start_s Hs), unpack2_single. reflexivity.
  - destruct (is_within_time_range start_s end_s now) as [b|e] eqn:E.
    + exfalso. unfold is_within_time_range in E.
      rewrite (split_without_separator ":" end_s He), unpack2_single in E.
      destruct (unpack2 (split ":" start_s)) as [[sh sm]|e1];
        cbn [rbind] in E; discriminate.
    + rewrite (Hany e eq_refl). reflexivity.
Qed.

Lemma X6_malformed_time_raises_ValueError_witness :
  is_within_time_range "2200" "06:00" (at_time 23 30) = Raise ValueError
  /\ is_within_time_range "22:00" "0600" (at_time 23 30) = Raise ValueError.
Proof.
  split.
  - apply (proj1 (X6_malformed_time_raises_ValueError "2200" "06:00" (at_time 23 30))).
    left. reflexivity.
  - apply (proj1 (X6_malformed_time_raises_ValueError "22:00" "0600" (at_time 23 30))).
    right. reflexivity.
Defined.

End TimeWindows.

(** ** ColorUtils: clamping *)

Section Clamping.
Context {FP : PyFloat}.
Import ColorUtils.

Lemma clamp_is_byte (value : pynum) : 0 <= clamp value <= 255.
Proof. unfold clamp. lia. Qed.

(** X7. Where [int] returns (on every [int] and every finite [float]),
    [clamp] returns a byte, and it returns the integer part of its
    argument exactly when that is a byte already. For a colour of three
    bytes and a factor whose three products with the channels are finite,
    every channel of the colour [lighten] returns is a byte again,
    however large the factor. *)
Theorem X7_clamp_and_lighten_give_bytes (value : pynum) (color : rgb)
    (factor : pyfloat) :
  int_returns value = true ->
  byte_color color = true ->
  lighten_returns color factor = true ->
  is_byte (clamp value) = true
  /\ (clamp value = int_of value <-> is_byte (int_of value) = true)
  /\ byte_color (lighten color factor) = true.
Proof.
  intros _ _ _.
  assert (Hbyte : forall v, is_byte (clamp v) = true).
  { intros v. unfold is_byte. apply andb_true_iff.
    rewrite Z.leb_le, Z.leb_le. apply clamp_is_byte. }
  split; [apply Hbyte|]. split.
  - unfold is_byte. rewrite andb_true_iff, !Z.leb_le. unfold clamp. lia.
  - destruct color as [[r g] b]. unfold lighten, byte_color.
    rewrite !Hbyte. reflexivity.
Qed.

End Clamping.

Lemma X7_clamp_and_lighten_give_bytes_witness :
  is_byte (@ColorUtils.clamp Examples.FP (PFloat DomainExamples.above_a_byte)) = true
  /\ (@ColorUtils.clamp Examples.FP (PFloat DomainExamples.above_a_byte)
      = @int_of Examples.FP (PFloat DomainExamples.above_a_byte)
      <-> is_byte (@int_of Examples.FP (PFloat DomainExamples.above_a_byte)) = true)
  /\ byte_color (@ColorUtils.lighten Examples.FP (255, 7, 0) DomainExamples.factor_135)
     = true.
Proof.
  apply (@X7_clamp_and_lighten_give_bytes Examples.FP
           (PFloat DomainExamples.above_a_byte) (255, 7, 0) DomainExamples.factor_135).
  - vm_compute. reflexivity.
  - reflexivity.
  - vm_compute. reflexivity.
Defined.

(** ** LEDStripController: pixel access and the progress bar *)

Section StripAccess.
Import LEDStripController.

Lemma forallb_list_set {A} (ok : A -> bool) (l : list A) (i : nat) (x : A) :
  ok x = true -> forallb ok l = true -> forallb ok (list_set l i x) = true.
Proof.
  intros Hx. revert i. induction l as [|y l IH]; intros [|i] H; simpl in *; auto.
  - apply andb_true_iff in H. rewrite Hx. apply H.
  - apply andb_true_iff in H. destruct H as [Hy Hl]. rewrite Hy. apply IH. exact Hl.
Qed.

Lemma byte_color_get_pixel (j : Z) (l : t) :
  byte_strip l = true -> byte_color (get_pixel j l) = true.
Proof.
  intros Hl. unfold get_pixel.
  destruct ((0 <=? j) && (j <? num_pixels l)) eqn:E; [|reflexivity].
  apply in_strip in E. unfold byte_strip in Hl.
  rewrite forallb_forall in Hl. apply Hl. apply nth_In.
  unfold num_pixels in E. lia.
Qed.

(** X8. Writing a pixel and reading one, for colours of three bytes (the
    buffer holds bytes): [set_pixel] keeps the length of the strip and
    leaves a buffer of byte colours, an index outside the strip is
    ignored, and afterwards [get_pixel] returns the written colour at
    that index and the old colour everywhere else. *)
Theorem X8_set_pixel_get_pixel (i j : Z) (c : rgb) (l : t) :
  byte_color c = true ->
  byte_strip l = true ->
  num_pixels (set_pixel i c l) = num_pixels l
  /\ byte_strip (set_pixel i c l) = true
  /\ byte_color (get_pixel j (set_pixel i c l)) = true
  /\ get_pixel j (set_pixel i c l)
     = if (i =? j) && ((0 <=? i) && (i <? num_pixels l)) then c else get_pixel j l.
Proof.
  intros Hc Hl.
  assert (Hset : byte_strip (set_pixel i c l) = true).
  { unfold set_pixel. destruct ((0 <=? i) && (i <? num_pixels l)); [|exact Hl].
    unfold byte_strip. cbn [np]. apply forallb_list_set; assumption. }
  split; [apply num_pixels_set_pixel|]. split; [exact Hset|].
  split; [apply byte_color_get_pixel; exact Hset|].
  destruct (Z.eqb_spec i j) as [<-|Hne]; cbn [andb].
  - destruct ((0 <=? i) && (i <? num_pixels l)) eqn:E.
    + apply get_set_pixel_eq. apply in_strip. exact E.
    + unfold set_pixel. rewrite E. reflexivity.
  - apply get_set_pixel_neq. exact Hne.
Qed.

Lemma for_each_flat_map {S A B} (f : A -> list B) (body : B -> Exec S unit)
    (xs : list A) :
  forall s, for_each xs (fun x => for_each (f x) body) s
            = for_each (flat_map f xs) body s.
Proof.
  induction xs as [|x xs IH]; intros s; [reflexivity|].
  simpl. rewrite for_each_app. unfold bind.
  destruct (for_each (f x) body s) as [[[]|e] s']; [apply IH|reflexivity].
Qed.

Lemma for_each_modify_set_pixel (c : rgb) (xs : list Z) :
  forall l, for_each xs (fun i => modify (set_pixel i c)) l
            = (Ok tt, writes (fun i => i) (fun _ => c) xs l).
Proof.
  induction xs as [|x xs IH]; intros l; [reflexivity|].
  simpl. unfold bind, modify at 1. rewrite IH. reflexivity.
Qed.

Lemma nth_map_const {A B} (c : B) (xs : list A) (k : nat) :
  nth k (map (fun _ => c) xs) c = c.
Proof.
  revert k. induction xs as [|x xs IH]; intros [|k]; simpl; auto.
Qed.

Lemma get_pixel_clear (p : Z) (l : t) : get_pixel p (clear l) = COLOR_OFF.
Proof.
  unfold get_pixel. destruct (_ && _); [|reflexivity].
  change (np (clear l)) with (map (fun _ : rgb => COLOR_OFF) (np l)).
  apply nth_map_const.
Qed.

Lemma num_pixels_clear (l : t) : num_pixels (clear l) = num_pixels l.
Proof. unfold num_pixels, clear, fill, write. simpl. rewrite length_map. reflexivity. Qed.

(** The pixels the progress bar lights: segment [segment] without its
    last pixel. *)
Lemma in_progress_pixels (step size n p : Z) :
  In p (flat_map (fun segment =>
                    range (segment * size) (Z.min (segment * size + size - 1) n))
                 (range 0 step))
  <-> exists segment,
        0 <= segment < step
        /\ segment * size <= p < segment * size + size - 1 /\ p < n.
Proof.
  rewrite in_flat_map. split.
  - intros [segment [Hs Hp]]. apply in_range in Hs. apply in_range in Hp.
    exists segment. lia.
  - intros [segment [Hs Hp]]. exists segment.
    split; apply in_range; lia.
Qed.

(** X9. The progress bar. When [1 <= step <= total_steps] the call
    returns (the guard keeps the division from raising), keeps the length
    of the strip and writes the frame; the strip is cut into segments of
    [num_pixels // total_steps] pixels, the first [step] segments are
    green except for the last pixel of each, which stays dark as a gap,
    and every other pixel is dark. Outside the guard nothing changes. *)
Theorem X9_show_progress (step total_steps : Z) (l : t) :
  let n := num_pixels l in
  let size := n / total_steps in
  (1 <= step <= total_steps ->
   exists l',
     StripDisplay.show_progress step total_steps l = (Ok tt, l')
     /\ num_pixels l' = n
     /\ shown l' = np l'
     /\ (forall p segment,
           0 <= segment < step ->
           segment * size <= p < segment * size + size - 1 ->
           0 <= p < n /\ get_pixel p l' = StripDisplay.COLOR_PROGRESS)
     /\ (forall p,
           (forall segment, 0 <= segment < step ->
              ~ (segment * size <= p < segment * size + size - 1)) ->
           get_pixel p l' = COLOR_OFF))
  /\ (~ (1 <= step <= total_steps) ->
      StripDisplay.show_progress step total_steps l = (Ok tt, l)).
Proof.
  intros n size. split.
  - intros Hguard. unfold StripDisplay.show_progress.
    replace ((1 <=? step) && (step <=? total_steps)) with true
      by (symmetry; apply andb_true_intro; split; apply Z.leb_le; lia).
    cbn [negb]. unfold bind at 1 2 3 4. unfold get, lift, modify at 1.
    replace (total_steps =? 0) with false by (symmetry; apply Z.eqb_neq; lia).
    fold n size.
    rewrite (for_each_flat_map
               (fun segment => range (segment * size)
                                 (Z.min (segment * size + size - 1) n))
               (fun i => modify (set_pixel i StripDisplay.COLOR_PROGRESS))).
    rewrite for_each_modify_set_pixel. unfold modify.
    eexists. split; [reflexivity|].
    assert (Hsize : 0 <= size /\ total_steps * size <= n).
    { split.
      - apply Z.div_pos; [unfold n, num_pixels; lia|lia].
      - apply Z.mul_div_le. lia. }
    split; [|split; [reflexivity|split]].
    + unfold write, num_pixels. simpl.
      change (Z.of_nat (List.length (np ?x))) with (num_pixels x).
      rewrite num_pixels_writes. apply num_pixels_clear.
    + intros p segment Hseg Hp.
      assert (Hin : 0 <= p < n) by nia.
      split; [exact Hin|].
      change (get_pixel p (write ?x)) with (get_pixel p x).
      apply get_writes_same.
      * rewrite num_pixels_clear. exact Hin.
      * exists p. split; [|reflexivity].
        apply in_progress_pixels. exists segment. lia.
      * reflexivity.
    + intros p Hp.
      change (get_pixel p (write ?x)) with (get_pixel p x).
      rewrite get_writes_other; [apply get_pixel_clear|].
      intros x Hx ->. apply in_progress_pixels in Hx.
      destruct Hx as [segment [Hs [Hr _]]]. exact (Hp segment Hs Hr).
  - intros Hguard. unfold StripDisplay.show_progress.
    replace ((1 <=? step) && (step <=? total_steps)) with false; [reflexivity|].
    symmetry. apply andb_false_iff.
    destruct (Z.leb_spec 1 step); [right; apply Z.leb_gt; lia|left; reflexivity].
Qed.

Lemma X9_show_progress_witness :
  let l := {| np := Examples.grey; shown := Examples.grey |} in
  exists l',
    StripDisplay.show_progress 3 10 l = (Ok tt, l')
    /\ num_pixels l' = 20
    /\ shown l' = np l'
    /\ (forall p segment,
          0 <= segment < 3 ->
          segment * 2 <= p < segment * 2 + 2 - 1 ->
          0 <= p < 20 /\ get_pixel p l' = StripDisplay.COLOR_PROGRESS)
    /\ (forall p,
          (forall segment, 0 <= segment < 3 ->
             ~ (segment * 2 <= p < segment * 2 + 2 - 1)) ->
          get_pixel p l' = COLOR_OFF).
Proof.
  apply (proj1 (X9_show_progress 3 10 {| np := Examples.grey; shown := Examples.grey |})).
  lia.
Defined.

End StripAccess.

Lemma X8_set_pixel_get_pixel_witness :
  let l := {| LEDStripController.np := Examples.grey;
              LEDStripController.shown := Examples.grey |} in
  let l' := LEDStripController.set_pixel 3 (255, 0, 128) l in
  LEDStripController.num_pixels l' = LEDStripController.num_pixels l
  /\ byte_strip l' = true
  /\ byte_color (LEDStripController.get_pixel 3 l') = true
  /\ LEDStripController.get_pixel 3 l'
     = if (3 =? 3) && ((0 <=? 3) && (3 <? LEDStripController.num_pixels l))
       then (255, 0, 128) else LEDStripController.get_pixel 3 l.
Proof.
  apply (X8_set_pixel_get_pixel 3 3 (255, 0, 128)
           {| LEDStripController.np := Examples.grey;
              LEDStripController.shown := Examples.grey |}); reflexivity.
Defined.


(** ** AnimationEngine: blocks, days and roles in general *)

Section BlocksInGeneral.
Import AnimationEngine.

(** X10. For every strip length and every countdown length of at least
    one day, in both orientations, the pixel ranges of the day indices
    1..countdown_length partition the strip: every pixel of the strip is
    in the range of exactly one of these days (the block of day 1 takes
    the remainder of the division). *)
Theorem X10_day_blocks_partition_the_strip (from_pi : bool) (n countdown_length p : Z) :
  1 <= countdown_length ->
  0 <= p < n ->
  let block_size := n / countdown_length in
  let pixels day_index :=
    range (fst (block_bounds from_pi n countdown_length block_size day_index))
          (snd (block_bounds from_pi n countdown_length block_size day_index)) in
  exists day_index,
    1 <= day_index <= countdown_length
    /\ In p (pixels day_index)
    /\ forall other, 1 <= other <= countdown_length -> In p (pixels other) ->
                     other = day_index.
Proof.
  intros Hcl Hp block_size pixels.
  assert (Hbs : 0 <= block_size) by (apply Z.div_pos; lia).
  assert (Hfit : countdown_length * block_size <= n) by (apply Z.mul_div_le; lia).
  assert (Hin : forall d, In p (pixels d) <->
                 fst (block_bounds from_pi n countdown_length block_size d) <= p
                 < snd (block_bounds from_pi n countdown_length block_size d))
    by (intros d; apply in_range).
  assert (Hbounds : forall d,
            block_bounds from_pi n countdown_length block_size d =
            if from_pi then
              ((countdown_length - d) * block_size,
               if d >? 1 then (countdown_length - d) * block_size + block_size else n)
            else
              (if d >? 1 then n - (countdown_length - d) * block_size - block_size else 0,
               n - (countdown_length - d) * block_size))
    by (intros d; unfold block_bounds; destruct from_pi; reflexivity).
  destruct (Z.eq_dec block_size 0) as [Hzero|Hpos].
  - (* blocks of no pixel: day 1 is the whole strip *)
    exists 1. split; [lia|]. split.
    + apply Hin. rewrite Hbounds, Hzero. destruct from_pi; cbn; lia.
    + intros d Hd Hpd. apply Hin in Hpd. rewrite Hbounds, Hzero in Hpd.
      destruct (Z.gtb_spec d 1), from_pi; cbn in Hpd; lia.
  - set (q := if from_pi then p / block_size else (n - 1 - p) / block_size).
    assert (Hq : 0 <= q /\
                 (if from_pi then q * block_size <= p < (q + 1) * block_size
                  else q * block_size <= n - 1 - p < (q + 1) * block_size)).
    { unfold q. destruct from_pi.
      - assert (H1 := Z.div_mod p block_size Hpos).
        assert (H2 := Z.mod_pos_bound p block_size ltac:(lia)).
        split; [apply Z.div_pos; lia|nia].
      - assert (H1 := Z.div_mod (n - 1 - p) block_size Hpos).
        assert (H2 := Z.mod_pos_bound (n - 1 - p) block_size ltac:(lia)).
        split; [apply Z.div_pos; lia|nia]. }
    destruct Hq as [Hq0 Hq].
    destruct (Z_lt_dec q (countdown_length - 1)) as [Hinner|Hedge].
    + exists (countdown_length - q). split; [lia|]. split.
      * apply Hin. rewrite Hbounds.
        replace (countdown_length - q >? 1) with true
          by (symmetry; apply Z.gtb_lt; lia).
        destruct from_pi; cbn [fst snd]; nia.
      * intros d Hd Hpd. apply Hin in Hpd. rewrite Hbounds in Hpd.
        destruct (Z.gtb_spec d 1), from_pi; cbn [fst snd] in Hpd; nia.
    + exists 1. split; [lia|]. split.
      * apply Hin. rewrite Hbounds. destruct from_pi; cbn; nia.
      * intros d Hd Hpd. apply Hin in Hpd. rewrite Hbounds in Hpd.
        destruct (Z.gtb_spec d 1), from_pi; cbn [fst snd] in Hpd; nia.
Qed.

Lemma X10_day_blocks_partition_the_strip_witness :
  let pixels day_index :=
    range (fst (block_bounds true 103 10 (103 / 10) day_index))
          (snd (block_bounds true 103 10 (103 / 10) day_index)) in
  exists day_index,
    1 <= day_index <= 10
    /\ In 101 (pixels day_index)
    /\ forall other, 1 <= other <= 10 -> In 101 (pixels other) -> other = day_index.
Proof.
  apply (X10_day_blocks_partition_the_strip true 103 10 101); lia.
Defined.

Lemma day_range_reverse_arrived (countdown_length days_remaining : Z) :
  days_remaining <= 0 -> day_range true countdown_length days_remaining = [].
Proof.
  intros H. unfold day_range, range_down. cbn [negb].
  replace (Z.to_nat (days_remaining - 1 - -1)) with O by lia. reflexivity.
Qed.

(** X11. The days a render iterates: in the forward direction the days
    from [countdown_length] down to [days_remaining], both included; in
    the reverse direction the days below [days_remaining] down to 0. A
    day index between 0 and [countdown_length] is iterated in exactly one
    of the two directions, and an arrived date ([days_remaining <= 0])
    leaves the reverse direction with no day at all. *)
Theorem X11_day_range_directions (countdown_length days_remaining d : Z) :
  (In d (day_range false countdown_length days_remaining)
   <-> days_remaining <= d <= countdown_length)
  /\ (In d (day_range true countdown_length days_remaining)
      <-> 0 <= d < days_remaining)
  /\ (0 <= d <= countdown_length ->
      (In d (day_range false countdown_length days_remaining)
       <-> ~ In d (day_range true countdown_length days_remaining)))
  /\ (days_remaining <= 0 -> day_range true countdown_length days_remaining = []).
Proof.
  unfold day_range. cbn [negb]. rewrite !in_range_down.
  repeat split; try lia.
  intros H. unfold range_down.
  replace (Z.to_nat (days_remaining - 1 - -1)) with O by lia. reflexivity.
Qed.

Lemma X11_day_range_directions_witness :
  (In 7 (day_range false 10 5) <-> 5 <= 7 <= 10)
  /\ (In 7 (day_range true 10 5) <-> 0 <= 7 < 5)
  /\ (In 7 (day_range false 10 5) <-> ~ In 7 (day_range true 10 5))
  /\ day_range true 10 0 = [].
Proof.
  split; [apply (X11_day_range_directions 10 5 7)|].
  split; [apply (X11_day_range_directions 10 5 7)|].
  split.
  - apply (proj1 (proj2 (proj2 (X11_day_range_directions 10 5 7)))). lia.
  - apply (proj2 (proj2 (proj2 (X11_day_range_directions 10 0 7)))). lia.
Defined.

(** X12. The first pixel of marker block [countdown_length - d] is the
    first pixel of the block of day [d] for every day above 1, in both
    orientations. The block of day 1 is different when the strip runs
    from its end: its marker is not at pixel 0 but after the remainder of
    the division, at [num_pixels mod countdown_length]. *)
Theorem X12_marker_is_first_pixel_of_block (from_pi : bool) (n countdown_length d : Z) :
  let block_size := n / countdown_length in
  (d > 1 ->
   block_start from_pi n block_size (countdown_length - d)
   = fst (block_bounds from_pi n countdown_length block_size d))
  /\ (countdown_length <> 0 ->
      block_start false n block_size (countdown_length - 1) = n mod countdown_length
      /\ fst (block_bounds false n countdown_length block_size 1) = 0).
Proof.
  intros block_size. split.
  - intros Hd. unfold block_start, block_bounds.
    replace (d >? 1) with true by (symmetry; apply Z.gtb_lt; lia).
    destruct from_pi; cbn; lia.
  - intros Hcl. split; [|reflexivity].
    unfold block_start, block_size. cbn [negb].
    rewrite Z.mod_eq by exact Hcl. lia.
Qed.

Lemma X12_marker_is_first_pixel_of_block_witness :
  (block_start false 103 (103 / 10) (10 - 4)
   = fst (block_bounds false 103 10 (103 / 10) 4))
  /\ (block_start false 103 (103 / 10) (10 - 1) = 103 mod 10
      /\ fst (block_bounds false 103 10 (103 / 10) 1) = 0).
Proof.
  split.
  - apply (proj1 (X12_marker_is_first_pixel_of_block false 103 10 4)). lia.
  - apply (proj2 (X12_marker_is_first_pixel_of_block false 103 10 4)). lia.
Defined.

End BlocksInGeneral.

Section Roles.
Context {FP : PyFloat}.
Import AnimationEngine.

(** X13. Primary and secondary blocks: the blocks of two consecutive
    days never have the same role, toggling [swap_phase] exchanges the
    roles of all blocks, and at every animation phase exactly one of the
    two roles is the one that is lightened. *)
Theorem X13_block_roles_alternate (st : CountdownState) (d now : Z) :
  is_primary_block st (d + 1) = negb (is_primary_block st d)
  /\ is_primary_block (set_swap (negb (swap_phase st)) now st) d
     = negb (is_primary_block st d)
  /\ flash_applies (flashing_group (animation_phase st)) true
     = negb (flash_applies (flashing_group (animation_phase st)) false).
Proof.
  split; [|split].
  - unfold is_primary_block.
    assert (H := Z.mod_pos_bound d 2 ltac:(lia)).
    assert (H' := Z.mod_pos_bound (d + 1) 2 ltac:(lia)).
    assert (Hd := Z.div_mod d 2 ltac:(lia)).
    assert (Hd' := Z.div_mod (d + 1) 2 ltac:(lia)).
    destruct (Z.eqb_spec ((d + 1) mod 2) 0), (Z.eqb_spec (d mod 2) 0),
      (swap_phase st); cbn; try reflexivity; lia.
  - unfold is_primary_block. cbn [swap_phase set_swap].
    destruct (swap_phase st), (d mod 2 =? 0); reflexivity.
  - unfold flashing_group. destruct (fge _ _); reflexivity.
Qed.

End Roles.

(** ** AnimationEngine.render: edge cases and what a render leaves alone *)

Section RenderEdges.
Context {FP : PyFloat}.
Import AnimationEngine.

Lemma keeps_ret {S A} (P : S -> Prop) (a : A) : keeps P (ret a).
Proof. intros s H. exact H. Qed.

Lemma keeps_lift {S A} (P : S -> Prop) (r : result A) : keeps P (lift r).
Proof. intros s H. exact H. Qed.

Lemma keeps_get {S} (P : S -> Prop) : keeps P get.
Proof. intros s H. exact H. Qed.

Lemma keeps_bind {S A B} (P : S -> Prop) (m : Exec S A) (k : A -> Exec S B) :
  keeps P m -> (forall a, keeps P (k a)) -> keeps P (bind m k).
Proof.
  intros Hm Hk s H. unfold bind. specialize (Hm s H).
  destruct (m s) as [[a|e] s']; simpl in *; [apply Hk; exact Hm|exact Hm].
Qed.

Lemma keeps_for_each {S A} (P : S -> Prop) (xs : list A) (body : A -> Exec S unit) :
  (forall x, keeps P (body x)) -> keeps P (for_each xs body).
Proof.
  intros Hbody. induction xs as [|x xs IH]; simpl.
  - apply keeps_ret.
  - apply keeps_bind; [apply Hbody|intros _; exact IH].
Qed.


Lemma keeps_set_pixel (P : Strip -> Prop) (i : Z) (c : rgb) :
  (forall w, P w -> P {| led := LEDStripController.set_pixel i c (led w); rng := rng w |}) ->
  keeps P (set_pixel i c).
Proof. intros H w Hw. apply H. exact Hw. Qed.

(** X14. In the reverse direction, once the date has arrived
    ([days_remaining <= 0]) a render of a countdown of at least one day
    iterates no day: no pixel is changed, not even a marker pixel, no
    random number is drawn, and the unchanged buffer is written to the
    strip. *)
Theorem X14_reverse_arrived_draws_nothing (st : CountdownState) (w : Strip) :
  is_reverse (settings st) = true ->
  days_remaining st <= 0 ->
  0 < countdown_length st ->
  render st w = (Ok tt, {| led := LEDStripController.write (led w); rng := rng w |}).
Proof.
  intros Hrev Hdr Hcl. unfold render.
  replace (days_remaining st <=? countdown_length st) with true
    by (symmetry; apply Z.leb_le; lia).
  unfold _render_countdown. unfold bind at 1 2 3. unfold get, lift.
  replace (countdown_length st =? 0) with false by (symmetry; apply Z.eqb_neq; lia).
  rewrite Hrev.
  rewrite (day_range_reverse_arrived (countdown_length st) (days_remaining st) Hdr).
  reflexivity.
Qed.

(** The frame of the breathing animation, once it is written. *)
Lemma breathing_render (st : CountdownState) (w : Strip) :
  days_remaining st > countdown_length st ->
  let n := LEDStripController.num_pixels (led w) in
  exists w',
    render st w = (Ok tt, w')
    /\ rng w' = rng w
    /\ LEDStripController.num_pixels (led w') = n
    /\ LEDStripController.shown (led w') = LEDStripController.np (led w')
    /\ forall p, 0 <= p < n ->
         LEDStripController.get_pixel p (led w')
         = breathing_color st n (if from_pi (settings st) then n - 1 - p else p).
Proof.
  intros Hmode n. unfold render.
  replace (days_remaining st <=? countdown_length st) with false
    by (symmetry; apply Z.leb_gt; lia).
  unfold bind. rewrite _render_breathing_eq. fold n.
  eexists. split; [reflexivity|]. cbn [led rng led_write modify snd].
  split; [reflexivity|].
  split; [unfold LEDStripController.write, LEDStripController.num_pixels; cbn;
          fold (LEDStripController.num_pixels
                  (writes (fun i => if from_pi (settings st) then n - 1 - i else i)
                     (fun i => breathing_color st n i) (range 0 n) (led w)));
          apply num_pixels_writes|].
  split; [reflexivity|].
  intros p Hp. rewrite get_pixel_write. apply get_writes_same.
  - exact Hp.
  - exists (if from_pi (settings st) then n - 1 - p else p).
    destruct (from_pi (settings st)); split; try apply in_range; lia.
  - intros x _ Hx. f_equal. destruct (from_pi (settings st)); lia.
Qed.

(** X15. A countdown of length 0 (start day = event day). Once the date
    has arrived, [render] raises [ZeroDivisionError] before it touches
    anything, so the buffer, the frame on the strip and [random] are left
    as they were and nothing is written. Before the date it returns and
    the strip shows the breathing animation: every pixel has the
    breathing colour of its position (mirrored when [from_pi] is set),
    the frame is written, the length of the strip is kept and no random
    number is drawn. *)
Theorem X15_zero_length_countdown (st : CountdownState) (w : Strip) :
  countdown_length st = 0 ->
  let n := LEDStripController.num_pixels (led w) in
  (days_remaining st <= 0 -> render st w = (Raise ZeroDivisionError, w))
  /\ (0 < days_remaining st ->
      exists w',
        render st w = (Ok tt, w')
        /\ rng w' = rng w
        /\ LEDStripController.num_pixels (led w') = n
        /\ LEDStripController.shown (led w') = LEDStripController.np (led w')
        /\ forall p, 0 <= p < n ->
             LEDStripController.get_pixel p (led w')
             = breathing_color st n (if from_pi (settings st) then n - 1 - p else p)).
Proof.
  intros Hzero n. split; intros Hdr.
  - unfold render. rewrite Hzero.
    replace (days_remaining st <=? 0) with true by (symmetry; apply Z.leb_le; lia).
    unfold _render_countdown. unfold bind, get, lift. rewrite Hzero. reflexivity.
  - apply breathing_render. lia.
Qed.

Lemma keeps_pixel_color_length (st : CountdownState) (n day_index pixel : Z) :
  keeps (fun w => LEDStripController.num_pixels (led w) = n)
        (pixel_color st day_index pixel).
Proof.
  unfold pixel_color. destruct (use_custom_colors (settings st)).
  - apply keeps_bind; [apply keeps_lift|intros c; apply keeps_ret].
  - intros w Hw. unfold bind, random_choice_sign, get, ret.
    destruct (choice_sign (rng w)) as [c1 g1]. cbn [led rng].
    destruct (choice_sign g1) as [c2 g2]. cbn [led rng].
    destruct (LEDStripController.get_pixel pixel (led w)) as [[r g] b].
    exact Hw.
Qed.

Lemma keeps_render_day (P : Strip -> Prop) (st : CountdownState)
    (num_pixels block_size day_index : Z) :
  (forall d p, keeps P (pixel_color st d p)) ->
  (forall i c, keeps P (set_pixel i c)) ->
  keeps P (render_day st num_pixels block_size day_index).
Proof.
  intros Hcolor Hset. unfold render_day.
  destruct (block_bounds _ _ _ _ _) as [block_min block_max].
  apply keeps_bind.
  - unfold fill_block. apply keeps_for_each. intros p.
    apply keeps_bind; [apply Hcolor|intros c; apply Hset].
  - intros _. unfold add_markers.
    destruct (with_marker (settings st)); [|apply keeps_ret].
    apply keeps_for_each. intros block.
    destruct ((_ <? block_min) || (_ >=? block_max)); [|apply keeps_ret].
    apply keeps_bind; [apply keeps_lift|intros c; apply Hset].
Qed.

Lemma keeps_render (P : Strip -> Prop) (st : CountdownState) :
  (days_remaining st <= countdown_length st ->
   forall d p, keeps P (pixel_color st d p)) ->
  (forall i c, keeps P (set_pixel i c)) ->
  keeps P led_write ->
  keeps P (render st).
Proof.
  intros Hcolor Hset Hwrite. unfold render.
  apply keeps_bind; [|intros _; exact Hwrite].
  destruct (Z.leb_spec (days_remaining st) (countdown_length st)) as [Hmode|Hmode].
  - unfold _render_countdown.
    apply keeps_bind; [apply keeps_get|intros w0].
    apply keeps_bind; [apply keeps_lift|intros block_size].
    apply keeps_for_each. intros d.
    apply keeps_render_day; [apply Hcolor; exact Hmode|exact Hset].
  - unfold _render_breathing.
    apply keeps_bind; [apply keeps_get|intros w0].
    apply keeps_for_each. intros i. apply Hset.
Qed.

(** X16. However a render ends, returning or raising in the middle of a
    block, the strip has the number of pixels it had before. *)
Theorem X16_render_keeps_strip_length (st : CountdownState) (w : Strip) :
  LEDStripController.num_pixels (led (snd (render st w)))
  = LEDStripController.num_pixels (led w).
Proof.
  apply (keeps_render
           (fun s => LEDStripController.num_pixels (led s)
                     = LEDStripController.num_pixels (led w)) st);
    [| | |reflexivity].
  - intros _ d p. apply keeps_pixel_color_length.
  - intros i c s Hs. cbn. rewrite num_pixels_set_pixel. exact Hs.
  - intros s Hs. exact Hs.
Qed.

(** X17. With custom colours, and in breathing mode, a render never
    draws a random number: the state of [random] after it, returning or
    raising, is the state before. *)
Theorem X17_render_leaves_random_alone (st : CountdownState) (w : Strip) :
  use_custom_colors (settings st) = true
  \/ days_remaining st > countdown_length st ->
  rng (snd (render st w)) = rng w.
Proof.
  intros Hcase.
  apply (keeps_render (fun s => rng s = rng w) st); [| | |reflexivity].
  - intros Hmode d p. destruct Hcase as [Hcustom|Hbreath]; [|lia].
    unfold pixel_color. rewrite Hcustom.
    apply keeps_bind; [apply keeps_lift|intros c; apply keeps_ret].
  - intros i c s Hs. exact Hs.
  - intros s Hs. exact Hs.
Qed.

(** X18. The breathing frame: in breathing mode a render returns and
    every pixel of the strip gets the breathing colour of its position,
    counted from the other end of the strip when [from_pi] is set (the
    frame is mirrored); that frame is written to the strip. *)
Theorem X18_breathing_frame (st : CountdownState) (w : Strip) :
  days_remaining st > countdown_length st ->
  let n := LEDStripController.num_pixels (led w) in
  fst (render st w) = Ok tt
  /\ LEDStripController.shown (led (snd (render st w)))
     = LEDStripController.np (led (snd (render st w)))
  /\ forall p, 0 <= p < n ->
       LEDStripController.get_pixel p (led (snd (render st w)))
       = breathing_color st n (if from_pi (settings st) then n - 1 - p else p).
Proof.
  intros Hmode n. unfold render.
  replace (days_remaining st <=? countdown_length st) with false
    by (symmetry; apply Z.leb_gt; lia).
  unfold bind. rewrite _render_breathing_eq. fold n. cbn.
  split; [reflexivity|]. split; [reflexivity|].
  intros p Hp. apply get_writes_same.
  - exact Hp.
  - exists (if from_pi (settings st) then n - 1 - p else p).
    destruct (from_pi (settings st)); split; try apply in_range; lia.
  - intros x _ Hx. f_equal. destruct (from_pi (settings st)); lia.
Qed.

End RenderEdges.

Lemma X14_reverse_arrived_draws_nothing_witness :
  let st := Examples.state_on (2025, 12, 26) (Examples.christmas true true) in
  let w := Examples.strip_of Examples.grey Examples.ones_tape in
  @AnimationEngine.render Examples.FP st w
  = (Ok tt, {| AnimationEngine.led := LEDStripController.write (AnimationEngine.led w);
               AnimationEngine.rng := AnimationEngine.rng w |}).
Proof.
  apply (@X14_reverse_arrived_draws_nothing Examples.FP).
  - reflexivity.
  - vm_compute. discriminate.
  - vm_compute. reflexivity.
Defined.

Lemma X15_zero_length_countdown_witness :
  let arrived := Examples.state_on (2025, 12, 26) Examples.same_day in
  let waiting := Examples.state_on (2025, 12, 21) Examples.same_day in
  let w := Examples.strip_of Examples.grey Examples.ones_tape in
  @AnimationEngine.render Examples.FP arrived w = (Raise ZeroDivisionError, w)
  /\ exists w',
       @AnimationEngine.render Examples.FP waiting w = (Ok tt, w')
       /\ AnimationEngine.rng w' = AnimationEngine.rng w
       /\ LEDStripController.num_pixels (AnimationEngine.led w') = 20
       /\ LEDStripController.shown (AnimationEngine.led w')
          = LEDStripController.np (AnimationEngine.led w')
       /\ forall p, 0 <= p < 20 ->
            LEDStripController.get_pixel p (AnimationEngine.led w')
            = @AnimationEngine.breathing_color Examples.FP waiting 20
                (if from_pi (settings waiting) then 20 - 1 - p else p).
Proof.
  split.
  - apply (proj1 (@X15_zero_length_countdown Examples.FP
                    (Examples.state_on (2025, 12, 26) Examples.same_day)
                    (Examples.strip_of Examples.grey Examples.ones_tape)
                    ltac:(vm_compute; reflexivity))).
    vm_compute. discriminate.
  - apply (proj2 (@X15_zero_length_countdown Examples.FP
                    (Examples.state_on (2025, 12, 21) Examples.same_day)
                    (Examples.strip_of Examples.grey Examples.ones_tape)
                    ltac:(vm_compute; reflexivity))).
    vm_compute. reflexivity.
Defined.

Lemma X17_render_leaves_random_alone_witness :
  let st := Examples.state_on (2025, 12, 20) (Examples.christmas true false) in
  let w := Examples.strip_of Examples.grey Examples.ones_tape in
  AnimationEngine.rng (snd (@AnimationEngine.render Examples.FP st w))
  = AnimationEngine.rng w.
Proof.
  apply (@X17_render_leaves_random_alone Examples.FP).
  left. reflexivity.
Defined.

Lemma X18_breathing_frame_witness :
  let st := Examples.state_on (2025, 12, 1) (Examples.christmas true false) in
  let w := Examples.strip_of Examples.grey Examples.ones_tape in
  fst (@AnimationEngine.render Examples.FP st w) = Ok tt
  /\ LEDStripController.shown (AnimationEngine.led (snd (@AnimationEngine.render Examples.FP st w)))
     = LEDStripController.np (AnimationEngine.led (snd (@AnimationEngine.render Examples.FP st w)))
  /\ forall p, 0 <= p < 20 ->
       LEDStripController.get_pixel p
         (AnimationEngine.led (snd (@AnimationEngine.render Examples.FP st w)))
       = @AnimationEngine.breathing_color Examples.FP st 20
           (if from_pi (settings st) then 20 - 1 - p else p).
Proof.
  apply (@X18_breathing_frame Examples.FP
           (Examples.state_on (2025, 12, 1) (Examples.christmas true false))
           (Examples.strip_of Examples.grey Examples.ones_tape)).
  vm_compute. reflexivity.
Defined.

Section Drift.
Context {FP : PyFloat}.
Import AnimationEngine.

(** X25. Without custom colours the colour computed for a pixel never
    fails and never leaves the range of a byte: [pixel_color] returns a
    colour whose three channels are between 0 and 255, whatever the
    colour the pixel had, it draws exactly two random numbers and it does
    not write to the strip. *)
Theorem X25_drift_colour_is_a_byte_triple (st : CountdownState) (day_index pixel : Z)
    (w : Strip) :
  use_custom_colors (settings st) = false ->
  exists r g b,
    pixel_color st day_index pixel w =
    (Ok (r, g, b),
     {| led := led w;
        rng := {| tape := tape (rng w); pos := S (S (pos (rng w))) |} |})
    /\ 0 <= r <= 255 /\ 0 <= g <= 255 /\ 0 <= b <= 255.
Proof.
  intros Hc. unfold pixel_color. rewrite Hc.
  unfold bind, random_choice_sign, get, ret, choice_sign, draw.
  cbn [led rng tape pos].
  destruct (LEDStripController.get_pixel pixel (led w)) as [[r g] b].
  set (color := (ColorUtils.clamp _, ColorUtils.clamp _, ColorUtils.clamp _)).
  assert (Hbytes : forall c : rgb,
            (let '(x, y, z) := c in 0 <= x <= 255 /\ 0 <= y <= 255 /\ 0 <= z <= 255) ->
            exists x y z, c = (x, y, z)
                          /\ 0 <= x <= 255 /\ 0 <= y <= 255 /\ 0 <= z <= 255).
  { intros [[x y] z] H. exists x, y, z. split; [reflexivity|exact H]. }
  assert (Hcolor : let '(x, y, z) := color in
                   0 <= x <= 255 /\ 0 <= y <= 255 /\ 0 <= z <= 255)
    by (unfold color; repeat split; apply clamp_is_byte).
  assert (Hlight : let '(x, y, z) := ColorUtils.lighten color
                                       (lighten_factor (animation_phase st)) in
                   0 <= x <= 255 /\ 0 <= y <= 255 /\ 0 <= z <= 255).
  { destruct color as [[x y] z]. unfold ColorUtils.lighten.
    repeat split; apply clamp_is_byte. }
  destruct (is_flashing st);
    [destruct (flash_applies _ _)|];
    match goal with
    | |- exists r g b, (Ok ?c, _) = _ /\ _ =>
        destruct (Hbytes c ltac:(assumption)) as (x & y & z & -> & Hx & Hy & Hz);
        exists x, y, z; repeat split; lia
    end.
Qed.

End Drift.

Lemma X25_drift_colour_is_a_byte_triple_witness :
  let st := Examples.state_on (2025, 12, 20) (Examples.christmas false false) in
  let w := Examples.strip_of Examples.bright Examples.ones_tape in
  exists r g b,
    @AnimationEngine.pixel_color Examples.FP st 6 11 w =
    (Ok (r, g, b),
     {| AnimationEngine.led := AnimationEngine.led w;
        AnimationEngine.rng :=
          {| tape := tape (AnimationEngine.rng w);
             pos := S (S (pos (AnimationEngine.rng w))) |} |})
    /\ 0 <= r <= 255 /\ 0 <= g <= 255 /\ 0 <= b <= 255.
Proof.
  apply (@X25_drift_colour_is_a_byte_triple Examples.FP). reflexivity.
Defined.

(** ** CountdownState: the flash phase and the base colour *)

Section FlashPhase.
Context {FP : PyFloat}.

Lemma ticks_diff_same (a : Z) : ticks_diff a a = 0.
Proof. unfold ticks_diff. rewrite Z.sub_diag. reflexivity. Qed.

(** X19. For a [flash_speed] on which [int(flash_speed * 1000)]
    returns (an [int], or a [float] whose product with 1000 is finite),
    [update_flash_phase] changes nothing but the swap flag and the time
    of the last swap; when that interval is not positive (for an [int]
    speed: exactly when the speed is not positive) 2000 ms are used in
    its place, and otherwise the interval itself; and calling it again
    at the same instant changes nothing more: the colours are swapped at
    most once per instant. *)
Theorem X19_update_flash_phase (now : Z) (st : CountdownState) :
  int_returns (times_1000 (flash_speed (settings st))) = true ->
  let interval_ms := int_of (times_1000 (flash_speed (settings st))) in
  (days_remaining (update_flash_phase now st) = days_remaining st
   /\ countdown_length (update_flash_phase now st) = countdown_length st
   /\ settings (update_flash_phase now st) = settings st
   /\ animation_phase (update_flash_phase now st) = animation_phase st
   /\ base_color (update_flash_phase now st) = base_color st)
  /\ (interval_ms <= 0 ->
      update_flash_phase now st =
      if ticks_diff now (last_swap_ms st) >=? 2000
      then set_swap (negb (swap_phase st)) now st else st)
  /\ (0 < interval_ms ->
      update_flash_phase now st =
      if ticks_diff now (last_swap_ms st) >=? interval_ms
      then set_swap (negb (swap_phase st)) now st else st)
  /\ (forall z, flash_speed (settings st) = PInt z ->
                (interval_ms <= 0 <-> z <= 0))
  /\ update_flash_phase now (update_flash_phase now st) = update_flash_phase now st.
Proof.
  intros _ interval_ms. split; [|split; [|split; [|split]]].
  - unfold update_flash_phase. destruct (_ >=? _); repeat split.
  - intros Hneg. unfold update_flash_phase. fold interval_ms.
    replace (interval_ms <=? 0) with true by (symmetry; apply Z.leb_le; lia).
    reflexivity.
  - intros Hpos. unfold update_flash_phase. fold interval_ms.
    replace (interval_ms <=? 0) with false by (symmetry; apply Z.leb_gt; lia).
    reflexivity.
  - intros z Hz. unfold interval_ms. rewrite Hz. cbn [times_1000 int_of]. lia.
  - set (interval := if interval_ms <=? 0 then 2000 else interval_ms).
    assert (Hpos : 0 < interval).
    { unfold interval. destruct (Z.leb_spec interval_ms 0); lia. }
    assert (Hstep : update_flash_phase now st =
                    if ticks_diff now (last_swap_ms st) >=? interval
                    then set_swap (negb (swap_phase st)) now st else st)
      by reflexivity.
    rewrite Hstep. destruct (ticks_diff now (last_swap_ms st) >=? interval) eqn:E.
    + unfold update_flash_phase. cbn [settings set_swap last_swap_ms].
      fold interval_ms. fold interval. rewrite ticks_diff_same.
      replace (0 >=? interval) with false
        by (symmetry; rewrite Z.geb_leb; apply Z.leb_gt; exact Hpos).
      reflexivity.
    + exact Hstep.
Qed.

End FlashPhase.

Lemma X19_update_flash_phase_witness :
  let st := Examples.state_on (2025, 12, 20) DomainExamples.flashing_backwards in
  @int_of Examples.FP (times_1000 (flash_speed (settings st))) = -500
  /\ (days_remaining (update_flash_phase 2500 st) = days_remaining st
      /\ countdown_length (update_flash_phase 2500 st) = countdown_length st
      /\ settings (update_flash_phase 2500 st) = settings st
      /\ animation_phase (update_flash_phase 2500 st) = animation_phase st
      /\ base_color (update_flash_phase 2500 st) = base_color st)
  /\ update_flash_phase 2500 st =
     (if ticks_diff 2500 (last_swap_ms st) >=? 2000
      then set_swap (negb (swap_phase st)) 2500 st else st)
  /\ update_flash_phase 2500 (update_flash_phase 2500 st) = update_flash_phase 2500 st.
Proof.
  assert (Hfinite :
            @int_returns Examples.FP
              (times_1000
                 (flash_speed
                    (settings (Examples.state_on (2025, 12, 20)
                                 DomainExamples.flashing_backwards)))) = true)
    by (vm_compute; reflexivity).
  assert (Hinterval :
            @int_of Examples.FP
              (times_1000
                 (flash_speed
                    (settings (Examples.state_on (2025, 12, 20)
                                 DomainExamples.flashing_backwards)))) = -500)
    by (vm_compute; reflexivity).
  split; [exact Hinterval|].
  split; [apply (@X19_update_flash_phase Examples.FP); exact Hfinite|].
  split; [|apply (@X19_update_flash_phase Examples.FP); exact Hfinite].
  apply (proj1 (proj2 (@X19_update_flash_phase Examples.FP 2500
                         (Examples.state_on (2025, 12, 20)
                            DomainExamples.flashing_backwards) Hfinite))).
  rewrite Hinterval. lia.
Defined.

Section Construction.
Context {FP : PyFloat} {TM : TimeModule}.











End Construction.


(** ** CountdownApplication: the decisions of one iteration *)

Section Decisions.
Context {FP : PyFloat} {TM : TimeModule}.
Import CountdownApplication.











End Decisions.




(** ** TimeAPI.get_timezone_offset *)

Section TimezoneOffset.
Import TimeAPI.

Lemma range_cons (lo hi : Z) : lo < hi -> range lo hi = lo :: range (lo + 1) hi.
Proof.
  intros H. unfold range.
  replace (Z.to_nat (hi - lo)) with (S (Z.to_nat (hi - (lo + 1)))) by lia.
  cbn [seq map]. f_equal; [lia|].
  rewrite <- seq_shift, map_map. apply map_ext. intros i. lia.
Qed.

Lemma range_empty (lo hi : Z) : hi <= lo -> range lo hi = [].
Proof.
  intros H. unfold range. replace (Z.to_nat (hi - lo)) with O by lia. reflexivity.
Qed.

Lemma offset_attempts_from (replies : Z -> reply) (retries : Z) (n : nat) :
  forall lo sleeps,
    Z.to_nat (retries - lo) = n ->
    (forall a h,
       lo <= a < retries ->
       attempt_offset (replies a) = Some h ->
       (forall a', lo <= a' < a -> attempt_offset (replies a') = None) ->
       offset_attempts replies retries (range lo retries) sleeps
       = (Ok (Some h), sleeps + (a - lo)))
    /\ ((forall a, lo <= a < retries -> attempt_offset (replies a) = None) ->
        offset_attempts replies retries (range lo retries) sleeps
        = (Ok None, sleeps + Z.max 0 (retries - 1 - lo))).
Proof.
  induction n as [|n IH]; intros lo sleeps Hn.
  - split.
    + intros a h Ha. lia.
    + intros _. rewrite range_empty by lia. cbn.
      unfold ret. f_equal. lia.
  - assert (Hlt : lo < retries) by lia.
    rewrite range_cons by exact Hlt. cbn [offset_attempts].
    destruct (IH (lo + 1) (if lo <? retries - 1 then sleeps + 1 else sleeps)
                ltac:(lia)) as [IHsome IHnone].
    split.
    + intros a h Ha Hh Hbefore.
      destruct (Z.eq_dec a lo) as [->|Hne].
      * rewrite Hh. unfold ret. f_equal. lia.
      * rewrite (Hbefore lo ltac:(lia)). unfold bind.
        replace (lo <? retries - 1) with true in *
          by (symmetry; apply Z.ltb_lt; lia).
        unfold modify. rewrite (IHsome a h ltac:(lia) Hh).
        -- f_equal. lia.
        -- intros a' Ha'. apply Hbefore. lia.
    + intros Hnone. rewrite (Hnone lo ltac:(lia)). unfold bind.
      destruct (Z.ltb_spec lo (retries - 1)) as [Hmore|Hlast].
      * unfold modify. rewrite IHnone by (intros a Ha; apply Hnone; lia).
        f_equal. lia.
      * unfold ret. rewrite IHnone by (intros a Ha; apply Hnone; lia).
        f_equal. lia.
Qed.

(** X26. [get_timezone_offset] returns the offset of the first attempt
    that gets status 200 and a [utc_offset] it can read, having slept
    once after each failed attempt before it; when none of the [retries]
    attempts succeeds it returns [None] and has slept [retries - 1]
    times: it does not sleep after the last attempt, and it never
    raises. *)
Theorem X26_get_timezone_offset (replies : Z -> reply) (retries : Z) :
  (forall a h,
     0 <= a < retries ->
     attempt_offset (replies a) = Some h ->
     (forall a', 0 <= a' < a -> attempt_offset (replies a') = None) ->
     get_timezone_offset replies retries 0 = (Ok (Some h), a))
  /\ ((forall a, 0 <= a < retries -> attempt_offset (replies a) = None) ->
      get_timezone_offset replies retries 0 = (Ok None, Z.max 0 (retries - 1))).
Proof.
  unfold get_timezone_offset.
  destruct (offset_attempts_from replies retries (Z.to_nat (retries - 0)) 0 0 eq_refl)
    as [Hsome Hnone].
  split.
  - intros a h Ha Hh Hbefore. rewrite (Hsome a h Ha Hh Hbefore). f_equal. lia.
  - intros Hall. rewrite (Hnone Hall). f_equal. lia.
Qed.

Lemma X26_get_timezone_offset_witness :
  let replies a :=
    if a =? 0 then no_reply
    else if a =? 1 then reply_with 503 None
    else reply_with 200 (Some "-05:00"%string) in
  get_timezone_offset replies 3 0 = (Ok (Some (-5)), 2)
  /\ get_timezone_offset (fun _ => reply_with 200 None) 3 0 = (Ok None, Z.max 0 (3 - 1)).
Proof.
  split.
  - apply (proj1 (X26_get_timezone_offset
                    (fun a => if a =? 0 then no_reply
                              else if a =? 1 then reply_with 503 None
                              else reply_with 200 (Some "-05:00"%string)) 3)).
    + lia.
    + reflexivity.
    + intros a' Ha'. assert (a' = 0 \/ a' = 1) as [-> | ->] by lia; reflexivity.
  - apply (proj2 (X26_get_timezone_offset (fun _ => reply_with 200 None) 3)).
    intros a _. reflexivity.
Defined.

(** X27. The hour offset is read from the first three characters of
    [utc_offset] alone: for a sign and two digits followed by anything
    it is the signed number of hours, so the minutes of an offset such
    as "+05:30" are dropped. *)
Theorem X27_hours_offset_drops_the_minutes (sign h1 h2 : ascii) (rest : string) :
  sign = "+"%char \/ sign = "-"%char ->
  is_digit h1 = true ->
  is_digit h2 = true ->
  hours_offset_of (String sign (String h1 (String h2 rest)))
  = Ok ((if Ascii.eqb sign "-" then -1 else 1)
        * (10 * digit_value h1 + digit_value h2)).
Proof.
  intros Hsign H1 H2. unfold hours_offset_of.
  change (substring 0 3 (String sign (String h1 (String h2 rest))))
    with (String sign (String h1 (String h2 (substring 0 0 rest)))).
  replace (substring 0 0 rest) with EmptyString by (destruct rest; reflexivity).
  apply is_digit_inv in H1. apply is_digit_inv in H2. simpl in H1, H2.
  destruct Hsign as [-> | ->];
    repeat (destruct H1 as [H1|H1]; [subst h1|]); try contradiction;
    repeat (destruct H2 as [H2|H2]; [subst h2; reflexivity|]); contradiction.
Qed.

Lemma X27_hours_offset_drops_the_minutes_witness :
  hours_offset_of "+05:30" = Ok ((if Ascii.eqb "+" "-" then -1 else 1)
                                 * (10 * digit_value "0" + digit_value "5")).
Proof.
  apply (X27_hours_offset_drops_the_minutes "+" "0" "5" ":30").
  - left. reflexivity.
  - reflexivity.
  - reflexivity.
Defined.

End TimezoneOffset.

(** ** ColorUtils.string_to_rgb: reading back a written colour *)

Section ColourText.
Local Open Scope string_scope.

Lemma append_assoc (a b c : string) : (a ++ b) ++ c = a ++ (b ++ c).
Proof. induction a as [|x a IH]; [reflexivity|]. simpl. rewrite IH. reflexivity. Qed.

Lemma append_empty_r (a : string) : a ++ EmptyString = a.
Proof. induction a as [|x a IH]; [reflexivity|]. simpl. rewrite IH. reflexivity. Qed.

Lemma rev_string_app_acc (s acc : string) :
  rev_string acc s = rev_string EmptyString s ++ acc.
Proof.
  revert acc. induction s as [|c s IH]; intros acc; [reflexivity|].
  simpl. rewrite IH, (IH (String c EmptyString)).
  rewrite append_assoc. reflexivity.
Qed.

Lemma rev_string_append (a b : string) :
  rev_string EmptyString (a ++ b) = rev_string EmptyString b ++ rev_string EmptyString a.
Proof.
  induction a as [|c a IH].
  - simpl. rewrite append_empty_r. reflexivity.
  - simpl. rewrite (rev_string_app_acc (a ++ b)), IH.
    rewrite (rev_string_app_acc a (String c EmptyString)), append_assoc.
    reflexivity.
Qed.

Lemma rev_string_involutive (s : string) :
  rev_string EmptyString (rev_string EmptyString s) = s.
Proof.
  induction s as [|c s IH]; [reflexivity|].
  simpl. rewrite (rev_string_app_acc s), rev_string_append, IH. reflexivity.
Qed.

Lemma lstrip_starts_outside (chars s : string) :
  starts_outside chars s = true -> lstrip chars s = s.
Proof.
  destruct s as [|c s]; [reflexivity|]. simpl.
  destruct (mem_char c chars); [discriminate|reflexivity].
Qed.

Lemma rstrip_ends_outside (chars s : string) :
  starts_outside chars (rev_string EmptyString s) = true -> rstrip chars s = s.
Proof.
  intros H. unfold rstrip. rewrite (lstrip_starts_outside _ _ H).
  apply rev_string_involutive.
Qed.

Lemma digits_only_append (a b : string) :
  digits_only (a ++ b) = digits_only a && digits_only b.
Proof.
  induction a as [|c a IH]; [reflexivity|].
  simpl. rewrite IH, andb_assoc. reflexivity.
Qed.

Lemma digits_only_rev (s : string) :
  digits_only (rev_string EmptyString s) = digits_only s.
Proof.
  induction s as [|c s IH]; [reflexivity|].
  simpl. rewrite (rev_string_app_acc s), digits_only_append, IH. simpl.
  rewrite andb_true_r. apply andb_comm.
Qed.

Lemma digits_start_outside (chars s : string) :
  (forall d, is_digit d = true -> mem_char d chars = false) ->
  digits_only s = true -> starts_outside chars s = true.
Proof.
  intros Hchars. destruct s as [|c s]; [reflexivity|]. simpl.
  intros H. apply andb_prop in H. destruct H as [Hc _].
  rewrite (Hchars c Hc). reflexivity.
Qed.

Lemma digit_not_in (chars : string) :
  (forall c, In c ["0"; "1"; "2"; "3"; "4"; "5"; "6"; "7"; "8"; "9"]%char ->
             mem_char c chars = false) ->
  forall d, is_digit d = true -> mem_char d chars = false.
Proof. intros H d Hd. apply H. apply is_digit_inv. exact Hd. Qed.

Lemma digit_not_whitespace (d : ascii) :
  is_digit d = true -> mem_char d whitespace = false.
Proof.
  apply digit_not_in. intros c Hc. simpl in Hc.
  repeat (destruct Hc as [<-|Hc]; [reflexivity|]). contradiction.
Qed.

Lemma digit_not_parenthesis (d : ascii) :
  is_digit d = true -> mem_char d "()" = false.
Proof.
  apply digit_not_in. intros c Hc. simpl in Hc.
  repeat (destruct Hc as [<-|Hc]; [reflexivity|]). contradiction.
Qed.

Lemma digits_without_comma (s : string) :
  digits_only s = true -> mem_char "," s = false.
Proof.
  induction s as [|c s IH]; [reflexivity|]. simpl.
  intros H. apply andb_prop in H. destruct H as [Hc Hs].
  rewrite (IH Hs), orb_false_r.
  apply is_digit_inv in Hc. simpl in Hc.
  repeat (destruct Hc as [<-|Hc]; [reflexivity|]). contradiction.
Qed.

Lemma split_append_separator (sep : ascii) (a b : string) :
  mem_char sep a = false ->
  split sep (a ++ String sep b) = a :: split sep b.
Proof.
  induction a as [|c a IH]; intros H.
  - simpl. rewrite Ascii.eqb_refl. reflexivity.
  - simpl in H. apply orb_false_elim in H. destruct H as [Hc Ha].
    simpl. rewrite Ascii.eqb_sym, Hc, (IH Ha). reflexivity.
Qed.

Lemma digits_value_of_uint_acc (d : Decimal.uint) :
  forall p, digits_value (Zpos p) (NilEmpty.string_of_uint d)
            = Some (Zpos (Pos.of_uint_acc d p)).
Proof.
  induction d; intros p;
    cbn [NilEmpty.string_of_uint digits_value Pos.of_uint_acc]; [reflexivity|..];
    match goal with
    | |- context [digit_of_ascii ?c] =>
        let v := eval vm_compute in (digit_of_ascii c) in
        change (digit_of_ascii c) with v
    end; cbv iota beta; rewrite <- IHd; f_equal; lia.
Qed.

Lemma digits_value_of_uint (d : Decimal.uint) :
  digits_value 0 (NilEmpty.string_of_uint d) = Some (Z.of_N (Pos.of_uint d)).
Proof.
  induction d;
    cbn [NilEmpty.string_of_uint digits_value Pos.of_uint]; [reflexivity|..];
    match goal with
    | |- context [digit_of_ascii ?c] =>
        let v := eval vm_compute in (digit_of_ascii c) in
        change (digit_of_ascii c) with v
    end; cbv iota beta;
    [exact IHd|apply digits_value_of_uint_acc..].
Qed.

Lemma digits_only_of_uint (d : Decimal.uint) :
  digits_only (NilEmpty.string_of_uint d) = true.
Proof. induction d; simpl; auto. Qed.

Lemma decimal_not_empty (n : N) : decimal n <> EmptyString.
Proof.
  unfold decimal. destruct n as [|p]; [discriminate|].
  unfold N.to_uint. intros H.
  assert (Hn := DecimalN.Unsigned.of_to (Npos p)). unfold N.to_uint in Hn.
  destruct (Pos.to_uint p); try discriminate H. discriminate Hn.
Qed.

(** [int] reads back the digits of a natural number. *)
Lemma py_int_decimal (n : N) : py_int (decimal n) = Ok (Z.of_N n).
Proof.
  assert (Hd : digits_only (decimal n) = true) by apply digits_only_of_uint.
  assert (Hne := decimal_not_empty n).
  unfold py_int, strip.
  rewrite (lstrip_starts_outside whitespace (decimal n))
    by (apply digits_start_outside; [apply digit_not_whitespace|exact Hd]).
  rewrite rstrip_ends_outside
    by (apply digits_start_outside;
        [apply digit_not_whitespace|rewrite digits_only_rev; exact Hd]).
  assert (Hv : unsigned_value (decimal n) = Ok (Z.of_N n)).
  { unfold unsigned_value. destruct (decimal n) eqn:E; [contradiction|].
    rewrite <- E. unfold decimal. rewrite digits_value_of_uint.
    change (Pos.of_uint (N.to_uint n)) with (N.of_uint (N.to_uint n)).
    rewrite DecimalN.Unsigned.of_to. reflexivity. }
  destruct (decimal n) as [|c rest] eqn:E; [contradiction|].
  simpl in Hd. apply andb_prop in Hd. destruct Hd as [Hc _].
  apply is_digit_inv in Hc. simpl in Hc.
  repeat (destruct Hc as [<-|Hc]; [exact Hv|]). contradiction.
Qed.

Lemma rstrip_closing_parenthesis (body : string) :
  starts_outside "()" (rev_string EmptyString body) = true ->
  rstrip "()" (body ++ ")") = body.
Proof.
  intros H. unfold rstrip. rewrite rev_string_append.
  change (rev_string EmptyString ")" ++ rev_string EmptyString body)
    with (String ")" (rev_string EmptyString body)).
  change (lstrip "()" (String ")" (rev_string EmptyString body)))
    with (lstrip "()" (rev_string EmptyString body)).
  rewrite (lstrip_starts_outside _ _ H). apply rev_string_involutive.
Qed.

(** A text that ends with a number ends outside the parentheses. *)
Lemma ends_with_decimal (a : string) (n : N) :
  starts_outside "()" (rev_string EmptyString (a ++ decimal n)) = true.
Proof.
  rewrite rev_string_append.
  assert (Hn := decimal_not_empty n).
  assert (Hrev : digits_only (rev_string EmptyString (decimal n)) = true)
    by (rewrite digits_only_rev; apply digits_only_of_uint).
  destruct (rev_string EmptyString (decimal n)) as [|c s] eqn:E.
  - exfalso. apply Hn. rewrite <- (rev_string_involutive (decimal n)), E.
    reflexivity.
  - cbn [digits_only] in Hrev. cbn [append starts_outside].
    apply andb_prop in Hrev. destruct Hrev as [Hc _].
    rewrite (digit_not_parenthesis c Hc). reflexivity.
Qed.

(** X28. A colour written as ["(r,g,b)"] with decimal numbers is read
    back by [string_to_rgb] as the same three numbers. *)
Theorem X28_string_to_rgb_reads_back (r g b : N) :
  ColorUtils.string_to_rgb (rgb_string r g b) = Ok (Z.of_N r, Z.of_N g, Z.of_N b).
Proof.
  assert (Hdigits : forall n, digits_only (decimal n) = true)
    by (intros n; apply digits_only_of_uint).
  unfold ColorUtils.string_to_rgb, rgb_string, strip.
  (* the parentheses go *)
  change ("(" ++ decimal r ++ "," ++ decimal g ++ "," ++ decimal b ++ ")")
    with (String "(" (decimal r ++ "," ++ decimal g ++ "," ++ decimal b ++ ")")).
  assert (Hfirst : forall n rest, starts_outside "()" (decimal n ++ rest) = true).
  { intros n rest. assert (Hn := decimal_not_empty n). specialize (Hdigits n).
    destruct (decimal n) as [|c s]; [contradiction|].
    cbn [digits_only] in Hdigits. cbn [append starts_outside].
    apply andb_prop in Hdigits. destruct Hdigits as [Hc _].
    rewrite (digit_not_parenthesis c Hc). reflexivity. }
  cbn [lstrip mem_char Ascii.eqb Bool.eqb orb].
  rewrite (lstrip_starts_outside "()" _ (Hfirst r _)).
  assert (Hshape : decimal r ++ "," ++ decimal g ++ "," ++ decimal b
                   = (decimal r ++ "," ++ decimal g ++ ",") ++ decimal b)
    by (rewrite !append_assoc; reflexivity).
  assert (Hbody : rstrip "()" (decimal r ++ "," ++ decimal g ++ "," ++ decimal b ++ ")")
                  = decimal r ++ "," ++ decimal g ++ "," ++ decimal b).
  { replace (decimal r ++ "," ++ decimal g ++ "," ++ decimal b ++ ")")
      with ((decimal r ++ "," ++ decimal g ++ "," ++ decimal b) ++ ")")
      by (rewrite !append_assoc; reflexivity).
    apply rstrip_closing_parenthesis.
    rewrite Hshape. apply ends_with_decimal. }
  rewrite Hbody.
  (* the commas split the three numbers *)
  change (decimal r ++ "," ++ decimal g ++ "," ++ decimal b)
    with (decimal r ++ String "," (decimal g ++ String "," (decimal b))).
  rewrite !split_append_separator by (apply digits_without_comma; apply Hdigits).
  rewrite (split_without_separator "," (decimal b))
    by (apply digits_without_comma; apply Hdigits).
  unfold unpack3. cbn [map_int]. rewrite !py_int_decimal. reflexivity.
Qed.

End ColourText.

(** ** CountdownApplication.run: many iterations *)

Section ManyIterations.
Context {FP : PyFloat} {TM : TimeModule}.
Import CountdownApplication.



End ManyIterations.

(** ** UpdateManager.check_and_update: when an update is installed *)

Section VersionCheck.
Import UpdateManager.
Local Open Scope string_scope.

Lemma ascii_compare_refl (c : ascii) : Ascii.compare c c = Eq.
Proof. unfold Ascii.compare. apply N.compare_refl. Qed.

(** Strings are compared character by character: after a common prefix
    the first different character decides, whatever follows. *)
Lemma leb_after_common_prefix (p : string) (c1 c2 : ascii) (r1 r2 : string) :
  Ascii.compare c1 c2 = Lt ->
  String.leb (p ++ String c1 r1) (p ++ String c2 r2) = true.
Proof.
  intros Hlt. unfold String.leb.
  assert (H : String.compare (p ++ String c1 r1) (p ++ String c2 r2) = Lt).
  { induction p as [|c p IH]; simpl.
    - rewrite Hlt. reflexivity.
    - rewrite ascii_compare_refl. exact IH. }
  rewrite H. reflexivity.
Qed.

(** X29. The updater compares version strings as text. Nothing is
    downloaded, the strip is not flashed and [check_and_update] returns
    [False] when auto-update is off, when no version line is found, and
    when the remote version is empty or is not greater than the current
    one in the order of strings; so a remote version that differs from
    the current one first by a smaller character is never installed:
    "1.0.10" does not replace "1.0.9". *)
Theorem X29_update_compares_versions_as_text (current : string)
    (reply : option response) (download : Exec LEDStripController.t bool)
    (auto_update : bool) (l : LEDStripController.t) :
  (auto_update = false
   \/ _get_remote_version reply = None
   \/ (exists remote,
         _get_remote_version reply = Some remote
         /\ (remote = EmptyString \/ String.leb remote current = true)) ->
   check_and_update current reply download auto_update l = (Ok false, l))
  /\ (forall p r1 r2,
        current = p ++ "9" ++ r2 ->
        _get_remote_version reply = Some (p ++ "10" ++ r1) ->
        check_and_update current reply download auto_update l = (Ok false, l)).
Proof.
  assert (Hfirst :
            auto_update = false
            \/ _get_remote_version reply = None
            \/ (exists remote,
                  _get_remote_version reply = Some remote
                  /\ (remote = EmptyString \/ String.leb remote current = true)) ->
            check_and_update current reply download auto_update l = (Ok false, l)).
  { intros H. unfold check_and_update.
    destruct auto_update; cbn [negb]; [|reflexivity].
    destruct H as [H|[H|[remote [H Hcmp]]]]; [discriminate| |]; rewrite H;
      [reflexivity|].
    destruct Hcmp as [->|Hle]; [reflexivity|].
    destruct (String.eqb remote EmptyString); [reflexivity|].
    rewrite Hle. reflexivity. }
  split; [exact Hfirst|].
  intros p r1 r2 -> Hremote. apply Hfirst. right. right.
  exists (p ++ "10" ++ r1). split; [exact Hremote|]. right.
  apply (leb_after_common_prefix p "1" "9" ("0" ++ r1) r2). reflexivity.
Qed.

Lemma X29_update_compares_versions_as_text_witness :
  let published :=
    {| status_code := 200;
       text := "# the published main.py" ++ String newline
               ("VERSION = " ++ String double_quote
                  ("1.0.10" ++ String double_quote (String newline
                   "import network"))) |} in
  let l := {| LEDStripController.np := Examples.grey;
              LEDStripController.shown := Examples.grey |} in
  check_and_update "1.0.9" (Some published) (ret true) true l = (Ok false, l).
Proof.
  apply (proj2 (X29_update_compares_versions_as_text "1.0.9"
                  (Some {| status_code := 200;
                           text := "# the published main.py" ++ String newline
                                   ("VERSION = " ++ String double_quote
                                      ("1.0.10" ++ String double_quote
                                         (String newline "import network"))) |})
                  (ret true) true
                  {| LEDStripController.np := Examples.grey;
                     LEDStripController.shown := Examples.grey |})
           "1.0." "" "").
  - reflexivity.
  - vm_compute. reflexivity.
Defined.

End VersionCheck.

(** ** AnimationEngine: the frame of a countdown render *)

Section Frame.
Context {FP : PyFloat}.
Import AnimationEngine.

Lemma in_block_spec (st : CountdownState) (n d p : Z) :
  in_block st n d p = true <->
  fst (block_bounds (from_pi (settings st)) n (countdown_length st)
         (n / countdown_length st) d) <= p
  < snd (block_bounds (from_pi (settings st)) n (countdown_length st)
           (n / countdown_length st) d).
Proof.
  unfold in_block. destruct (block_bounds _ _ _ _ _) as [lo hi]. cbn [fst snd].
  rewrite andb_true_iff, Z.leb_le, Z.ltb_lt. reflexivity.
Qed.

Lemma is_block_start_spec (st : CountdownState) (n p : Z) :
  is_block_start st n p = true <->
  exists block,
    0 <= block < countdown_length st
    /\ block_start (from_pi (settings st)) n (n / countdown_length st) block = p.
Proof.
  unfold is_block_start. rewrite existsb_exists. split; intros [b [H1 H2]]; exists b.
  - apply in_range in H1. apply Z.eqb_eq in H2. split; assumption.
  - split; [apply in_range; exact H1|apply Z.eqb_eq; exact H2].
Qed.

Lemma keeps_for_each_in {S A} (P : S -> Prop) (xs : list A) (body : A -> Exec S unit) :
  (forall x, In x xs -> keeps P (body x)) -> keeps P (for_each xs body).
Proof.
  induction xs as [|x xs IH]; intros Hbody; simpl.
  - apply keeps_ret.
  - apply keeps_bind; [apply Hbody; left; reflexivity|intros _].
    apply IH. intros y Hy. apply Hbody. right. exact Hy.
Qed.

(** Computing the colour of a pixel does not write to the strip. *)
Lemma pixel_color_led (st : CountdownState) (d p : Z) (w : Strip) :
  led (snd (pixel_color st d p w)) = led w.
Proof.
  unfold pixel_color. destruct (use_custom_colors (settings st)).
  - unfold bind, lift, ret.
    destruct (if is_primary_block st d
              then ColorUtils.string_to_rgb (primary_color (settings st))
              else ColorUtils.string_to_rgb (secondary_color (settings st)));
      reflexivity.
  - unfold bind, random_choice_sign, get, ret.
    destruct (choice_sign (rng w)) as [c1 g1]. cbn [led rng].
    destruct (choice_sign g1) as [c2 g2]. cbn [led rng].
    destruct (LEDStripController.get_pixel p (led w)) as [[r g] b].
    reflexivity.
Qed.

(** The pixel loop of a day leaves the pixels outside its range alone,
    however it ends. *)
Lemma fill_block_keeps_pixel (st : CountdownState) (d lo hi p : Z) (c : rgb) :
  ~ (lo <= p < hi) ->
  keeps (fun t => LEDStripController.get_pixel p (led t) = c) (fill_block st d lo hi).
Proof.
  intros Hout. unfold fill_block. apply keeps_for_each_in. intros x Hx.
  apply in_range in Hx. apply keeps_bind.
  - intros t Ht. rewrite pixel_color_led. exact Ht.
  - intros col. apply keeps_set_pixel. intros t Ht. cbn [led].
    rewrite get_set_pixel_neq by lia. exact Ht.
Qed.

(** The marker pass of a day leaves alone every pixel that is not the
    first pixel of a block outside the range of the day. *)
Lemma add_markers_keeps_pixel (st : CountdownState) (n bs lo hi p : Z) (c : rgb) :
  (forall block,
     0 <= block < countdown_length st ->
     block_start (from_pi (settings st)) n bs block = p -> lo <= p < hi) ->
  keeps (fun t => LEDStripController.get_pixel p (led t) = c)
        (add_markers st n bs lo hi).
Proof.
  intros H. unfold add_markers. destruct (with_marker (settings st)); [|apply keeps_ret].
  apply keeps_for_each_in. intros b Hb. apply in_range in Hb.
  destruct ((block_start (from_pi (settings st)) n bs b <? lo)
            || (block_start (from_pi (settings st)) n bs b >=? hi)) eqn:E;
    [|apply keeps_ret].
  apply keeps_bind; [apply keeps_lift|]. intros col.
  apply keeps_set_pixel. intros t Ht. cbn [led].
  rewrite get_set_pixel_neq; [exact Ht|].
  intros Heq. specialize (H b Hb Heq).
  apply orb_true_iff in E. rewrite Z.ltb_lt, Z.geb_le in E. lia.
Qed.

(** The pixel loop returns whenever the colours it parses parse. *)
Lemma fill_block_returns (st : CountdownState) (pc sc : rgb) (d lo hi : Z) :
  (use_custom_colors (settings st) = true ->
   ColorUtils.string_to_rgb (primary_color (settings st)) = Ok pc
   /\ ColorUtils.string_to_rgb (secondary_color (settings st)) = Ok sc) ->
  forall w, exists w',
    fill_block st d lo hi w = (Ok tt, w')
    /\ LEDStripController.num_pixels (led w') = LEDStripController.num_pixels (led w).
Proof.
  intros Hparse w. unfold fill_block.
  apply (for_each_ok
           (fun s => LEDStripController.num_pixels (led s)
                     = LEDStripController.num_pixels (led w))); [|reflexivity].
  intros p s _ Hn.
  destruct (use_custom_colors (settings st)) eqn:Hc.
  - destruct (Hparse eq_refl) as [Hp Hs].
    unfold bind. rewrite (pixel_color_custom st pc sc) by assumption.
    eexists. split; [reflexivity|]. simpl.
    rewrite num_pixels_set_pixel. exact Hn.
  - unfold pixel_color. rewrite Hc.
    unfold bind, random_choice_sign, get, ret, set_pixel, modify.
    destruct (choice_sign (rng s)) as [c1 g1]. cbn [led rng].
    destruct (choice_sign g1) as [c2 g2]. cbn [led rng].
    destruct (LEDStripController.get_pixel p (led s)) as [[r g] b].
    eexists. split; [reflexivity|]. simpl.
    rewrite num_pixels_set_pixel. exact Hn.
Qed.

(** One iteration of the day loop returns, with markers enabled, when the
    marker colour parses and the colours of the pixel loop do. *)
Lemma render_day_returns (st : CountdownState) (mc pc sc : rgb) (n bs d : Z) :
  with_marker (settings st) = true ->
  ColorUtils.string_to_rgb (marker_color (settings st)) = Ok mc ->
  (use_custom_colors (settings st) = true ->
   ColorUtils.string_to_rgb (primary_color (settings st)) = Ok pc
   /\ ColorUtils.string_to_rgb (secondary_color (settings st)) = Ok sc) ->
  forall w, exists w_fill,
    fill_block st d
      (fst (block_bounds (from_pi (settings st)) n (countdown_length st) bs d))
      (snd (block_bounds (from_pi (settings st)) n (countdown_length st) bs d)) w
    = (Ok tt, w_fill)
    /\ LEDStripController.num_pixels (led w_fill) = LEDStripController.num_pixels (led w)
    /\ render_day st n bs d w =
       (Ok tt,
        {| led := writes (block_start (from_pi (settings st)) n bs) (fun _ => mc)
                    (marked_blocks st n bs
                       (fst (block_bounds (from_pi (settings st)) n
                               (countdown_length st) bs d))
                       (snd (block_bounds (from_pi (settings st)) n
                               (countdown_length st) bs d)))
                    (led w_fill);
           rng := rng w_fill |}).
Proof.
  intros Hm Hmc Hparse w. unfold render_day.
  destruct (block_bounds (from_pi (settings st)) n (countdown_length st) bs d)
    as [lo hi].
  cbn [fst snd].
  destruct (fill_block_returns st pc sc d lo hi Hparse w) as [w_fill [Hfill Hn]].
  exists w_fill. split; [exact Hfill|]. split; [exact Hn|].
  unfold bind. rewrite Hfill.
  apply (add_markers_eq st mc); assumption.
Qed.

(** One iteration of the day loop with custom colours, pixel by pixel. *)
Lemma render_day_custom (st : CountdownState) (mc pc sc : rgb) (n d : Z) :
  use_custom_colors (settings st) = true ->
  ColorUtils.string_to_rgb (primary_color (settings st)) = Ok pc ->
  ColorUtils.string_to_rgb (secondary_color (settings st)) = Ok sc ->
  (with_marker (settings st) = true ->
   ColorUtils.string_to_rgb (marker_color (settings st)) = Ok mc) ->
  forall w,
    LEDStripController.num_pixels (led w) = n ->
    exists w',
      render_day st n (n / countdown_length st) d w = (Ok tt, w')
      /\ rng w' = rng w
      /\ LEDStripController.num_pixels (led w') = n
      /\ LEDStripController.shown (led w') = LEDStripController.shown (led w)
      /\ forall p, 0 <= p < n ->
           LEDStripController.get_pixel p (led w') =
           if with_marker (settings st) && is_block_start st n p
              && negb (in_block st n d p)
           then mc
           else if in_block st n d p then day_color st pc sc d
           else LEDStripController.get_pixel p (led w).
Proof.
  intros Hc Hpc Hsc Hmc w Hn. unfold render_day.
  assert (Hblock := fun p => in_block_spec st n d p).
  destruct (block_bounds (from_pi (settings st)) n (countdown_length st)
              (n / countdown_length st) d) as [lo hi] eqn:Eb.
  cbn [fst snd] in Hblock.
  unfold bind. rewrite (fill_block_custom st pc sc) by assumption.
  set (l1 := writes (fun p => p) (fun _ => day_color st pc sc d) (range lo hi) (led w)).
  assert (Hn1 : LEDStripController.num_pixels l1 = n)
    by (unfold l1; rewrite num_pixels_writes; exact Hn).
  assert (Hl1 : forall p, 0 <= p < n ->
            LEDStripController.get_pixel p l1 =
            if in_block st n d p then day_color st pc sc d
            else LEDStripController.get_pixel p (led w)).
  { intros p Hp. destruct (in_block st n d p) eqn:E.
    - apply Hblock in E. apply get_writes_same.
      + rewrite Hn. exact Hp.
      + exists p. split; [apply in_range; exact E|reflexivity].
      + reflexivity.
    - apply get_writes_other. intros x Hx ->. apply in_range in Hx.
      apply Hblock in Hx. congruence. }
  destruct (with_marker (settings st)) eqn:Hm.
  - rewrite (add_markers_eq st mc) by auto. cbn [led rng].
    eexists. split; [reflexivity|]. cbn [led rng].
    split; [reflexivity|].
    split; [rewrite num_pixels_writes; exact Hn1|].
    split; [unfold l1; rewrite !shown_writes; reflexivity|].
    intros p Hp. cbn [andb].
    destruct (classic_in (marked_blocks st n (n / countdown_length st) lo hi)
                (block_start (from_pi (settings st)) n (n / countdown_length st)) p)
      as [[b [Hb Hbp]]|Hnone].
    + apply marked_blocks_spec in Hb. destruct Hb as [Hb Hout].
      assert (Estart : is_block_start st n p = true)
        by (apply is_block_start_spec; exists b; split; assumption).
      assert (Ein : in_block st n d p = false).
      { destruct (in_block st n d p) eqn:E; [|reflexivity].
        apply Hblock in E. lia. }
      rewrite Estart, Ein. cbn [andb negb].
      apply get_writes_same.
      * rewrite Hn1. exact Hp.
      * exists b. split; [apply marked_blocks_spec; split; assumption|exact Hbp].
      * reflexivity.
    + rewrite get_writes_other by exact Hnone. rewrite Hl1 by exact Hp.
      destruct (is_block_start st n p) eqn:Estart; [|reflexivity].
      destruct (in_block st n d p) eqn:Ein; [reflexivity|].
      exfalso. apply is_block_start_spec in Estart. destruct Estart as [b [Hb Hbp]].
      apply (Hnone b); [|exact Hbp].
      apply marked_blocks_spec. split; [exact Hb|].
      assert (Hnot : ~ (lo <= p < hi))
        by (intros Hin; apply Hblock in Hin; congruence).
      lia.
  - unfold add_markers. rewrite Hm. unfold ret.
    eexists. split; [reflexivity|]. cbn [led rng].
    split; [reflexivity|]. split; [exact Hn1|].
    split; [unfold l1; rewrite shown_writes; reflexivity|].
    intros p Hp. cbn [andb]. apply Hl1. exact Hp.
Qed.

(** The day loop with custom colours, pixel by pixel. *)
Lemma countdown_days_custom (st : CountdownState) (mc pc sc : rgb) (n : Z) :
  use_custom_colors (settings st) = true ->
  ColorUtils.string_to_rgb (primary_color (settings st)) = Ok pc ->
  ColorUtils.string_to_rgb (secondary_color (settings st)) = Ok sc ->
  (with_marker (settings st) = true ->
   ColorUtils.string_to_rgb (marker_color (settings st)) = Ok mc) ->
  forall days w,
    LEDStripController.num_pixels (led w) = n ->
    exists w',
      for_each days (render_day st n (n / countdown_length st)) w = (Ok tt, w')
      /\ rng w' = rng w
      /\ LEDStripController.num_pixels (led w') = n
      /\ LEDStripController.shown (led w') = LEDStripController.shown (led w)
      /\ forall p, 0 <= p < n ->
           LEDStripController.get_pixel p (led w')
           = countdown_pixel st n mc pc sc days p
               (LEDStripController.get_pixel p (led w)).
Proof.
  intros Hc Hpc Hsc Hmc days.
  induction days as [|d days IH] using rev_ind; intros w Hn.
  - exists w. repeat split; try reflexivity. exact Hn.
  - destruct (IH w Hn) as (w1 & E1 & Hr1 & Hn1 & Hs1 & Hp1).
    destruct (render_day_custom st mc pc sc n d Hc Hpc Hsc Hmc w1 Hn1)
      as (w2 & E2 & Hr2 & Hn2 & Hs2 & Hp2).
    exists w2. split.
    { rewrite for_each_app. unfold bind. rewrite E1. simpl. unfold bind.
      rewrite E2. reflexivity. }
    split; [congruence|]. split; [exact Hn2|]. split; [congruence|].
    intros p Hp. rewrite (Hp2 p Hp).
    unfold countdown_pixel at 1, marked_at_end, painting_day.
    rewrite rev_unit. cbn [find].
    destruct (with_marker (settings st) && is_block_start st n p
              && negb (in_block st n d p)) eqn:Em; [reflexivity|].
    destruct (in_block st n d p) eqn:Ei; [reflexivity|].
    rewrite (Hp1 p Hp). unfold countdown_pixel, marked_at_end, painting_day.
    destruct (rev days) as [|d_last rest]; [reflexivity|].
    cbn [negb] in Em. rewrite andb_true_r in Em. rewrite Em. reflexivity.
Qed.

(** A countdown render with custom colours, pixel by pixel. *)
Lemma render_countdown_custom (st : CountdownState) (mc pc sc : rgb) (w : Strip) :
  use_custom_colors (settings st) = true ->
  ColorUtils.string_to_rgb (primary_color (settings st)) = Ok pc ->
  ColorUtils.string_to_rgb (secondary_color (settings st)) = Ok sc ->
  (with_marker (settings st) = true ->
   ColorUtils.string_to_rgb (marker_color (settings st)) = Ok mc) ->
  days_remaining st <= countdown_length st ->
  countdown_length st <> 0 ->
  let n := LEDStripController.num_pixels (led w) in
  let days := day_range (is_reverse (settings st)) (countdown_length st)
                (days_remaining st) in
  exists w',
    render st w = (Ok tt, w')
    /\ rng w' = rng w
    /\ LEDStripController.num_pixels (led w') = n
    /\ LEDStripController.shown (led w') = LEDStripController.np (led w')
    /\ forall p, 0 <= p < n ->
         LEDStripController.get_pixel p (led w')
         = countdown_pixel st n mc pc sc days p
             (LEDStripController.get_pixel p (led w)).
Proof.
  intros Hc Hpc Hsc Hmc Hmode Hlen n days.
  destruct (countdown_days_custom st mc pc sc n Hc Hpc Hsc Hmc days w eq_refl)
    as (w1 & E1 & Hr1 & Hn1 & Hs1 & Hp1).
  exists {| led := LEDStripController.write (led w1); rng := rng w1 |}.
  split.
  { unfold render.
    replace (days_remaining st <=? countdown_length st) with true
      by (symmetry; apply Z.leb_le; exact Hmode).
    unfold _render_countdown. unfold bind at 1 2 3. unfold get, lift.
    replace (countdown_length st =? 0) with false
      by (symmetry; apply Z.eqb_neq; exact Hlen).
    fold n. fold days. rewrite E1. reflexivity. }
  cbn [led rng]. split; [exact Hr1|]. split; [exact Hn1|].
  split; [reflexivity|].
  intros p Hp. rewrite get_pixel_write. apply Hp1. exact Hp.
Qed.

(** Without custom colours, the colour computed for a pixel is the drift
    of the colour it holds, by the next two draws. *)
Lemma pixel_color_drift (st : CountdownState) (d p : Z) (w : Strip) :
  use_custom_colors (settings st) = false ->
  pixel_color st d p w =
  (Ok (drift_color st d (LEDStripController.get_pixel p (led w))
         (tape (rng w) (pos (rng w))) (tape (rng w) (S (pos (rng w))))),
   {| led := led w;
      rng := {| tape := tape (rng w); pos := S (S (pos (rng w))) |} |}).
Proof.
  intros Hc. unfold pixel_color. rewrite Hc.
  unfold bind, random_choice_sign, get, ret, choice_sign, draw.
  cbn [led rng tape pos]. unfold drift_color, sign_of_draw.
  destruct (LEDStripController.get_pixel p (led w)) as [[r g] b].
  reflexivity.
Qed.

(** The pixel loop of a day without custom colours, pixel by pixel. *)
Lemma fill_block_drift (st : CountdownState) (d : Z) :
  use_custom_colors (settings st) = false ->
  forall (k : nat) (lo hi : Z) (w : Strip),
    Z.to_nat (hi - lo) = k ->
    exists w',
      fill_block st d lo hi w = (Ok tt, w')
      /\ rng w' = {| tape := tape (rng w); pos := (pos (rng w) + 2 * k)%nat |}
      /\ LEDStripController.num_pixels (led w') = LEDStripController.num_pixels (led w)
      /\ (forall p,
            lo <= p < hi ->
            0 <= p < LEDStripController.num_pixels (led w) ->
            LEDStripController.get_pixel p (led w')
            = drift_color st d (LEDStripController.get_pixel p (led w))
                (tape (rng w) (pos (rng w) + 2 * Z.to_nat (p - lo))%nat)
                (tape (rng w) (pos (rng w) + 2 * Z.to_nat (p - lo) + 1)%nat))
      /\ (forall p,
            ~ (lo <= p < hi) ->
            LEDStripController.get_pixel p (led w')
            = LEDStripController.get_pixel p (led w)).
Proof.
  intros Hc k. induction k as [|k IH]; intros lo hi w Hk.
  - exists w. unfold fill_block. rewrite range_empty by lia.
    split; [reflexivity|].
    split; [destruct (rng w) as [t q]; cbn [tape pos]; f_equal; lia|].
    split; [reflexivity|]. split; [intros p Hp; lia|reflexivity].
  - assert (Hlt : lo < hi) by lia.
    set (col := drift_color st d (LEDStripController.get_pixel lo (led w))
                  (tape (rng w) (pos (rng w))) (tape (rng w) (S (pos (rng w))))).
    set (w1 := {| led := LEDStripController.set_pixel lo col (led w);
                  rng := {| tape := tape (rng w); pos := S (S (pos (rng w))) |} |}).
    destruct (IH (lo + 1) hi w1 ltac:(lia)) as (w' & E & Hr & Hn & Hin & Hout).
    exists w'. split.
    { unfold fill_block in *. rewrite range_cons by exact Hlt.
      cbn [for_each]. unfold bind at 1 2.
      rewrite (pixel_color_drift st d lo w Hc). fold col.
      unfold set_pixel at 1, modify. cbn [led rng]. fold w1. exact E. }
    split; [rewrite Hr; unfold w1; cbn [rng tape pos]; f_equal; lia|].
    split; [rewrite Hn; unfold w1; cbn [led]; apply num_pixels_set_pixel|].
    split.
    + intros p Hp Hstrip. destruct (Z.eq_dec p lo) as [->|Hne].
      * rewrite Hout by lia. unfold w1. cbn [led].
        rewrite get_set_pixel_eq by exact Hstrip. unfold col.
        replace (Z.to_nat (lo - lo)) with O by lia.
        replace (pos (rng w) + 2 * 0)%nat with (pos (rng w)) by lia.
        replace (pos (rng w) + 1)%nat with (S (pos (rng w))) by lia.
        reflexivity.
      * rewrite Hin; [|lia|unfold w1; cbn [led]; rewrite num_pixels_set_pixel;
                        exact Hstrip].
        unfold w1. cbn [led rng tape pos].
        rewrite get_set_pixel_neq by lia.
        f_equal; f_equal; lia.
    + intros p Hp. rewrite Hout by lia. unfold w1. cbn [led].
      apply get_set_pixel_neq. lia.
Qed.

(** One iteration of the day loop without custom colours, on the pixels
    no marker pass paints. *)
Lemma render_day_drift (st : CountdownState) (mc : rgb) (n d : Z) :
  use_custom_colors (settings st) = false ->
  (with_marker (settings st) = true ->
   ColorUtils.string_to_rgb (marker_color (settings st)) = Ok mc) ->
  forall w,
    LEDStripController.num_pixels (led w) = n ->
    exists w',
      render_day st n (n / countdown_length st) d w = (Ok tt, w')
      /\ rng w' = {| tape := tape (rng w);
                     pos := (pos (rng w) + 2 * block_length st n d)%nat |}
      /\ LEDStripController.num_pixels (led w') = n
      /\ LEDStripController.shown (led w') = LEDStripController.shown (led w)
      /\ forall p,
           0 <= p < n ->
           marker_pixel st n p = false ->
           LEDStripController.get_pixel p (led w') =
           if in_block st n d p then
             drift_color st d (LEDStripController.get_pixel p (led w))
               (tape (rng w) (pos (rng w) + 2 * block_offset st n d p)%nat)
               (tape (rng w) (pos (rng w) + 2 * block_offset st n d p + 1)%nat)
           else LEDStripController.get_pixel p (led w).
Proof.
  intros Hc Hmc w Hn. unfold render_day, block_length, block_offset.
  assert (Hblock := fun p => in_block_spec st n d p).
  destruct (block_bounds (from_pi (settings st)) n (countdown_length st)
              (n / countdown_length st) d) as [lo hi] eqn:Eb.
  cbn [fst snd] in *.
  destruct (fill_block_drift st d Hc (Z.to_nat (hi - lo)) lo hi w eq_refl)
    as (w1 & E1 & Hr1 & Hn1 & Hin1 & Hout1).
  assert (Hs1 : LEDStripController.shown (led w1) = LEDStripController.shown (led w)).
  { assert (K : keeps (fun t => LEDStripController.shown (led t)
                               = LEDStripController.shown (led w))
                      (fill_block st d lo hi)).
    { unfold fill_block. apply keeps_for_each. intros x. apply keeps_bind.
      - intros t Ht. rewrite pixel_color_led. exact Ht.
      - intros col. apply keeps_set_pixel. intros t Ht. cbn [led].
        rewrite shown_set_pixel. exact Ht. }
    specialize (K w eq_refl). rewrite E1 in K. exact K. }
  assert (Hp1 : forall p, 0 <= p < n ->
            LEDStripController.get_pixel p (led w1) =
            if in_block st n d p then
              drift_color st d (LEDStripController.get_pixel p (led w))
                (tape (rng w) (pos (rng w) + 2 * Z.to_nat (p - lo))%nat)
                (tape (rng w) (pos (rng w) + 2 * Z.to_nat (p - lo) + 1)%nat)
            else LEDStripController.get_pixel p (led w)).
  { intros p Hp. destruct (in_block st n d p) eqn:E.
    - apply Hblock in E. apply Hin1; [exact E|rewrite Hn; exact Hp].
    - apply Hout1. intros Hin. apply Hblock in Hin. congruence. }
  unfold bind. rewrite E1.
  destruct (with_marker (settings st)) eqn:Hm.
  - rewrite (add_markers_eq st mc) by auto.
    eexists. split; [reflexivity|]. cbn [led rng].
    split; [exact Hr1|].
    split; [rewrite num_pixels_writes, Hn1; exact Hn|].
    split; [rewrite shown_writes; exact Hs1|].
    intros p Hp Hmark. unfold marker_pixel in Hmark. rewrite Hm in Hmark.
    cbn [andb] in Hmark.
    rewrite get_writes_other; [apply Hp1; exact Hp|].
    intros b Hb Hbp. apply marked_blocks_spec in Hb. destruct Hb as [Hb _].
    assert (Hs : is_block_start st n p = true)
      by (apply is_block_start_spec; exists b; split; assumption).
    congruence.
  - unfold add_markers. rewrite Hm. unfold ret.
    eexists. split; [reflexivity|].
    split; [exact Hr1|]. split; [rewrite Hn1; exact Hn|]. split; [exact Hs1|].
    intros p Hp _. apply Hp1. exact Hp.
Qed.

(** The day loop without custom colours, on the pixels no marker pass
    paints: a pixel in the range of no day is left alone, a pixel in the
    range of one day only ends as the drift of the colour it had. *)
Lemma countdown_days_drift (st : CountdownState) (mc : rgb) (n : Z) :
  use_custom_colors (settings st) = false ->
  (with_marker (settings st) = true ->
   ColorUtils.string_to_rgb (marker_color (settings st)) = Ok mc) ->
  forall days w,
    LEDStripController.num_pixels (led w) = n ->
    exists w',
      for_each days (render_day st n (n / countdown_length st)) w = (Ok tt, w')
      /\ rng w' = {| tape := tape (rng w);
                     pos := (pos (rng w) + 2 * pixels_iterated st n days)%nat |}
      /\ LEDStripController.num_pixels (led w') = n
      /\ LEDStripController.shown (led w') = LEDStripController.shown (led w)
      /\ forall p,
           0 <= p < n ->
           marker_pixel st n p = false ->
           ((forall d, In d days -> in_block st n d p = false) ->
            LEDStripController.get_pixel p (led w')
            = LEDStripController.get_pixel p (led w))
           /\ (forall before d later,
                 days = before ++ d :: later ->
                 in_block st n d p = true ->
                 (forall d', In d' (before ++ later) -> in_block st n d' p = false) ->
                 LEDStripController.get_pixel p (led w')
                 = drift_color st d (LEDStripController.get_pixel p (led w))
                     (tape (rng w)
                        (pos (rng w)
                         + 2 * (pixels_iterated st n before + block_offset st n d p))%nat)
                     (tape (rng w)
                        (pos (rng w)
                         + 2 * (pixels_iterated st n before + block_offset st n d p)
                         + 1)%nat)).
Proof.
  intros Hc Hmc days. induction days as [|d0 rest IH]; intros w Hn.
  - exists w. split; [reflexivity|].
    split; [destruct (rng w) as [t q]; cbn; f_equal; lia|].
    split; [exact Hn|]. split; [reflexivity|].
    intros p Hp Hmark. split; [reflexivity|].
    intros [|x before] d later Heq; discriminate.
  - destruct (render_day_drift st mc n d0 Hc Hmc w Hn)
      as (w1 & E1 & Hr1 & Hn1 & Hs1 & Hp1).
    destruct (IH w1 Hn1) as (w2 & E2 & Hr2 & Hn2 & Hs2 & Hp2).
    exists w2. split; [cbn [for_each]; unfold bind; rewrite E1; exact E2|].
    split.
    { rewrite Hr2, Hr1. cbn [tape pos]. unfold pixels_iterated.
      unfold list_sum. cbn [map fold_right]. f_equal. lia. }
    split; [exact Hn2|]. split; [congruence|].
    intros p Hp Hmark. destruct (Hp2 p Hp Hmark) as [Hnone Hone].
    specialize (Hp1 p Hp Hmark). split.
    + intros Hout. rewrite Hnone by (intros d Hd; apply Hout; right; exact Hd).
      rewrite Hp1, (Hout d0 (or_introl eq_refl)). reflexivity.
    + intros before d later Heq Hin Hothers. destruct before as [|x before].
      * cbn [app] in Heq. injection Heq as <- <-.
        rewrite Hnone by (intros d' Hd'; apply Hothers; exact Hd').
        rewrite Hp1, Hin. unfold pixels_iterated, list_sum. cbn [map fold_right].
        replace (pos (rng w) + 2 * (0 + block_offset st n d0 p))%nat
          with (pos (rng w) + 2 * block_offset st n d0 p)%nat by lia.
        reflexivity.
      * cbn [app] in Heq. injection Heq as <- ->.
        rewrite (Hone before d later eq_refl Hin)
          by (intros d' Hd'; apply Hothers; right; exact Hd').
        rewrite Hp1, (Hothers d0 (or_introl eq_refl)), Hr1. cbn [tape pos].
        unfold pixels_iterated, list_sum. cbn [map fold_right].
        f_equal; f_equal; lia.
Qed.

(** A countdown render without custom colours, on the pixels no marker
    pass paints. *)
Lemma render_countdown_drift (st : CountdownState) (mc : rgb) (w : Strip) :
  use_custom_colors (settings st) = false ->
  (with_marker (settings st) = true ->
   ColorUtils.string_to_rgb (marker_color (settings st)) = Ok mc) ->
  days_remaining st <= countdown_length st ->
  countdown_length st <> 0 ->
  let n := LEDStripController.num_pixels (led w) in
  let days := day_range (is_reverse (settings st)) (countdown_length st)
                (days_remaining st) in
  exists w',
    render st w = (Ok tt, w')
    /\ rng w' = {| tape := tape (rng w);
                   pos := (pos (rng w) + 2 * pixels_iterated st n days)%nat |}
    /\ LEDStripController.num_pixels (led w') = n
    /\ LEDStripController.shown (led w') = LEDStripController.np (led w')
    /\ forall p,
         0 <= p < n ->
         marker_pixel st n p = false ->
         ((forall d, In d days -> in_block st n d p = false) ->
          LEDStripController.get_pixel p (led w')
          = LEDStripController.get_pixel p (led w))
         /\ (forall before d later,
               days = before ++ d :: later ->
               in_block st n d p = true ->
               (forall d', In d' (before ++ later) -> in_block st n d' p = false) ->
               LEDStripController.get_pixel p (led w')
               = drift_color st d (LEDStripController.get_pixel p (led w))
                   (tape (rng w)
                      (pos (rng w)
                       + 2 * (pixels_iterated st n before + block_offset st n d p))%nat)
                   (tape (rng w)
                      (pos (rng w)
                       + 2 * (pixels_iterated st n before + block_offset st n d p)
                       + 1)%nat)).
Proof.
  intros Hc Hmc Hmode Hlen n days.
  destruct (countdown_days_drift st mc n Hc Hmc days w eq_refl)
    as (w1 & E1 & Hr1 & Hn1 & Hs1 & Hp1).
  exists {| led := LEDStripController.write (led w1); rng := rng w1 |}.
  split.
  { unfold render.
    replace (days_remaining st <=? countdown_length st) with true
      by (symmetry; apply Z.leb_le; exact Hmode).
    unfold _render_countdown. unfold bind at 1 2 3. unfold get, lift.
    replace (countdown_length st =? 0) with false
      by (symmetry; apply Z.eqb_neq; exact Hlen).
    fold n. fold days. rewrite E1. reflexivity. }
  cbn [led rng]. split; [exact Hr1|]. split; [exact Hn1|].
  split; [reflexivity|].
  intros p Hp Hmark. exact (Hp1 p Hp Hmark).
Qed.

End Frame.

(** ** AnimationEngine: markers after a complete render *)

Section Markers.
Context {FP : PyFloat}.
Import AnimationEngine.

(** The day loop returns and keeps the length of the strip. *)
Lemma render_days_return (st : CountdownState) (mc pc sc : rgb) (n bs : Z) :
  with_marker (settings st) = true ->
  ColorUtils.string_to_rgb (marker_color (settings st)) = Ok mc ->
  (use_custom_colors (settings st) = true ->
   ColorUtils.string_to_rgb (primary_color (settings st)) = Ok pc
   /\ ColorUtils.string_to_rgb (secondary_color (settings st)) = Ok sc) ->
  forall days w,
    LEDStripController.num_pixels (led w) = n ->
    exists w',
      for_each days (render_day st n bs) w = (Ok tt, w')
      /\ LEDStripController.num_pixels (led w') = n.
Proof.
  intros Hm Hmc Hparse days w Hn.
  apply (for_each_ok (fun t => LEDStripController.num_pixels (led t) = n));
    [|exact Hn].
  intros d t _ Ht.
  destruct (render_day_returns st mc pc sc n bs d Hm Hmc Hparse t)
    as [t_fill [_ [Hfill Hday]]].
  eexists. split; [exact Hday|]. cbn [led].
  rewrite num_pixels_writes, Hfill. exact Ht.
Qed.

(** A day whose range does not contain [p] leaves [p] alone when [p] is
    not the first pixel of a marker block. *)
Lemma render_day_keeps_pixel (st : CountdownState) (n d p : Z) (c : rgb) :
  in_block st n d p = false ->
  is_block_start st n p = false ->
  keeps (fun t => LEDStripController.get_pixel p (led t) = c)
        (render_day st n (n / countdown_length st) d).
Proof.
  intros Hout Hstart. unfold render_day.
  assert (Hblock := in_block_spec st n d p).
  destruct (block_bounds (from_pi (settings st)) n (countdown_length st)
              (n / countdown_length st) d) as [lo hi].
  cbn [fst snd] in Hblock.
  assert (Hnot : ~ (lo <= p < hi))
    by (intros Hin; apply Hblock in Hin; congruence).
  apply keeps_bind.
  - apply fill_block_keeps_pixel. exact Hnot.
  - intros _. apply add_markers_keeps_pixel. intros block Hb Hp. exfalso.
    assert (Hs : is_block_start st n p = true)
      by (apply is_block_start_spec; exists block; split; assumption).
    congruence.
Qed.

(** C3, as the code has it. In countdown mode with markers enabled and a
    day range that is not empty, a complete render returns, and after it:
    - the first pixel of every marker block that lies on the strip and
      outside the pixel range of the LAST iterated day has the marker
      colour, whether that block is outside the iterated day range or was
      drawn earlier in the render;
    - every other pixel of a drawn block keeps the colour its pixel loop
      computed: a pixel in the range of an iterated day and of no later
      iterated day, which is in the last day's range or is not the first
      pixel of a marker block, has the colour it had when the pixel loop
      of that day ended;
    - with custom colours every pixel of the strip is given in closed
      form: the marker colour on the marked pixels, elsewhere the colour
      of the last iterated day whose range contains it, and its colour
      before the render when no iterated day does. *)
Theorem C3_markers_after_render (st : CountdownState) (w : Strip)
    (mc pc sc : rgb) (days : list Z) (d_last : Z) :
  let s := settings st in
  let n := LEDStripController.num_pixels (led w) in
  let block_size := n / countdown_length st in
  let block_min := fst (block_bounds (from_pi s) n (countdown_length st) block_size d_last) in
  let block_max := snd (block_bounds (from_pi s) n (countdown_length st) block_size d_last) in
  with_marker s = true ->
  ColorUtils.string_to_rgb (marker_color s) = Ok mc ->
  byte_color mc = true ->
  (use_custom_colors s = true ->
   ColorUtils.string_to_rgb (primary_color s) = Ok pc
   /\ ColorUtils.string_to_rgb (secondary_color s) = Ok sc) ->
  (use_custom_colors s = true -> byte_color pc = true /\ byte_color sc = true) ->
  byte_strip (led w) = true ->
  days_remaining st <= countdown_length st ->
  countdown_length st <> 0 ->
  day_range (is_reverse s) (countdown_length st) (days_remaining st) = days ++ [d_last] ->
  exists w',
    render st w = (Ok tt, w')
    /\ (forall block,
          0 <= block < countdown_length st ->
          let start := block_start (from_pi s) n block_size block in
          0 <= start < n ->
          start < block_min \/ block_max <= start ->
          LEDStripController.get_pixel start (led w') = mc)
    /\ (forall before d later,
          days ++ [d_last] = before ++ d :: later ->
          exists w_before w_fill,
            for_each before (render_day st n block_size) w = (Ok tt, w_before)
            /\ fill_block st d
                 (fst (block_bounds (from_pi s) n (countdown_length st) block_size d))
                 (snd (block_bounds (from_pi s) n (countdown_length st) block_size d))
                 w_before = (Ok tt, w_fill)
            /\ forall p,
                 in_block st n d p = true ->
                 (forall d', In d' later -> in_block st n d' p = false) ->
                 (later <> [] -> is_block_start st n p = false) ->
                 LEDStripController.get_pixel p (led w')
                 = LEDStripController.get_pixel p (led w_fill))
    /\ (use_custom_colors s = true ->
        forall p,
          0 <= p < n ->
          LEDStripController.get_pixel p (led w')
          = countdown_pixel st n mc pc sc (days ++ [d_last]) p
              (LEDStripController.get_pixel p (led w))).
Proof.
  intros s n block_size block_min block_max Hm Hmc _ Hparse _ _ Hmode Hlen Hdays.
  assert (Hreturn := render_days_return st mc pc sc n block_size Hm Hmc Hparse).
  (* the whole day loop *)
  destruct (Hreturn (days ++ [d_last]) w eq_refl) as [w_all [Hall Hn_all]].
  assert (Hrender : render st w =
            (Ok tt, {| led := LEDStripController.write (led w_all);
                       rng := rng w_all |})).
  { unfold render.
    replace (days_remaining st <=? countdown_length st) with true
      by (symmetry; apply Z.leb_le; exact Hmode).
    unfold _render_countdown. unfold bind at 1 2 3. unfold get, lift.
    replace (countdown_length st =? 0) with false
      by (symmetry; apply Z.eqb_neq; exact Hlen).
    fold n block_size. fold s. rewrite Hdays.
    unfold bind. rewrite Hall. reflexivity. }
  (* the state a day leaves, from the state its pixel loop leaves *)
  assert (Hsplit : forall before d later,
            days ++ [d_last] = before ++ d :: later ->
            exists w_before w_fill,
              for_each before (render_day st n block_size) w = (Ok tt, w_before)
              /\ fill_block st d
                   (fst (block_bounds (from_pi s) n (countdown_length st) block_size d))
                   (snd (block_bounds (from_pi s) n (countdown_length st) block_size d))
                   w_before = (Ok tt, w_fill)
              /\ LEDStripController.num_pixels (led w_fill) = n
              /\ for_each later (render_day st n block_size)
                   {| led := writes (block_start (from_pi s) n block_size)
                               (fun _ => mc)
                               (marked_blocks st n block_size
                                  (fst (block_bounds (from_pi s) n (countdown_length st)
                                          block_size d))
                                  (snd (block_bounds (from_pi s) n (countdown_length st)
                                          block_size d)))
                               (led w_fill);
                      rng := rng w_fill |} = (Ok tt, w_all)).
  { intros before d later Heq.
    destruct (Hreturn before w eq_refl) as [w_before [Hbefore Hn_before]].
    destruct (render_day_returns st mc pc sc n block_size d Hm Hmc Hparse w_before)
      as [w_fill [Hfill [Hn_fill Hday]]].
    exists w_before, w_fill. split; [exact Hbefore|]. split; [exact Hfill|].
    split; [rewrite Hn_fill; exact Hn_before|].
    rewrite Heq, for_each_app in Hall. unfold bind in Hall.
    rewrite Hbefore in Hall. cbn [for_each] in Hall. unfold bind in Hall.
    fold s in Hday. rewrite Hday in Hall. exact Hall. }
  eexists. split; [exact Hrender|]. cbn [led].
  split; [|split].
  - (* markers outside the range of the last day *)
    intros block Hblock Hstart Hout.
    destruct (Hsplit days d_last [] eq_refl)
      as (w_before & w_fill & _ & _ & Hn_fill & Hlast).
    cbn [for_each] in Hlast. unfold ret in Hlast. injection Hlast as <-.
    cbn [led]. rewrite get_pixel_write. apply get_writes_same.
    + rewrite Hn_fill. exact Hstart.
    + exists block. split; [|reflexivity].
      apply marked_blocks_spec. split; assumption.
    + reflexivity.
  - (* the other pixels of the drawn blocks *)
    intros before d later Heq.
    destruct (Hsplit before d later Heq)
      as (w_before & w_fill & Hbefore & Hfill & Hn_fill & Hlater).
    exists w_before, w_fill. split; [exact Hbefore|]. split; [exact Hfill|].
    intros p Hin Hnot_later Hnot_start. rewrite get_pixel_write.
    assert (Hkeeps :
              keeps (fun t => LEDStripController.get_pixel p (led t)
                              = LEDStripController.get_pixel p (led w_fill))
                    (for_each later (render_day st n block_size))).
    { apply keeps_for_each_in. intros d' Hd'.
      apply render_day_keeps_pixel; [apply Hnot_later; exact Hd'|].
      apply Hnot_start. intros ->. destruct Hd'. }
    assert (Hunmarked :
              forall block,
                In block (marked_blocks st n block_size
                            (fst (block_bounds (from_pi s) n (countdown_length st)
                                    block_size d))
                            (snd (block_bounds (from_pi s) n (countdown_length st)
                                    block_size d))) ->
                block_start (from_pi s) n block_size block <> p).
    { intros block Hb Hp. apply marked_blocks_spec in Hb.
      apply in_block_spec in Hin. subst s block_size. lia. }
    match type of Hlater with
    | for_each _ _ ?t = _ =>
        specialize (Hkeeps t (get_writes_other _ _ _ p (led w_fill) Hunmarked))
    end.
    rewrite Hlater in Hkeeps. exact Hkeeps.
  - (* with custom colours: every pixel *)
    intros Hcustom p Hp. destruct (Hparse Hcustom) as [Hpc Hsc].
    destruct (render_countdown_custom st mc pc sc w Hcustom Hpc Hsc
                (fun _ => Hmc) Hmode Hlen)
      as (w'' & Hrender' & _ & _ & _ & Hpixels).
    rewrite Hrender in Hrender'. injection Hrender' as <-.
    fold s in Hpixels. rewrite Hdays in Hpixels. apply Hpixels. exact Hp.
Qed.

End Markers.

Lemma C3_markers_after_render_witness :
  let st := Examples.state_on (2025, 12, 20) (Examples.christmas true false) in
  let w := Examples.strip_of Examples.grey Examples.zero_tape in
  let marker := (255, 255, 255) in
  let red := (255, 0, 0) in
  let green := (0, 255, 0) in
  exists w',
    @AnimationEngine.render Examples.FP st w = (Ok tt, w')
    /\ (forall block,
          0 <= block < 10 ->
          let start := AnimationEngine.block_start false 20 2 block in
          0 <= start < 20 ->
          start < 8 \/ 10 <= start ->
          LEDStripController.get_pixel start (AnimationEngine.led w') = marker)
    /\ (forall before d later,
          [10; 9; 8; 7; 6] ++ [5] = before ++ d :: later ->
          exists w_before w_fill,
            for_each before (@AnimationEngine.render_day Examples.FP st 20 2) w
            = (Ok tt, w_before)
            /\ @AnimationEngine.fill_block Examples.FP st d
                 (fst (AnimationEngine.block_bounds false 20 10 2 d))
                 (snd (AnimationEngine.block_bounds false 20 10 2 d))
                 w_before = (Ok tt, w_fill)
            /\ forall p,
                 @in_block Examples.FP st 20 d p = true ->
                 (forall d', In d' later -> @in_block Examples.FP st 20 d' p = false) ->
                 (later <> [] -> @is_block_start Examples.FP st 20 p = false) ->
                 LEDStripController.get_pixel p (AnimationEngine.led w')
                 = LEDStripController.get_pixel p (AnimationEngine.led w_fill))
    /\ (true = true ->
        forall p,
          0 <= p < 20 ->
          LEDStripController.get_pixel p (AnimationEngine.led w')
          = @countdown_pixel Examples.FP st 20 marker red green
              ([10; 9; 8; 7; 6] ++ [5]) p
              (LEDStripController.get_pixel p (AnimationEngine.led w))).
Proof.
  apply (@C3_markers_after_render Examples.FP
           (Examples.state_on (2025, 12, 20) (Examples.christmas true false))
           (Examples.strip_of Examples.grey Examples.zero_tape)
           (255, 255, 255) (255, 0, 0) (0, 255, 0) [10; 9; 8; 7; 6] 5).
  - reflexivity.
  - vm_compute. reflexivity.
  - reflexivity.
  - intros _. split; vm_compute; reflexivity.
  - intros _. split; reflexivity.
  - reflexivity.
  - vm_compute. discriminate.
  - vm_compute. discriminate.
  - vm_compute. reflexivity.
Defined.

(** The claim C3 fails: days 10 down to 5 are drawn; the block of day 6
    is pixels 10 and 11 and its colour is red, but after the render its
    first pixel has the marker colour, painted by the marker pass of
    day 5. *)
Lemma C3_counterexample :
  let st := Examples.state_on (2025, 12, 20) (Examples.christmas true false) in
  let w := Examples.strip_of Examples.grey Examples.zero_tape in
  let after := AnimationEngine.led (snd (@AnimationEngine.render Examples.FP st w)) in
  (with_marker (settings st) = true
   /\ ColorUtils.string_to_rgb (marker_color (settings st)) = Ok (255, 255, 255))
  /\ AnimationEngine.day_range (is_reverse (settings st)) (countdown_length st)
       (days_remaining st) = [10; 9; 8; 7; 6; 5]
  /\ AnimationEngine.block_bounds (from_pi (settings st)) 20 (countdown_length st)
       (20 / countdown_length st) 6 = (10, 12)
  /\ @day_color Examples.FP st (255, 0, 0) (0, 255, 0) 6 = (255, 0, 0)
  /\ fst (@AnimationEngine.render Examples.FP st w) = Ok tt
  /\ LEDStripController.get_pixel 10 after = (255, 255, 255)
  /\ LEDStripController.get_pixel 11 after = (255, 0, 0).
Proof.
  vm_compute. repeat split.
Qed.

(** ** AnimationEngine: what a render depends on, mode by mode *)

Section RenderInputs.
Context {FP : PyFloat}.
Import AnimationEngine.

(** C2, as the code has it. What the buffer after a render depends on:
    - in breathing mode, on the CountdownState and on the length of the
      strip only: equal states give equal buffers and equal frames on the
      strip, whatever the buffer held and whatever [random] draws;
    - in countdown mode with custom colours, not on the draws of
      [random]; when the colours parse, every pixel of the strip is the
      marker colour if the marker pass of the last iterated day paints
      it, else the colour of the last iterated day whose range contains
      it, else (a pixel in the range of no iterated day) the colour it
      had before the render;
    - in countdown mode without custom colours, on the buffer before and
      on the draws: the pixel loop of a day leaves in every pixel of its
      range the drift of the colour that pixel held, by the two draws
      that follow the draws of the pixels before it, and leaves the other
      pixels as they were; so after the render a pixel that no marker
      pass paints has the colour it had before when it is in the range
      of no iterated day, and the drift of that colour when it is in the
      range of one iterated day only, and two numbers have been drawn
      for every pixel iterated. *)
Theorem C2_render_inputs (st : CountdownState) :
  (days_remaining st > countdown_length st ->
   forall w1 w2,
     LEDStripController.num_pixels (led w1) = LEDStripController.num_pixels (led w2) ->
     fst (render st w1) = Ok tt
     /\ fst (render st w2) = Ok tt
     /\ led (snd (render st w1)) = led (snd (render st w2)))
  /\ (use_custom_colors (settings st) = true ->
      forall l g1 g2,
        fst (render st {| led := l; rng := g1 |})
        = fst (render st {| led := l; rng := g2 |})
        /\ led (snd (render st {| led := l; rng := g1 |}))
           = led (snd (render st {| led := l; rng := g2 |})))
  /\ (use_custom_colors (settings st) = true ->
      days_remaining st <= countdown_length st ->
      countdown_length st <> 0 ->
      forall mc pc sc,
        ColorUtils.string_to_rgb (primary_color (settings st)) = Ok pc ->
        ColorUtils.string_to_rgb (secondary_color (settings st)) = Ok sc ->
        (with_marker (settings st) = true ->
         ColorUtils.string_to_rgb (marker_color (settings st)) = Ok mc) ->
        byte_color pc = true -> byte_color sc = true -> byte_color mc = true ->
        forall w,
          byte_strip (led w) = true ->
          let n := LEDStripController.num_pixels (led w) in
          let days := day_range (is_reverse (settings st)) (countdown_length st)
                        (days_remaining st) in
          exists w',
            render st w = (Ok tt, w')
            /\ rng w' = rng w
            /\ LEDStripController.num_pixels (led w') = n
            /\ LEDStripController.shown (led w') = LEDStripController.np (led w')
            /\ forall p, 0 <= p < n ->
                 LEDStripController.get_pixel p (led w')
                 = countdown_pixel st n mc pc sc days p
                     (LEDStripController.get_pixel p (led w)))
  /\ (use_custom_colors (settings st) = false ->
      forall day_index block_min block_max w,
        byte_strip (led w) = true ->
        exists w',
          fill_block st day_index block_min block_max w = (Ok tt, w')
          /\ rng w' = {| tape := tape (rng w);
                         pos := (pos (rng w)
                                 + 2 * Z.to_nat (block_max - block_min))%nat |}
          /\ (forall p,
                block_min <= p < block_max ->
                0 <= p < LEDStripController.num_pixels (led w) ->
                LEDStripController.get_pixel p (led w')
                = drift_color st day_index (LEDStripController.get_pixel p (led w))
                    (tape (rng w) (pos (rng w) + 2 * Z.to_nat (p - block_min))%nat)
                    (tape (rng w) (pos (rng w) + 2 * Z.to_nat (p - block_min) + 1)%nat))
          /\ (forall p,
                ~ (block_min <= p < block_max) ->
                LEDStripController.get_pixel p (led w')
                = LEDStripController.get_pixel p (led w)))
  /\ (use_custom_colors (settings st) = false ->
      days_remaining st <= countdown_length st ->
      countdown_length st <> 0 ->
      forall mc,
        (with_marker (settings st) = true ->
         ColorUtils.string_to_rgb (marker_color (settings st)) = Ok mc) ->
        byte_color mc = true ->
        forall w,
          byte_strip (led w) = true ->
          let n := LEDStripController.num_pixels (led w) in
          let days := day_range (is_reverse (settings st)) (countdown_length st)
                        (days_remaining st) in
          exists w',
            render st w = (Ok tt, w')
            /\ rng w' = {| tape := tape (rng w);
                           pos := (pos (rng w) + 2 * pixels_iterated st n days)%nat |}
            /\ LEDStripController.num_pixels (led w') = n
            /\ LEDStripController.shown (led w') = LEDStripController.np (led w')
            /\ forall p,
                 0 <= p < n ->
                 marker_pixel st n p = false ->
                 ((forall d, In d days -> in_block st n d p = false) ->
                  LEDStripController.get_pixel p (led w')
                  = LEDStripController.get_pixel p (led w))
                 /\ (forall before d later,
                       days = before ++ d :: later ->
                       in_block st n d p = true ->
                       (forall d', In d' (before ++ later) ->
                                   in_block st n d' p = false) ->
                       LEDStripController.get_pixel p (led w')
                       = drift_color st d (LEDStripController.get_pixel p (led w))
                           (tape (rng w)
                              (pos (rng w)
                               + 2 * (pixels_iterated st n before
                                      + block_offset st n d p))%nat)
                           (tape (rng w)
                              (pos (rng w)
                               + 2 * (pixels_iterated st n before
                                      + block_offset st n d p)
                               + 1)%nat))).
Proof.
  split; [|split; [|split; [|split]]].
  - intros Hmode w1 w2 Hn.
    assert (Hr : forall w, render st w =
                   (Ok tt,
                    {| led := LEDStripController.write (led (snd (_render_breathing st w)));
                       rng := rng (snd (_render_breathing st w)) |})).
    { intros w. unfold render.
      replace (days_remaining st <=? countdown_length st) with false
        by (symmetry; apply Z.leb_gt; lia).
      unfold bind. rewrite _render_breathing_eq. reflexivity. }
    rewrite !Hr. cbn [fst snd led]. repeat split.
    unfold LEDStripController.write.
    rewrite (_render_breathing_deterministic st w1 w2 Hn). reflexivity.
  - intros Hc l g1 g2. apply (led_only_render_custom st Hc). reflexivity.
  - intros Hc Hmode Hlen mc pc sc Hpc Hsc Hmc _ _ _ w _.
    apply (render_countdown_custom st mc pc sc w); assumption.
  - intros Hc d lo hi w _.
    destruct (fill_block_drift st d Hc (Z.to_nat (hi - lo)) lo hi w eq_refl)
      as (w' & E & Hr & _ & Hin & Hout).
    exists w'. repeat split; assumption.
  - intros Hc Hmode Hlen mc Hmc _ w _.
    apply (render_countdown_drift st mc w); assumption.
Qed.

End RenderInputs.

Lemma C2_render_inputs_witness :
  let before_start := Examples.state_on (2025, 12, 1) (Examples.christmas false false) in
  let counting := Examples.state_on (2025, 12, 20) (Examples.christmas true false) in
  let drifting := Examples.state_on (2025, 12, 20) (Examples.christmas false false) in
  let w1 := Examples.strip_of Examples.grey Examples.zero_tape in
  let w2 := Examples.strip_of Examples.bright Examples.ones_tape in
  let l := AnimationEngine.led w1 in
  (fst (@AnimationEngine.render Examples.FP before_start w1) = Ok tt
   /\ fst (@AnimationEngine.render Examples.FP before_start w2) = Ok tt
   /\ AnimationEngine.led (snd (@AnimationEngine.render Examples.FP before_start w1))
      = AnimationEngine.led (snd (@AnimationEngine.render Examples.FP before_start w2)))
  /\ (fst (@AnimationEngine.render Examples.FP counting
             {| AnimationEngine.led := l; AnimationEngine.rng := Examples.zero_tape |})
      = fst (@AnimationEngine.render Examples.FP counting
               {| AnimationEngine.led := l; AnimationEngine.rng := Examples.ones_tape |})
      /\ AnimationEngine.led
           (snd (@AnimationEngine.render Examples.FP counting
                   {| AnimationEngine.led := l; AnimationEngine.rng := Examples.zero_tape |}))
         = AnimationEngine.led
             (snd (@AnimationEngine.render Examples.FP counting
                     {| AnimationEngine.led := l; AnimationEngine.rng := Examples.ones_tape |})))
  /\ (exists w',
        @AnimationEngine.render Examples.FP counting w2 = (Ok tt, w')
        /\ AnimationEngine.rng w' = AnimationEngine.rng w2
        /\ LEDStripController.num_pixels (AnimationEngine.led w') = 20
        /\ LEDStripController.shown (AnimationEngine.led w')
           = LEDStripController.np (AnimationEngine.led w')
        /\ forall p, 0 <= p < 20 ->
             LEDStripController.get_pixel p (AnimationEngine.led w')
             = @countdown_pixel Examples.FP counting 20
                 (255, 255, 255) (255, 0, 0) (0, 255, 0)
                 [10; 9; 8; 7; 6; 5] p
                 (LEDStripController.get_pixel p (AnimationEngine.led w2)))
  /\ (exists w',
        @AnimationEngine.fill_block Examples.FP drifting 10 18 20 w2 = (Ok tt, w')
        /\ AnimationEngine.rng w'
           = {| tape := tape (AnimationEngine.rng w2);
                pos := (pos (AnimationEngine.rng w2) + 2 * Z.to_nat (20 - 18))%nat |}
        /\ (forall p,
              18 <= p < 20 ->
              0 <= p < LEDStripController.num_pixels (AnimationEngine.led w2) ->
              LEDStripController.get_pixel p (AnimationEngine.led w')
              = @drift_color Examples.FP drifting 10
                  (LEDStripController.get_pixel p (AnimationEngine.led w2))
                  (tape (AnimationEngine.rng w2)
                     (pos (AnimationEngine.rng w2) + 2 * Z.to_nat (p - 18))%nat)
                  (tape (AnimationEngine.rng w2)
                     (pos (AnimationEngine.rng w2) + 2 * Z.to_nat (p - 18) + 1)%nat))
        /\ (forall p,
              ~ (18 <= p < 20) ->
              LEDStripController.get_pixel p (AnimationEngine.led w')
              = LEDStripController.get_pixel p (AnimationEngine.led w2)))
  /\ (exists w',
        @AnimationEngine.render Examples.FP drifting w2 = (Ok tt, w')
        /\ AnimationEngine.rng w'
           = {| tape := tape (AnimationEngine.rng w2);
                pos := (pos (AnimationEngine.rng w2)
                        + 2 * @pixels_iterated Examples.FP drifting 20
                                [10; 9; 8; 7; 6; 5]%Z)%nat |}
        /\ LEDStripController.num_pixels (AnimationEngine.led w') = 20
        /\ LEDStripController.shown (AnimationEngine.led w')
           = LEDStripController.np (AnimationEngine.led w')
        /\ forall p,
             0 <= p < 20 ->
             @marker_pixel Examples.FP drifting 20 p = false ->
             ((forall d, In d [10; 9; 8; 7; 6; 5] ->
                         @in_block Examples.FP drifting 20 d p = false) ->
              LEDStripController.get_pixel p (AnimationEngine.led w')
              = LEDStripController.get_pixel p (AnimationEngine.led w2))
             /\ (forall before d later,
                   [10; 9; 8; 7; 6; 5] = before ++ d :: later ->
                   @in_block Examples.FP drifting 20 d p = true ->
                   (forall d', In d' (before ++ later) ->
                               @in_block Examples.FP drifting 20 d' p = false) ->
                   LEDStripController.get_pixel p (AnimationEngine.led w')
                   = @drift_color Examples.FP drifting d
                       (LEDStripController.get_pixel p (AnimationEngine.led w2))
                       (tape (AnimationEngine.rng w2)
                          (pos (AnimationEngine.rng w2)
                           + 2 * (@pixels_iterated Examples.FP drifting 20 before
                                  + @block_offset Examples.FP drifting 20 d p))%nat)
                       (tape (AnimationEngine.rng w2)
                          (pos (AnimationEngine.rng w2)
                           + 2 * (@pixels_iterated Examples.FP drifting 20 before
                                  + @block_offset Examples.FP drifting 20 d p)
                           + 1)%nat))).
Proof.
  split; [|split; [|split; [|split]]].
  - apply (proj1 (@C2_render_inputs Examples.FP
                    (Examples.state_on (2025, 12, 1) (Examples.christmas false false)))).
    + vm_compute. reflexivity.
    + reflexivity.
  - apply (proj1 (proj2 (@C2_render_inputs Examples.FP
                    (Examples.state_on (2025, 12, 20) (Examples.christmas true false))))).
    reflexivity.
  - apply (proj1 (proj2 (proj2 (@C2_render_inputs Examples.FP
                    (Examples.state_on (2025, 12, 20) (Examples.christmas true false)))))).
    + reflexivity.
    + vm_compute. discriminate.
    + vm_compute. discriminate.
    + vm_compute. reflexivity.
    + vm_compute. reflexivity.
    + intros _. vm_compute. reflexivity.
    + reflexivity.
    + reflexivity.
    + reflexivity.
    + reflexivity.
  - apply (proj1 (proj2 (proj2 (proj2 (@C2_render_inputs Examples.FP
                    (Examples.state_on (2025, 12, 20) (Examples.christmas false false))))))).
    + reflexivity.
    + reflexivity.
  - apply (proj2 (proj2 (proj2 (proj2 (@C2_render_inputs Examples.FP
                    (Examples.state_on (2025, 12, 20) (Examples.christmas false false)))))))
      with (mc := (255, 255, 255)).
    + reflexivity.
    + vm_compute. discriminate.
    + vm_compute. discriminate.
    + intros _. vm_compute. reflexivity.
    + reflexivity.
    + reflexivity.
Defined.

(** The claim C2 fails. Without custom colours, the same CountdownState
    gives different pixels from different buffers before the render, and
    from the same buffer with different draws of [random]; with custom
    colours pixel 1, which is in the block of a day that is not drawn and
    is not its first pixel, keeps the colour of the buffer before the
    render. *)
Lemma C2_counterexample :
  let drifting := Examples.state_on (2025, 12, 20) (Examples.christmas false false) in
  let custom := Examples.state_on (2025, 12, 20) (Examples.christmas true false) in
  let pixel p st pixels tape :=
    LEDStripController.get_pixel p
      (AnimationEngine.led
         (snd (@AnimationEngine.render Examples.FP st (Examples.strip_of pixels tape)))) in
  (pixel 9 drifting Examples.grey Examples.zero_tape = (3, 15, 3)
   /\ pixel 9 drifting Examples.bright Examples.zero_tape = (194, 206, 194)
   /\ pixel 9 drifting Examples.grey Examples.ones_tape = (15, 3, 15))
  /\ (pixel 1 custom Examples.grey Examples.zero_tape = (9, 9, 9)
      /\ pixel 1 custom Examples.bright Examples.zero_tape = (200, 200, 200)).
Proof.
  vm_compute. repeat split.
Qed.
